(** * NYSEG bill extractor: a shallow embedding of [nyseg-extractor.js]

    The extraction engine is a set of pure JavaScript functions over one
    string of PDF text.  The embedding keeps the shape of the source:

    - a JavaScript string is the list of its UTF-16 code units ([str]);
    - a JavaScript Number is an IEEE-754 binary64 value ([spec_float] at
      precision 53), with the operations [+], [*], [/], [>], [===] taken
      from the reference implementation of the standard library;
    - a regular expression is a syntax tree run by a backtracking matcher
      that follows the priority order of the ECMAScript semantics;
    - a [TypeError] is the [Throw] branch of [completion];
    - the services of the host (local time zone, legacy date parser) are
      the two fields of [Host].

    Beside the extractor the file embeds what surrounds it: the assembly
    of the text of a page in [extractTextFromPDF], the loop of
    [processFiles] over the results of the PDF reader, and [escapeCSV]
    and [formatDateCSV] of the CSV export. *)

From Stdlib Require Import ZArith NArith List Bool String Ascii Lia.
From Stdlib Require Import Floats.SpecFloat.
Import ListNotations.

(** ** Strings *)

Definition str := list N.

Definition js (s : string) : str :=
  map N_of_ascii (list_ascii_of_string s).

Definition in_range (lo hi c : N) : bool := (lo <=? c)%N && (c <=? hi)%N.

Definition is_digit (c : N) : bool := in_range 48 57 c.
Definition is_upper (c : N) : bool := in_range 65 90 c.
Definition is_lower (c : N) : bool := in_range 97 122 c.

(** [\w]: ASCII letters, digits and the underscore. *)
Definition is_word (c : N) : bool :=
  is_upper c || is_lower c || is_digit c || (c =? 95)%N.

(** [\s], also the characters [trim] and the number parsers skip:
    WhiteSpace and LineTerminator of ECMAScript. *)
Definition is_space (c : N) : bool :=
  in_range 9 13 c || (c =? 32)%N || (c =? 160)%N || (c =? 5760)%N
  || in_range 8192 8202 c || (c =? 8232)%N || (c =? 8233)%N
  || (c =? 8239)%N || (c =? 8287)%N || (c =? 12288)%N || (c =? 65279)%N.

Fixpoint str_eqb (a b : str) : bool :=
  match a, b with
  | [], [] => true
  | x :: a', y :: b' => (x =? y)%N && str_eqb a' b'
  | _, _ => false
  end.

Fixpoint skip_space (s : str) : str :=
  match s with
  | c :: t => if is_space c then skip_space t else s
  | [] => []
  end.

(** [s.trim()] *)
Definition trim (s : str) : str :=
  rev (skip_space (rev (skip_space s))).

(** [s.replace(/,/g, '')] *)
Definition remove_commas (s : str) : str :=
  filter (fun c => negb (c =? 44)%N) s.

(** [s.split(/\s+/)]: [ws] tells that the previous character belonged to
    a separator, so that a run of white space separates once. *)
Fixpoint split_space_aux (s : str) (cur : str) (ws : bool) : list str :=
  match s with
  | [] => [rev cur]
  | c :: t =>
      if is_space c
      then if ws then split_space_aux t cur true
           else rev cur :: split_space_aux t [] true
      else split_space_aux t (c :: cur) false
  end.

Definition split_space (s : str) : list str := split_space_aux s [] false.

(** [s.startsWith(p)], with the remainder. *)
Fixpoint strip_prefix (p s : str) : option str :=
  match p, s with
  | [], _ => Some s
  | x :: p', y :: s' => if (x =? y)%N then strip_prefix p' s' else None
  | _ :: _, [] => None
  end.

Fixpoint span (p : N -> bool) (s : str) : str * str :=
  match s with
  | c :: t => if p c then let '(a, b) := span p t in (c :: a, b) else ([], s)
  | [] => ([], [])
  end.

(** ** Completions *)

Inductive js_error := TypeError.

Inductive completion (A : Type) :=
| Normal (a : A)
| Throw (e : js_error).

Arguments Normal {A} a.
Arguments Throw {A} e.

Definition bind {A B : Type} (c : completion A) (f : A -> completion B)
  : completion B :=
  match c with
  | Normal a => f a
  | Throw e => Throw e
  end.

Notation "x <- c ;; k" := (bind c (fun x => k))
  (at level 61, c at next level, right associativity).

(** ** Numbers *)

Module Number.

Definition prec : Z := 53.
Definition emax : Z := 1024.

Definition t := spec_float.

Definition zero : t := S754_zero false.
Definition NaN : t := S754_nan.

Definition add : t -> t -> t := SFadd prec emax.
Definition mul : t -> t -> t := SFmul prec emax.
Definition div : t -> t -> t := SFdiv prec emax.

(** [x < y] and [x === y]; both are false on NaN, and the two zeros
    are equal. *)
Definition ltb : t -> t -> bool := SFltb.
Definition eqb : t -> t -> bool := SFeqb.

(** The double nearest to the integer [z]. *)
Definition of_Z (z : Z) : t := binary_normalize prec emax z 0 false.

(** The double nearest to [n / d], of sign [neg]: the division of the
    library, which rounds the exact quotient of the two mantissas. *)
Definition of_ratio (neg : bool) (n : Z) (d : positive) : t :=
  match n with
  | Zpos p => div (S754_finite neg p 0) (S754_finite false d 0)
  | _ => S754_zero neg
  end.

(** [m * 10 ^ e], rounded once. *)
Definition of_decimal (neg : bool) (m e : Z) : t :=
  match e with
  | Zneg p => of_ratio neg m (10 ^ p)
  | _ => of_ratio neg (m * 10 ^ e) 1
  end.

(** ToBoolean on a Number. *)
Definition truthy (x : t) : bool :=
  match x with
  | S754_nan | S754_zero _ => false
  | _ => true
  end.

(** [x || 0] *)
Definition or_zero (x : t) : t := if truthy x then x else zero.

(** Left-to-right sum from [0], as a loop of [+=] computes it. *)
Definition sum (l : list t) : t := fold_left add l zero.

End Number.

Definition digit_value (c : N) : Z := Z.of_N c - 48.

Definition digits_value (ds : str) : Z :=
  fold_left (fun acc c => 10 * acc + digit_value c)%Z ds 0%Z.

(** [+] or [-] in front of a numeral. *)
Definition take_sign (s : str) : bool * str :=
  match s with
  | 43%N :: t => (false, t)
  | 45%N :: t => (true, t)
  | _ => (false, s)
  end.

(** The exponent part [e[+-]digits] of a decimal literal; it is part of
    the literal only when at least one digit follows. *)
Definition exponent_part (s : str) : Z :=
  match s with
  | c :: t =>
      if (c =? 101)%N || (c =? 69)%N then
        let '(neg, t') := take_sign t in
        match fst (span is_digit t') with
        | [] => 0%Z
        | ds => if neg then (- digits_value ds)%Z else digits_value ds
        end
      else 0%Z
  | [] => 0%Z
  end.

(** [parseFloat(s)]: the longest prefix of the trimmed string that is a
    StrDecimalLiteral, NaN when there is none. *)
Definition parseFloat (s : str) : Number.t :=
  let '(neg, s1) := take_sign (skip_space s) in
  match strip_prefix (js "Infinity") s1 with
  | Some _ => S754_infinity neg
  | None =>
      let '(ip, s2) := span is_digit s1 in
      let '(fp, s3) :=
        match s2 with
        | 46%N :: t => span is_digit t
        | _ => ([], s2)
        end in
      match ip ++ fp with
      | [] => Number.NaN
      | ds =>
          Number.of_decimal neg (digits_value ds)
            (exponent_part s3 - Z.of_nat (List.length fp))
      end
  end.

Definition hex_value (c : N) : option Z :=
  if is_digit c then Some (Z.of_N c - 48)%Z
  else if in_range 97 102 c then Some (Z.of_N c - 87)%Z
  else if in_range 65 70 c then Some (Z.of_N c - 55)%Z
  else None.

Definition is_hex (c : N) : bool :=
  match hex_value c with Some _ => true | None => false end.

Definition hex_digits_value (ds : str) : Z :=
  fold_left (fun acc c =>
    16 * acc + match hex_value c with Some v => v | None => 0 end)%Z ds 0%Z.

(** The numeral [parseInt] reads when no radix is given: sign and
    magnitude, [None] for NaN.  A [0x] prefix selects radix 16. *)
Definition parseInt_parts (s : str) : option (bool * Z) :=
  let '(neg, s1) := take_sign (skip_space s) in
  match s1 with
  | 48%N :: x :: t =>
      if (x =? 120)%N || (x =? 88)%N then
        match fst (span is_hex t) with
        | [] => None
        | ds => Some (neg, hex_digits_value ds)
        end
      else
        Some (neg, digits_value (fst (span is_digit s1)))
  | _ =>
      match fst (span is_digit s1) with
      | [] => None
      | ds => Some (neg, digits_value ds)
      end
  end.

(** [parseInt(x)]; [undefined] is read as the string ["undefined"], which
    has no digits. *)
Definition parseInt (x : option str) : Number.t :=
  match x with
  | None => Number.NaN
  | Some s =>
      match parseInt_parts s with
      | Some (neg, n) => Number.of_decimal neg n 0
      | None => Number.NaN
      end
  end.

(** The same numeral as an exact integer, for the date arithmetic. *)
Definition parseInt_Z (x : option str) : option Z :=
  match x with
  | None => None
  | Some s =>
      match parseInt_parts s with
      | Some (neg, n) => Some (if neg then - n else n)%Z
      | None => None
      end
  end.

(** [parseNumber], lines 40-43. *)
Definition parseNumber (s : option str) : Number.t :=
  match s with
  | None | Some [] => Number.zero
  | Some s => Number.or_zero (parseFloat (remove_commas s))
  end.

(** [reconstructRate], lines 52-55. *)
Definition reconstructRate (rateDigits : option str) : Number.t :=
  match rateDigits with
  | None | Some [] => Number.zero
  | Some ds => Number.or_zero (parseFloat (js "0." ++ ds))
  end.

(** ** Regular expressions *)

Module RegExp.

(** The syntax the patterns of the extractor need.  [x+] is [x x*],
    [x?] is [(?:x|)] and [x{n}] is [n] copies of [x]; a quantifier is
    greedy unless [Star false]. *)
Inductive node :=
| Empty
| Char (c : N)
| Class (p : N -> bool)
| Seq (a b : node)
| Alt (a b : node)
| Star (greedy : bool) (a : node)
| Group (i : nat) (a : node)
| WordBoundary.

Record t := { source : node; global : bool; ignoreCase : bool }.

(** A position of the matcher: the code unit before it, the input that
    remains, the index, and the captures made so far (latest first). *)
Record state := {
  last : option N;
  rest : str;
  idx : nat;
  caps : list (nat * str)
}.

(** Canonicalize of the [i] flag.  All the characters of the patterns
    are ASCII, and a code unit outside ASCII never canonicalizes into
    ASCII, so that only the ASCII letters are folded. *)
Definition upper (c : N) : N := if is_lower c then (c - 32)%N else c.
Definition lower (c : N) : N := if is_upper c then (c + 32)%N else c.

Definition char_matches (ic : bool) (c x : N) : bool :=
  if ic then (upper x =? upper c)%N else (x =? c)%N.

Definition class_matches (ic : bool) (p : N -> bool) (x : N) : bool :=
  p x || (ic && (p (upper x) || p (lower x))).

Definition word_at (c : option N) : bool :=
  match c with Some x => is_word x | None => false end.

Definition step (s : state) (c : N) (tl : str) : state :=
  {| last := Some c; rest := tl; idx := S (idx s); caps := caps s |}.

Definition capture (i : nat) (s e : state) : state :=
  {| last := last e; rest := rest e; idx := idx e;
     caps := (i, firstn (idx e - idx s) (rest s)) :: caps e |}.

(** The iterations of a star over [body], the matcher of the starred
    pattern, before the continuation [k].  An iteration that consumes
    nothing is refused, as in RepeatMatcher; the counter [n] starts
    above the length of the remaining input and is never exhausted. *)
Fixpoint star_loop (greedy : bool)
  (body : (state -> option state) -> state -> option state)
  (k : state -> option state) (n : nat) (s : state) {struct n}
  : option state :=
  match n with
  | O => k s
  | S n' =>
      let again :=
        body (fun s' => if (idx s <? idx s')%nat
                        then star_loop greedy body k n' s'
                        else None) in
      if greedy then
        match again s with
        | Some e => Some e
        | None => k s
        end
      else
        match k s with
        | Some e => Some e
        | None => again s
        end
  end.

(** The backtracking matcher, in continuation-passing style: [k] is
    the rest of the pattern, and the first alternative that lets [k]
    succeed wins. *)
Fixpoint run (ic : bool) (r : node) (k : state -> option state)
  (s : state) {struct r} : option state :=
  match r with
  | Empty => k s
  | Char c =>
      match rest s with
      | x :: tl => if char_matches ic c x then k (step s x tl) else None
      | [] => None
      end
  | Class p =>
      match rest s with
      | x :: tl => if class_matches ic p x then k (step s x tl) else None
      | [] => None
      end
  | Seq a b => run ic a (run ic b k) s
  | Alt a b =>
      match run ic a k s with
      | Some e => Some e
      | None => run ic b k s
      end
  | Star greedy a =>
      star_loop greedy (run ic a) k (S (List.length (rest s))) s
  | Group i a => run ic a (fun e => k (capture i s e)) s
  | WordBoundary =>
      if xorb (word_at (last s)) (word_at (hd_error (rest s)))
      then k s else None
  end.

Fixpoint ngroups (r : node) : nat :=
  match r with
  | Seq a b | Alt a b => Nat.max (ngroups a) (ngroups b)
  | Star _ a => ngroups a
  | Group i a => Nat.max i (ngroups a)
  | _ => O
  end.

Fixpoint lookup (i : nat) (l : list (nat * str)) : option str :=
  match l with
  | (j, v) :: l' => if (i =? j)%nat then Some v else lookup i l'
  | [] => None
  end.

(** The first match at or after a position: its start and its end. *)
Fixpoint search (ic : bool) (r : node) (lst : option N) (s : str)
  (i : nat) : option (state * state) :=
  let st := {| last := lst; rest := s; idx := i; caps := [] |} in
  match run ic r Some st with
  | Some e => Some (st, e)
  | None =>
      match s with
      | c :: tl => search ic r (Some c) tl (S i)
      | [] => None
      end
  end.

(** The array of a match: the matched text, then the groups, where a
    group that took no part is [undefined]. *)
Definition match_array (r : node) (se : state * state)
  : list (option str) :=
  let '(s, e) := se in
  Some (firstn (idx e - idx s) (rest s))
  :: map (fun i => lookup i (caps e)) (seq 1 (ngroups r)).

(** [re.exec(text)] from index 0. *)
Definition exec (re : t) (text : str) : option (list (option str)) :=
  option_map (match_array (source re))
    (search (ignoreCase re) (source re) None text O).

(** The successive matches of a global expression: each search starts
    where the previous match ended, one further after an empty match. *)
Fixpoint all_from (ic : bool) (r : node) (fuel : nat) (lst : option N)
  (s : str) (i : nat) : list (list (option str)) :=
  match fuel with
  | O => []
  | S fuel' =>
      match search ic r lst s i with
      | None => []
      | Some (st, e) =>
          match_array r (st, e)
          :: (if (idx st <? idx e)%nat
              then all_from ic r fuel' (last e) (rest e) (idx e)
              else match rest e with
                   | c :: tl => all_from ic r fuel' (Some c) tl (S (idx e))
                   | [] => []
                   end)
      end
  end.

Definition all_matches (re : t) (text : str) : list (list (option str)) :=
  all_from (ignoreCase re) (source re) (S (List.length text)) None text O.

(** *** Pattern combinators *)

Definition cat (l : list node) : node := fold_right Seq Empty l.
Definition lit (s : string) : node := cat (map Char (js s)).
Definition star (a : node) : node := Star true a.
Definition lazy_star (a : node) : node := Star false a.
Definition plus (a : node) : node := Seq a (Star true a).
Definition opt (a : node) : node := Alt a Empty.
Definition times (n : nat) (a : node) : node := cat (repeat a n).
Definition alts (l : list node) : node :=
  match l with
  | [] => Empty
  | a :: l' => fold_left Alt l' a
  end.

Definition d : node := Class is_digit.                        (* \d *)
Definition w : node := Class is_word.                         (* \w *)
Definition s : node := Class is_space.                        (* \s *)
Definition AZ : node := Class is_upper.                       (* [A-Z] *)
Definition AZs : node :=                                      (* [A-Z\s] *)
  Class (fun c => is_upper c || is_space c).
Definition any : node := Class (fun _ => true).               (* [\s\S] *)
Definition dcp : node :=                                      (* [\d,.] *)
  Class (fun c => is_digit c || (c =? 44)%N || (c =? 46)%N).
Definition dp : node :=                                       (* [\d.] *)
  Class (fun c => is_digit c || (c =? 46)%N).

Definition regex (r : node) : t :=
  {| source := r; global := false; ignoreCase := false |}.
Definition regex_i (r : node) : t :=
  {| source := r; global := false; ignoreCase := true |}.
Definition regex_g (r : node) : t :=
  {| source := r; global := true; ignoreCase := false |}.
Definition regex_gi (r : node) : t :=
  {| source := r; global := true; ignoreCase := true |}.

End RegExp.

(** [text.match(re)]: the array of the first match, or with the [g] flag
    the array of all matched texts; [null] when there is no match. *)
Definition String_match (re : RegExp.t) (text : str)
  : option (list (option str)) :=
  if RegExp.global re then
    match RegExp.all_matches re text with
    | [] => None
    | ms => Some (map (fun m => nth 0 m None) ms)
    end
  else RegExp.exec re text.

(** [[...text.matchAll(re)]]; a TypeError without the [g] flag. *)
Definition String_matchAll (re : RegExp.t) (text : str)
  : completion (list (list (option str))) :=
  if RegExp.global re then Normal (RegExp.all_matches re text)
  else Throw TypeError.

(** [m[i]] on an array of strings; [undefined] outside. *)
Definition at_ (m : list (option str)) (i : nat) : option str :=
  nth i m None.

(** [String(x)] for string concatenation. *)
Definition to_String (x : option str) : str :=
  match x with Some v => v | None => js "undefined" end.

(** ** Dates *)

Module Date.

(** A Date object: its time value, milliseconds since the epoch in
    UTC, or the invalid date.  The dates this program subtracts have
    years from 1950 to 2051: their time values are integers far below
    2^53, their difference is exact in double arithmetic, and its
    quotient by [msPerDay] is below 2^16, where the doubles are much
    closer to one another than the multiples of [1 / msPerDay], so
    that rounding the quotient does not change its ceiling.  Time
    values are therefore kept in [Z]. *)
Inductive t :=
| Invalid
| Valid (tv : Z).

Local Open Scope Z_scope.

Definition msPerDay : Z := 86400000.

Definition DayFromYear (y : Z) : Z :=
  365 * (y - 1970) + (y - 1969) / 4 - (y - 1901) / 100 + (y - 1601) / 400.

Definition InLeapYear (y : Z) : bool :=
  ((y mod 4 =? 0) && negb (y mod 100 =? 0)) || (y mod 400 =? 0).

(** Days of the year before month [m] (0 is January). *)
Definition DayWithinYear (leap : bool) (m : Z) : Z :=
  let l := if leap then 1 else 0 in
  match m with
  | 0 => 0 | 1 => 31 | 2 => 59 + l | 3 => 90 + l | 4 => 120 + l
  | 5 => 151 + l | 6 => 181 + l | 7 => 212 + l | 8 => 243 + l
  | 9 => 273 + l | 10 => 304 + l | _ => 334 + l
  end.

(** MakeDay: months outside 0..11 carry into the year, and the day of
    the month is an offset, so that day 0 is the last day of the
    previous month. *)
Definition MakeDay (year month date : Z) : Z :=
  let ym := year + month / 12 in
  let mn := month mod 12 in
  DayFromYear ym + DayWithinYear (InLeapYear ym) mn + date - 1.

(** The ceiling of [a / b]. *)
Definition ceil_div (a b : Z) : Z := - ((- a) / b).

End Date.

(** What the program takes from its host: the offset of local time at a
    local time value (LocalTZA), and the implementation-defined parser
    behind [new Date(string)]. *)
Record Host := {
  LocalTZA : Z -> Z;
  Date_parse : str -> Date.t
}.

(** [new Date(year, month, day)]: local midnight of that day, as a UTC
    time value.  A year from 0 to 99 means 1900 + year; a NaN argument
    gives the invalid date. *)
Definition new_Date (h : Host) (year month day : option Z) : Date.t :=
  match year, month, day with
  | Some y, Some m, Some dd =>
      let yr := if (0 <=? y)%Z && (y <=? 99)%Z then (1900 + y)%Z else y in
      let local := (Date.MakeDay yr m dd * Date.msPerDay)%Z in
      Date.Valid (local - LocalTZA h local)
  | _, _, _ => Date.Invalid
  end.

(** What [new Date(string)] makes of a string that is not in the ISO
    format is left to the engine.  The sample hosts read the form that
    the statement date has on a bill, [Month D, YYYY], the way V8 does:
    a month is a word whose first three letters are those of an English
    month name, in any case; the day is a number from 1 to 31, carried
    into the next month when the month is shorter; a year below 50
    means 2000 + year and a year from 50 to 99 means 1900 + year; the
    date is local midnight.  Strings of another form they do not
    read. *)
Definition is_letter (c : N) : bool := is_upper c || is_lower c.

Definition to_lower (c : N) : N := if is_upper c then (c + 32)%N else c.

Definition month_names : list string :=
  [ "jan"; "feb"; "mar"; "apr"; "may"; "jun";
    "jul"; "aug"; "sep"; "oct"; "nov"; "dec" ]%string.

Fixpoint month_index (p : str) (names : list string) (i : Z) : option Z :=
  match names with
  | [] => None
  | n :: names' =>
      if str_eqb p (js n) then Some i else month_index p names' (i + 1)%Z
  end.

Definition legacy_year (y : Z) : Z :=
  if (y <? 50)%Z then (2000 + y)%Z
  else if (y <? 100)%Z then (1900 + y)%Z
  else y.

Definition legacy_parse (tza : Z -> Z) (s : str) : Date.t :=
  let '(word, r1) := span is_letter s in
  let '(ws1, r2) := span is_space r1 in
  let '(ds, r3) := span is_digit r2 in
  let r4 := match r3 with 44%N :: t => t | _ => r3 end in
  let '(ws2, r5) := span is_space r4 in
  let '(ys, r6) := span is_digit r5 in
  let day := digits_value ds in
  match month_index (map to_lower (firstn 3 word)) month_names 0 with
  | Some month =>
      if (1 <=? List.length ws1)%nat
         && (1 <=? List.length ds)%nat && (List.length ds <=? 2)%nat
         && (1 <=? List.length ws2)%nat
         && (List.length ys =? 4)%nat
         && (List.length r6 =? 0)%nat
         && (1 <=? day)%Z && (day <=? 31)%Z
      then
        let local :=
          (Date.MakeDay (legacy_year (digits_value ys)) month day
           * Date.msPerDay)%Z in
        Date.Valid (local - tza local)
      else Date.Invalid
  | None => Date.Invalid
  end.

(** The host of a machine whose local time is UTC throughout. *)
Definition utc_host : Host :=
  {| LocalTZA := fun _ => 0%Z; Date_parse := legacy_parse (fun _ => 0%Z) |}.

(** The host of a machine on New York time around the end of daylight
    saving time in 2025 (2 November, 02:00 local time): four hours
    behind UTC before, five hours after. *)
Definition new_york_2025 : Host :=
  {| LocalTZA := fun local =>
       if (local <? 1762048800000)%Z then (-14400000)%Z else (-18000000)%Z;
     Date_parse :=
       legacy_parse
         (fun local =>
            if (local <? 1762048800000)%Z then (-14400000)%Z
            else (-18000000)%Z) |}.

(** [Math.ceil(Math.abs(b - a) / (1000 * 60 * 60 * 24))] on two dates,
    lines 451-452; NaN when one of them is invalid. *)
Definition days_between (a b : Date.t) : Number.t :=
  match a, b with
  | Date.Valid ta, Date.Valid tb =>
      Number.of_Z (Date.ceil_div (Z.abs (tb - ta)) Date.msPerDay)
  | _, _ => Number.NaN
  end.

(** ** The bill record, lines 116-155 *)

Module ServicePeriod.
Record t := {
  start : option Date.t;
  end_ : option Date.t;
  days : Number.t
}.

Definition set_start (v : option Date.t) (r : t) : t :=
  {| start := v; end_ := end_ r; days := days r |}.
Definition set_end_ (v : option Date.t) (r : t) : t :=
  {| start := start r; end_ := v; days := days r |}.
Definition set_days (v : Number.t) (r : t) : t :=
  {| start := start r; end_ := end_ r; days := v |}.
End ServicePeriod.

Module Electricity.
Record t := {
  usage : Number.t;
  basicServiceCharge : Number.t;
  deliveryRate : Number.t;
  deliveryCharge : Number.t;
  transitionRate : Number.t;
  transitionCharge : Number.t;
  sbcRate : Number.t;
  sbcCharge : Number.t;
  supplyRate : Number.t;
  supplyCharge : Number.t;
  totalDelivery : Number.t;
  totalSupply : Number.t;
  totalTaxes : Number.t;
  totalCost : Number.t
}.

Definition set_usage (v : Number.t) (r : t) : t :=
  {| usage := v; basicServiceCharge := basicServiceCharge r;
     deliveryRate := deliveryRate r; deliveryCharge := deliveryCharge r;
     transitionRate := transitionRate r;
     transitionCharge := transitionCharge r; sbcRate := sbcRate r;
     sbcCharge := sbcCharge r; supplyRate := supplyRate r;
     supplyCharge := supplyCharge r; totalDelivery := totalDelivery r;
     totalSupply := totalSupply r; totalTaxes := totalTaxes r;
     totalCost := totalCost r |}.
Definition set_basicServiceCharge (v : Number.t) (r : t) : t :=
  {| usage := usage r; basicServiceCharge := v;
     deliveryRate := deliveryRate r; deliveryCharge := deliveryCharge r;
     transitionRate := transitionRate r;
     transitionCharge := transitionCharge r; sbcRate := sbcRate r;
     sbcCharge := sbcCharge r; supplyRate := supplyRate r;
     supplyCharge := supplyCharge r; totalDelivery := totalDelivery r;
     totalSupply := totalSupply r; totalTaxes := totalTaxes r;
     totalCost := totalCost r |}.
Definition set_deliveryRate (v : Number.t) (r : t) : t :=
  {| usage := usage r; basicServiceCharge := basicServiceCharge r;
     deliveryRate := v; deliveryCharge := deliveryCharge r;
     transitionRate := transitionRate r;
     transitionCharge := transitionCharge r; sbcRate := sbcRate r;
     sbcCharge := sbcCharge r; supplyRate := supplyRate r;
     supplyCharge := supplyCharge r; totalDelivery := totalDelivery r;
     totalSupply := totalSupply r; totalTaxes := totalTaxes r;
     totalCost := totalCost r |}.
Definition set_deliveryCharge (v : Number.t) (r : t) : t :=
  {| usage := usage r; basicServiceCharge := basicServiceCharge r;
     deliveryRate := deliveryRate r; deliveryCharge := v;
     transitionRate := transitionRate r;
     transitionCharge := transitionCharge r; sbcRate := sbcRate r;
     sbcCharge := sbcCharge r; supplyRate := supplyRate r;
     supplyCharge := supplyCharge r; totalDelivery := totalDelivery r;
     totalSupply := totalSupply r; totalTaxes := totalTaxes r;
     totalCost := totalCost r |}.
Definition set_transitionRate (v : Number.t) (r : t) : t :=
  {| usage := usage r; basicServiceCharge := basicServiceCharge r;
     deliveryRate := deliveryRate r; deliveryCharge := deliveryCharge r;
     transitionRate := v; transitionCharge := transitionCharge r;
     sbcRate := sbcRate r; sbcCharge := sbcCharge r;
     supplyRate := supplyRate r; supplyCharge := supplyCharge r;
     totalDelivery := totalDelivery r; totalSupply := totalSupply r;
     totalTaxes := totalTaxes r; totalCost := totalCost r |}.
Definition set_transitionCharge (v : Number.t) (r : t) : t :=
  {| usage := usage r; basicServiceCharge := basicServiceCharge r;
     deliveryRate := deliveryRate r; deliveryCharge := deliveryCharge r;
     transitionRate := transitionRate r; transitionCharge := v;
     sbcRate := sbcRate r; sbcCharge := sbcCharge r;
     supplyRate := supplyRate r; supplyCharge := supplyCharge r;
     totalDelivery := totalDelivery r; totalSupply := totalSupply r;
     totalTaxes := totalTaxes r; totalCost := totalCost r |}.
Definition set_sbcRate (v : Number.t) (r : t) : t :=
  {| usage := usage r; basicServiceCharge := basicServiceCharge r;
     deliveryRate := deliveryRate r; deliveryCharge := deliveryCharge r;
     transitionRate := transitionRate r;
     transitionCharge := transitionCharge r; sbcRate := v;
     sbcCharge := sbcCharge r; supplyRate := supplyRate r;
     supplyCharge := supplyCharge r; totalDelivery := totalDelivery r;
     totalSupply := totalSupply r; totalTaxes := totalTaxes r;
     totalCost := totalCost r |}.
Definition set_sbcCharge (v : Number.t) (r : t) : t :=
  {| usage := usage r; basicServiceCharge := basicServiceCharge r;
     deliveryRate := deliveryRate r; deliveryCharge := deliveryCharge r;
     transitionRate := transitionRate r;
     transitionCharge := transitionCharge r; sbcRate := sbcRate r;
     sbcCharge := v; supplyRate := supplyRate r;
     supplyCharge := supplyCharge r; totalDelivery := totalDelivery r;
     totalSupply := totalSupply r; totalTaxes := totalTaxes r;
     totalCost := totalCost r |}.
Definition set_supplyRate (v : Number.t) (r : t) : t :=
  {| usage := usage r; basicServiceCharge := basicServiceCharge r;
     deliveryRate := deliveryRate r; deliveryCharge := deliveryCharge r;
     transitionRate := transitionRate r;
     transitionCharge := transitionCharge r; sbcRate := sbcRate r;
     sbcCharge := sbcCharge r; supplyRate := v;
     supplyCharge := supplyCharge r; totalDelivery := totalDelivery r;
     totalSupply := totalSupply r; totalTaxes := totalTaxes r;
     totalCost := totalCost r |}.
Definition set_supplyCharge (v : Number.t) (r : t) : t :=
  {| usage := usage r; basicServiceCharge := basicServiceCharge r;
     deliveryRate := deliveryRate r; deliveryCharge := deliveryCharge r;
     transitionRate := transitionRate r;
     transitionCharge := transitionCharge r; sbcRate := sbcRate r;
     sbcCharge := sbcCharge r; supplyRate := supplyRate r;
     supplyCharge := v; totalDelivery := totalDelivery r;
     totalSupply := totalSupply r; totalTaxes := totalTaxes r;
     totalCost := totalCost r |}.
Definition set_totalDelivery (v : Number.t) (r : t) : t :=
  {| usage := usage r; basicServiceCharge := basicServiceCharge r;
     deliveryRate := deliveryRate r; deliveryCharge := deliveryCharge r;
     transitionRate := transitionRate r;
     transitionCharge := transitionCharge r; sbcRate := sbcRate r;
     sbcCharge := sbcCharge r; supplyRate := supplyRate r;
     supplyCharge := supplyCharge r; totalDelivery := v;
     totalSupply := totalSupply r; totalTaxes := totalTaxes r;
     totalCost := totalCost r |}.
Definition set_totalSupply (v : Number.t) (r : t) : t :=
  {| usage := usage r; basicServiceCharge := basicServiceCharge r;
     deliveryRate := deliveryRate r; deliveryCharge := deliveryCharge r;
     transitionRate := transitionRate r;
     transitionCharge := transitionCharge r; sbcRate := sbcRate r;
     sbcCharge := sbcCharge r; supplyRate := supplyRate r;
     supplyCharge := supplyCharge r; totalDelivery := totalDelivery r;
     totalSupply := v; totalTaxes := totalTaxes r;
     totalCost := totalCost r |}.
Definition set_totalTaxes (v : Number.t) (r : t) : t :=
  {| usage := usage r; basicServiceCharge := basicServiceCharge r;
     deliveryRate := deliveryRate r; deliveryCharge := deliveryCharge r;
     transitionRate := transitionRate r;
     transitionCharge := transitionCharge r; sbcRate := sbcRate r;
     sbcCharge := sbcCharge r; supplyRate := supplyRate r;
     supplyCharge := supplyCharge r; totalDelivery := totalDelivery r;
     totalSupply := totalSupply r; totalTaxes := v;
     totalCost := totalCost r |}.
Definition set_totalCost (v : Number.t) (r : t) : t :=
  {| usage := usage r; basicServiceCharge := basicServiceCharge r;
     deliveryRate := deliveryRate r; deliveryCharge := deliveryCharge r;
     transitionRate := transitionRate r;
     transitionCharge := transitionCharge r; sbcRate := sbcRate r;
     sbcCharge := sbcCharge r; supplyRate := supplyRate r;
     supplyCharge := supplyCharge r; totalDelivery := totalDelivery r;
     totalSupply := totalSupply r; totalTaxes := totalTaxes r;
     totalCost := v |}.
End Electricity.

Module Gas.
Record t := {
  usageCcf : Number.t;
  usageTherms : Number.t;
  basicServiceCharge : Number.t;
  deliveryRate : Number.t;
  deliveryCharge : Number.t;
  supplyRate : Number.t;
  supplyCharge : Number.t;
  totalDelivery : Number.t;
  totalSupply : Number.t;
  totalTaxes : Number.t;
  totalCost : Number.t
}.

Definition set_usageCcf (v : Number.t) (r : t) : t :=
  {| usageCcf := v; usageTherms := usageTherms r;
     basicServiceCharge := basicServiceCharge r;
     deliveryRate := deliveryRate r; deliveryCharge := deliveryCharge r;
     supplyRate := supplyRate r; supplyCharge := supplyCharge r;
     totalDelivery := totalDelivery r; totalSupply := totalSupply r;
     totalTaxes := totalTaxes r; totalCost := totalCost r |}.
Definition set_usageTherms (v : Number.t) (r : t) : t :=
  {| usageCcf := usageCcf r; usageTherms := v;
     basicServiceCharge := basicServiceCharge r;
     deliveryRate := deliveryRate r; deliveryCharge := deliveryCharge r;
     supplyRate := supplyRate r; supplyCharge := supplyCharge r;
     totalDelivery := totalDelivery r; totalSupply := totalSupply r;
     totalTaxes := totalTaxes r; totalCost := totalCost r |}.
Definition set_basicServiceCharge (v : Number.t) (r : t) : t :=
  {| usageCcf := usageCcf r; usageTherms := usageTherms r;
     basicServiceCharge := v; deliveryRate := deliveryRate r;
     deliveryCharge := deliveryCharge r; supplyRate := supplyRate r;
     supplyCharge := supplyCharge r; totalDelivery := totalDelivery r;
     totalSupply := totalSupply r; totalTaxes := totalTaxes r;
     totalCost := totalCost r |}.
Definition set_deliveryRate (v : Number.t) (r : t) : t :=
  {| usageCcf := usageCcf r; usageTherms := usageTherms r;
     basicServiceCharge := basicServiceCharge r; deliveryRate := v;
     deliveryCharge := deliveryCharge r; supplyRate := supplyRate r;
     supplyCharge := supplyCharge r; totalDelivery := totalDelivery r;
     totalSupply := totalSupply r; totalTaxes := totalTaxes r;
     totalCost := totalCost r |}.
Definition set_deliveryCharge (v : Number.t) (r : t) : t :=
  {| usageCcf := usageCcf r; usageTherms := usageTherms r;
     basicServiceCharge := basicServiceCharge r;
     deliveryRate := deliveryRate r; deliveryCharge := v;
     supplyRate := supplyRate r; supplyCharge := supplyCharge r;
     totalDelivery := totalDelivery r; totalSupply := totalSupply r;
     totalTaxes := totalTaxes r; totalCost := totalCost r |}.
Definition set_supplyRate (v : Number.t) (r : t) : t :=
  {| usageCcf := usageCcf r; usageTherms := usageTherms r;
     basicServiceCharge := basicServiceCharge r;
     deliveryRate := deliveryRate r; deliveryCharge := deliveryCharge r;
     supplyRate := v; supplyCharge := supplyCharge r;
     totalDelivery := totalDelivery r; totalSupply := totalSupply r;
     totalTaxes := totalTaxes r; totalCost := totalCost r |}.
Definition set_supplyCharge (v : Number.t) (r : t) : t :=
  {| usageCcf := usageCcf r; usageTherms := usageTherms r;
     basicServiceCharge := basicServiceCharge r;
     deliveryRate := deliveryRate r; deliveryCharge := deliveryCharge r;
     supplyRate := supplyRate r; supplyCharge := v;
     totalDelivery := totalDelivery r; totalSupply := totalSupply r;
     totalTaxes := totalTaxes r; totalCost := totalCost r |}.
Definition set_totalDelivery (v : Number.t) (r : t) : t :=
  {| usageCcf := usageCcf r; usageTherms := usageTherms r;
     basicServiceCharge := basicServiceCharge r;
     deliveryRate := deliveryRate r; deliveryCharge := deliveryCharge r;
     supplyRate := supplyRate r; supplyCharge := supplyCharge r;
     totalDelivery := v; totalSupply := totalSupply r;
     totalTaxes := totalTaxes r; totalCost := totalCost r |}.
Definition set_totalSupply (v : Number.t) (r : t) : t :=
  {| usageCcf := usageCcf r; usageTherms := usageTherms r;
     basicServiceCharge := basicServiceCharge r;
     deliveryRate := deliveryRate r; deliveryCharge := deliveryCharge r;
     supplyRate := supplyRate r; supplyCharge := supplyCharge r;
     totalDelivery := totalDelivery r; totalSupply := v;
     totalTaxes := totalTaxes r; totalCost := totalCost r |}.
Definition set_totalTaxes (v : Number.t) (r : t) : t :=
  {| usageCcf := usageCcf r; usageTherms := usageTherms r;
     basicServiceCharge := basicServiceCharge r;
     deliveryRate := deliveryRate r; deliveryCharge := deliveryCharge r;
     supplyRate := supplyRate r; supplyCharge := supplyCharge r;
     totalDelivery := totalDelivery r; totalSupply := totalSupply r;
     totalTaxes := v; totalCost := totalCost r |}.
Definition set_totalCost (v : Number.t) (r : t) : t :=
  {| usageCcf := usageCcf r; usageTherms := usageTherms r;
     basicServiceCharge := basicServiceCharge r;
     deliveryRate := deliveryRate r; deliveryCharge := deliveryCharge r;
     supplyRate := supplyRate r; supplyCharge := supplyCharge r;
     totalDelivery := totalDelivery r; totalSupply := totalSupply r;
     totalTaxes := totalTaxes r; totalCost := v |}.
End Gas.

Record BillRecord := {
  fileName : str;
  statementDate : option Date.t;
  servicePeriod : ServicePeriod.t;
  electricity : Electricity.t;
  gas : Gas.t;
  totalEnergyCharges : Number.t;
  amountDue : Number.t
}.

Definition set_statementDate (v : option Date.t) (r : BillRecord) :=
  {| fileName := fileName r; statementDate := v;
     servicePeriod := servicePeriod r; electricity := electricity r;
     gas := gas r; totalEnergyCharges := totalEnergyCharges r;
     amountDue := amountDue r |}.

Definition set_totalEnergyCharges (v : Number.t) (r : BillRecord) :=
  {| fileName := fileName r; statementDate := statementDate r;
     servicePeriod := servicePeriod r; electricity := electricity r;
     gas := gas r; totalEnergyCharges := v; amountDue := amountDue r |}.

Definition set_amountDue (v : Number.t) (r : BillRecord) :=
  {| fileName := fileName r; statementDate := statementDate r;
     servicePeriod := servicePeriod r; electricity := electricity r;
     gas := gas r; totalEnergyCharges := totalEnergyCharges r;
     amountDue := v |}.

(** An assignment to [data.servicePeriod.f], [data.electricity.f] or
    [data.gas.f]. *)
Definition in_servicePeriod (f : ServicePeriod.t -> ServicePeriod.t)
  (r : BillRecord) :=
  {| fileName := fileName r; statementDate := statementDate r;
     servicePeriod := f (servicePeriod r); electricity := electricity r;
     gas := gas r; totalEnergyCharges := totalEnergyCharges r;
     amountDue := amountDue r |}.

Definition in_electricity (f : Electricity.t -> Electricity.t)
  (r : BillRecord) :=
  {| fileName := fileName r; statementDate := statementDate r;
     servicePeriod := servicePeriod r; electricity := f (electricity r);
     gas := gas r; totalEnergyCharges := totalEnergyCharges r;
     amountDue := amountDue r |}.

Definition in_gas (f : Gas.t -> Gas.t) (r : BillRecord) :=
  {| fileName := fileName r; statementDate := statementDate r;
     servicePeriod := servicePeriod r; electricity := electricity r;
     gas := f (gas r); totalEnergyCharges := totalEnergyCharges r;
     amountDue := amountDue r |}.

(** The object literal that [extractBillData] starts from. *)
Definition initial (name : str) : BillRecord :=
  {| fileName := name;
     statementDate := None;
     servicePeriod :=
       {| ServicePeriod.start := None; ServicePeriod.end_ := None;
          ServicePeriod.days := Number.zero |};
     electricity :=
       {| Electricity.usage := Number.zero;
          Electricity.basicServiceCharge := Number.zero;
          Electricity.deliveryRate := Number.zero;
          Electricity.deliveryCharge := Number.zero;
          Electricity.transitionRate := Number.zero;
          Electricity.transitionCharge := Number.zero;
          Electricity.sbcRate := Number.zero;
          Electricity.sbcCharge := Number.zero;
          Electricity.supplyRate := Number.zero;
          Electricity.supplyCharge := Number.zero;
          Electricity.totalDelivery := Number.zero;
          Electricity.totalSupply := Number.zero;
          Electricity.totalTaxes := Number.zero;
          Electricity.totalCost := Number.zero |};
     gas :=
       {| Gas.usageCcf := Number.zero;
          Gas.usageTherms := Number.zero;
          Gas.basicServiceCharge := Number.zero;
          Gas.deliveryRate := Number.zero;
          Gas.deliveryCharge := Number.zero;
          Gas.supplyRate := Number.zero;
          Gas.supplyCharge := Number.zero;
          Gas.totalDelivery := Number.zero;
          Gas.totalSupply := Number.zero;
          Gas.totalTaxes := Number.zero;
          Gas.totalCost := Number.zero |};
     totalEnergyCharges := Number.zero;
     amountDue := Number.zero |}.

(** What a property of the returned object holds. *)
Inductive value :=
| VString (v : str)
| VDate (v : option Date.t)
| VNumber (v : Number.t)
| VServicePeriod (v : ServicePeriod.t)
| VElectricity (v : Electricity.t)
| VGas (v : Gas.t).

(** [bill[key]] on a record of [extractBillData]: the object has the
    seven properties of the literal and no other; [None] is
    [undefined]. *)
Definition get_property (bill : BillRecord) (key : string) : option value :=
  if String.eqb key "fileName" then Some (VString (fileName bill))
  else if String.eqb key "statementDate"
  then Some (VDate (statementDate bill))
  else if String.eqb key "servicePeriod"
  then Some (VServicePeriod (servicePeriod bill))
  else if String.eqb key "electricity"
  then Some (VElectricity (electricity bill))
  else if String.eqb key "gas" then Some (VGas (gas bill))
  else if String.eqb key "totalEnergyCharges"
  then Some (VNumber (totalEnergyCharges bill))
  else if String.eqb key "amountDue" then Some (VNumber (amountDue bill))
  else None.

(** The operand of [bill.miscellaneousCharges.toFixed(2)], line 118 of
    [csv-export.js]: only a Number has a [toFixed] method. *)
Definition csv_miscellaneousCharges (bill : BillRecord)
  : completion Number.t :=
  match get_property bill "miscellaneousCharges" with
  | Some (VNumber n) => Normal n
  | _ => Throw TypeError
  end.

(** ** The patterns of the extractor

    Each definition is followed by the expression of the source. *)

Module Patterns.
Import RegExp.

Definition mmddyy : node :=
  cat [times 2 d; lit "/"; times 2 d; lit "/"; times 2 d].

(** [/(\d{2})\/(\d{2})\/(\d{2})/] *)
Definition shortDate : RegExp.t :=
  regex (cat [Group 1 (times 2 d); lit "/"; Group 2 (times 2 d); lit "/";
              Group 3 (times 2 d)]).

(** [/(\w+)\s+(\d{1,2}),?\s+(\d{4})/] *)
Definition longDate : RegExp.t :=
  regex (cat [Group 1 (plus w); plus s; Group 2 (cat [d; opt d]);
              opt (lit ","); plus s; Group 3 (times 4 d)]).

(** [/(\d{4}-\d{4}-\d{3})/] *)
Definition account : RegExp.t :=
  regex (Group 1 (cat [times 4 d; lit "-"; times 4 d; lit "-";
                       times 3 d])).

(** [/\b([A-Z][A-Z]+\s+[A-Z][A-Z]+)\b/g] *)
Definition name : RegExp.t :=
  regex_g (cat [WordBoundary;
                Group 1 (cat [AZ; plus AZ; plus s; AZ; plus AZ]);
                WordBoundary]).

(** [/(\d+\s+[A-Z][A-Z\s]+(?:ST|RD|AVE|DR|LN|CT|WAY|BLVD|PL|CIR)\.?),?\s*([A-Z][A-Z]+,?\s*NY\s*\d{5})/i] *)
Definition address : RegExp.t :=
  regex_i
    (cat [Group 1
            (cat [plus d; plus s; AZ; plus AZs;
                  alts [lit "ST"; lit "RD"; lit "AVE"; lit "DR"; lit "LN";
                        lit "CT"; lit "WAY"; lit "BLVD"; lit "PL";
                        lit "CIR"];
                  opt (lit ".")]);
          opt (lit ","); star s;
          Group 2
            (cat [AZ; plus AZ; opt (lit ","); star s; lit "NY"; star s;
                  times 5 d])]).

(** [/Statement\s+Date:?\s*(\w+\s+\d{1,2},?\s+\d{4})/i] *)
Definition statementDate : RegExp.t :=
  regex_i
    (cat [lit "Statement"; plus s; lit "Date"; opt (lit ":"); star s;
          Group 1 (cat [plus w; plus s; d; opt d; opt (lit ","); plus s;
                        times 4 d])]).

(** [/(\d{2}\/\d{2}\/\d{2})\s*-\s*(\d{2}\/\d{2}\/\d{2})/] *)
Definition servicePeriod : RegExp.t :=
  regex (cat [Group 1 mmddyy; star s; lit "-"; star s; Group 2 mmddyy]).

(** [/(\d+)\s*days\s+(\d+)\s*kwh/i] *)
Definition daysKwh : RegExp.t :=
  regex_i (cat [Group 1 (plus d); star s; lit "days"; plus s;
                Group 2 (plus d); star s; lit "kwh"]).

(** [/(\d+)\s*kwh\s+(\d+)\s*days/i] *)
Definition kwhDays : RegExp.t :=
  regex_i (cat [Group 1 (plus d); star s; lit "kwh"; plus s;
                Group 2 (plus d); star s; lit "days"]).

(** [/Basic\s+service\s+charge\s+([\d,.]+)/i] *)
Definition elecBasic : RegExp.t :=
  regex_i (cat [lit "Basic"; plus s; lit "service"; plus s; lit "charge";
                plus s; Group 1 (plus dcp)]).

(** The head of an electricity charge line:
    [(\d+)\s+kwh\s+(\d+)\s*@\s*0\.\s*] *)
Definition kwh_rate : list node :=
  [Group 1 (plus d); plus s; lit "kwh"; plus s; Group 2 (plus d); star s;
   lit "@"; star s; lit "0."; star s].

(** [/(\d+)\s+kwh\s+(\d+)\s*@\s*0\.\s*LABEL\s+charge\s+([\d,.]+)/i] *)
Definition charge (label : string) : RegExp.t :=
  regex_i (cat (kwh_rate ++
                [lit label; plus s; lit "charge"; plus s;
                 Group 3 (plus dcp)])).

(** [/(\d+)\s+kwh\s+(\d+)\s*@\s*0\.\s*LABEL\s+charge\s*-\s*\w+\s+([\d,.]+)/gi] *)
Definition chargeMonth (label : string) : RegExp.t :=
  regex_gi (cat (kwh_rate ++
                 [lit label; plus s; lit "charge"; star s; lit "-"; star s;
                  plus w; plus s; Group 3 (plus dcp)])).

Definition delivery : RegExp.t := charge "Delivery".
Definition deliveryMonth : RegExp.t := chargeMonth "Delivery".
Definition transition : RegExp.t := charge "Transition".
Definition transitionMonth : RegExp.t := chargeMonth "Transition".
Definition sbc : RegExp.t := charge "SBC".
Definition sbcMonth : RegExp.t := chargeMonth "SBC".

(** [/Supply\s+charge\s+(\d+)\s+kwh\s+(\d+)\s*@\s*0\.\s+([\d,.]+)/i] *)
Definition supply : RegExp.t :=
  regex_i (cat [lit "Supply"; plus s; lit "charge"; plus s;
                Group 1 (plus d); plus s; lit "kwh"; plus s;
                Group 2 (plus d); star s; lit "@"; star s; lit "0.";
                plus s; Group 3 (plus dcp)]).

(** [/WORDS\s+\$?([\d,.]+)/i], the words separated by [\s+]. *)
Definition labelled (words : list string) : RegExp.t :=
  regex_i (cat (flat_map (fun x => [lit x; plus s]) words ++
                [opt (lit "$"); Group 1 (plus dcp)])).

Definition elecDeliveryTotal : RegExp.t :=
  labelled ["Subtotal"; "Electricity"; "Delivery"]%string.
Definition elecSupplyTotal : RegExp.t :=
  labelled ["Subtotal"; "Electricity"; "Supply"]%string.
Definition elecTax : RegExp.t :=
  labelled ["Subtotal"; "Electricity"; "Taxes"; "and"; "Surcharges"]%string.
Definition elecTotal : RegExp.t :=
  labelled ["Total"; "Electricity"; "Cost"]%string.
Definition gasDeliveryTotal : RegExp.t :=
  labelled ["Subtotal"; "Natural"; "Gas"; "Delivery"]%string.
Definition gasSupplyTotal : RegExp.t :=
  labelled ["Subtotal"; "Natural"; "Gas"; "Supply"]%string.
Definition gasTax : RegExp.t :=
  labelled ["Subtotal"; "Natural"; "Gas"; "Taxes"; "and";
            "Surcharges"]%string.
Definition gasTotal : RegExp.t :=
  labelled ["Total"; "Natural"; "Gas"; "Cost"]%string.
Definition totalEnergy : RegExp.t :=
  labelled ["Total"; "Energy"; "Charges"]%string.

(** [/Amount\s+Due:?\s+\$?([\d,.]+)/i] *)
Definition amountDue : RegExp.t :=
  regex_i (cat [lit "Amount"; plus s; lit "Due"; opt (lit ":"); plus s;
                opt (lit "$"); Group 1 (plus dcp)]).

(** [/Natural\s+gas\s+used\s*\(UNIT\)\s*([\d.]+)/i] *)
Definition gasUsed (unit : string) : RegExp.t :=
  regex_i (cat [lit "Natural"; plus s; lit "gas"; plus s; lit "used";
                star s; lit "("; lit unit; lit ")"; star s;
                Group 1 (plus dp)]).

Definition gasCcf : RegExp.t := gasUsed "ccf".
Definition gasTherm : RegExp.t := gasUsed "therm".

(** [/Natural\s+Gas\s+Delivery\s+Charges[\s\S]*?Basic\s+service\s+charge\s+([\d,.]+)/i] *)
Definition gasBasic : RegExp.t :=
  regex_i (cat [lit "Natural"; plus s; lit "Gas"; plus s; lit "Delivery";
                plus s; lit "Charges"; lazy_star any; lit "Basic"; plus s;
                lit "service"; plus s; lit "charge"; plus s;
                Group 1 (plus dcp)]).

(** The tail of a gas charge line:
    [([\d.]+)\s+therm\s+(\d+)\s*@\s*0\.\s+([\d,.]+)] *)
Definition therm_rate : list node :=
  [Group 1 (plus dp); plus s; lit "therm"; plus s; Group 2 (plus d);
   star s; lit "@"; star s; lit "0."; plus s; Group 3 (plus dcp)].

(** [/Delivery\s+charge\s+([\d.]+)\s+therm\s+(\d+)\s*@\s*0\.\s+([\d,.]+)/i] *)
Definition gasDeliverySimple : RegExp.t :=
  regex_i (cat ([lit "Delivery"; plus s; lit "charge"; plus s]
                ++ therm_rate)).

(** [/LABEL\s+charge\s*-\s*\w+\s+([\d.]+)\s+therm\s+(\d+)\s*@\s*0\.\s+([\d,.]+)/gi] *)
Definition thermMonth (label : string) : RegExp.t :=
  regex_gi (cat ([lit label; plus s; lit "charge"; star s; lit "-"; star s;
                  plus w; plus s] ++ therm_rate)).

Definition gasDeliveryMonth : RegExp.t := thermMonth "Delivery".
Definition gasSupply : RegExp.t := thermMonth "Supply".

(** [/Supply\s+charge\s*-\s*\w+\s+([\d.]+)\s+therm\s*@\s*([\d.]+)\s+([\d,.]+)/gi] *)
Definition gasSupplyStd : RegExp.t :=
  regex_gi (cat [lit "Supply"; plus s; lit "charge"; star s; lit "-";
                 star s; plus w; plus s; Group 1 (plus dp); plus s;
                 lit "therm"; star s; lit "@"; star s; Group 2 (plus dp);
                 plus s; Group 3 (plus dcp)]).

End Patterns.

(** ** [parseDate], lines 15-33 *)

Definition expand_year (yy : Z) : Z :=
  if (50 <? yy)%Z then (1900 + yy)%Z else (2000 + yy)%Z.

Definition parseDate (h : Host) (dateStr : option str) : option Date.t :=
  match dateStr with
  | None | Some [] => None
  | Some ds =>
      match String_match Patterns.shortDate ds with
      | Some shortMatch =>
          let month := at_ shortMatch 1 in
          let day := at_ shortMatch 2 in
          let year := at_ shortMatch 3 in
          let fullYear := option_map expand_year (parseInt_Z year) in
          Some (new_Date h fullYear
                  (option_map (fun m => m - 1)%Z (parseInt_Z month))
                  (parseInt_Z day))
      | None =>
          match String_match Patterns.longDate ds with
          | Some _ => Some (Date_parse h ds)
          | None => None
          end
      end
  end.

(** ** [extractAccountInfo], lines 68-113 *)

Record AccountInfo := {
  accountNumber : str;
  customerName : str;
  serviceAddress : str
}.

Definition excludeWords : list str :=
  map js
    [ (* Street suffixes *)
      "ST"; "RD"; "AVE"; "DR"; "LN"; "CT"; "WAY"; "BLVD"; "PL"; "CIR";
      "DRIVE"; "STREET"; "ROAD"; "AVENUE"; "LANE"; "COURT";
      (* Locations *)
      "BOSTON"; "LANSING"; "NY"; "MA";
      (* Utility terms *)
      "NYSEG"; "SERVICE"; "ACCOUNT"; "STATEMENT"; "BUDGET"; "BILLING";
      "PAYMENT"; "AUTOPAY"; "RESIDENTIAL"; "SUMMARY"; "BALANCE"; "PROJECT";
      "SHARE"; "HEATING"; "FUND"; "PAGE"; "BANK"; "ENERGY"; "ELECTRIC";
      "NATURAL"; "GAS"; "DELIVERY"; "SUPPLY"; "TOTAL"; "AMOUNT" ]%string.

(** [excludeWords.includes(w)] *)
Definition includes (l : list str) (x : str) : bool :=
  existsb (str_eqb x) l.

(** [words.some(w => excludeWords.includes(w) || w.length < 2)] *)
Definition isExcluded (words : list str) : bool :=
  existsb (fun x => includes excludeWords x || (List.length x <? 2)%nat)
    words.

(** The loop of lines 95-102: the first match that is kept, if any.  A
    method call on [undefined] is a TypeError. *)
Fixpoint pick_name (nameMatch : list (option str))
  : completion (option str) :=
  match nameMatch with
  | [] => Normal None
  | None :: _ => Throw TypeError
  | Some m :: others =>
      let words := split_space m in
      if negb (isExcluded words) && (List.length words =? 2)%nat
      then Normal (Some m)
      else pick_name others
  end.

Definition extractAccountInfo (text : str) : completion AccountInfo :=
  number <-
    match String_match Patterns.account text with
    | Some accountMatch =>
        match at_ accountMatch 1 with
        | Some x => Normal (trim x)
        | None => Throw TypeError
        end
    | None => Normal []
    end ;;
  name <-
    match String_match Patterns.name text with
    | Some nameMatch =>
        picked <- pick_name nameMatch ;;
        Normal (match picked with Some m => m | None => [] end)
    | None => Normal []
    end ;;
  let address :=
    match String_match Patterns.address text with
    | Some addressMatch =>
        trim (to_String (at_ addressMatch 1) ++ js ", "
              ++ to_String (at_ addressMatch 2))
    | None => []
    end in
  Normal {| accountNumber := number; customerName := name;
            serviceAddress := address |}.

(** ** [extractBillData], lines 115-456 *)

(** [const m = text.match(re); if (m) { data.f = parseNumber(m[1]); }] *)
Definition read_amount (re : RegExp.t)
  (set : Number.t -> BillRecord -> BillRecord) (text : str)
  (data : BillRecord) : BillRecord :=
  match String_match re text with
  | Some m => set (parseNumber (at_ m 1)) data
  | None => data
  end.

(** A rate and charge pair of the record. *)
Record charge_field := {
  rate_of : BillRecord -> Number.t;
  charge_of : BillRecord -> Number.t;
  set_rate : Number.t -> BillRecord -> BillRecord;
  set_charge : Number.t -> BillRecord -> BillRecord
}.

Definition elec_delivery : charge_field :=
  {| rate_of := fun r => Electricity.deliveryRate (electricity r);
     charge_of := fun r => Electricity.deliveryCharge (electricity r);
     set_rate := fun v => in_electricity (Electricity.set_deliveryRate v);
     set_charge := fun v => in_electricity (Electricity.set_deliveryCharge v)
  |}.

Definition elec_transition : charge_field :=
  {| rate_of := fun r => Electricity.transitionRate (electricity r);
     charge_of := fun r => Electricity.transitionCharge (electricity r);
     set_rate := fun v => in_electricity (Electricity.set_transitionRate v);
     set_charge :=
       fun v => in_electricity (Electricity.set_transitionCharge v) |}.

Definition elec_sbc : charge_field :=
  {| rate_of := fun r => Electricity.sbcRate (electricity r);
     charge_of := fun r => Electricity.sbcCharge (electricity r);
     set_rate := fun v => in_electricity (Electricity.set_sbcRate v);
     set_charge := fun v => in_electricity (Electricity.set_sbcCharge v) |}.

Definition elec_supply : charge_field :=
  {| rate_of := fun r => Electricity.supplyRate (electricity r);
     charge_of := fun r => Electricity.supplyCharge (electricity r);
     set_rate := fun v => in_electricity (Electricity.set_supplyRate v);
     set_charge := fun v => in_electricity (Electricity.set_supplyCharge v)
  |}.

Definition gas_delivery : charge_field :=
  {| rate_of := fun r => Gas.deliveryRate (gas r);
     charge_of := fun r => Gas.deliveryCharge (gas r);
     set_rate := fun v => in_gas (Gas.set_deliveryRate v);
     set_charge := fun v => in_gas (Gas.set_deliveryCharge v) |}.

Definition gas_supply : charge_field :=
  {| rate_of := fun r => Gas.supplyRate (gas r);
     charge_of := fun r => Gas.supplyCharge (gas r);
     set_rate := fun v => in_gas (Gas.set_supplyRate v);
     set_charge := fun v => in_gas (Gas.set_supplyCharge v) |}.

(** The single-line form of a charge: the rate from the digits of group
    2, the charge from group 3 (lines 198-202, 230-234, 256-260, 288-292
    and 339-343). *)
Definition from_line (re : RegExp.t) (f : charge_field) (text : str)
  (data : BillRecord) : BillRecord :=
  match String_match re text with
  | Some m =>
      set_charge f (parseNumber (at_ m 3))
        (set_rate f (reconstructRate (at_ m 2)) data)
  | None => data
  end.

(** The body of the loops over per-month matches (lines 214-221,
    241-248, 267-274, 352-359, 376-383 and 397-404), which differ by the
    parsers of the quantity and of the rate: the three running totals
    [(totalQuantity, weightedRate, totalCharge)]. *)
Definition accumulate (quantity rate : option str -> Number.t)
  (acc : Number.t * Number.t * Number.t) (m : list (option str))
  : Number.t * Number.t * Number.t :=
  let '(totalQuantity, weightedRate, totalCharge) := acc in
  let q := quantity (at_ m 1) in
  let r := rate (at_ m 2) in
  let c := parseNumber (at_ m 3) in
  (Number.add totalQuantity q,
   Number.add weightedRate (Number.mul q r),
   Number.add totalCharge c).

(** The multi-month reconciler: the loop, then
    [totalQuantity > 0 ? weightedRate / totalQuantity : 0] and
    [totalCharge]. *)
Definition reconcile (quantity rate : option str -> Number.t)
  (ms : list (list (option str))) : Number.t * Number.t :=
  let '(totalQuantity, weightedRate, totalCharge) :=
    fold_left (accumulate quantity rate) ms
      (Number.zero, Number.zero, Number.zero) in
  (if Number.ltb Number.zero totalQuantity
   then Number.div weightedRate totalQuantity
   else Number.zero,
   totalCharge).

(** [if (ms.length > 0) { loop; data.f.rate = ...; data.f.charge = ...; }] *)
Definition apply_months (quantity rate : option str -> Number.t)
  (ms : list (list (option str))) (f : charge_field) (data : BillRecord)
  : BillRecord :=
  match ms with
  | [] => data
  | _ :: _ =>
      let '(r, c) := reconcile quantity rate ms in
      set_charge f c (set_rate f r data)
  end.

(** [const ms = [...text.matchAll(re)]; if (ms.length > 0) { ... }] *)
Definition from_months (quantity rate : option str -> Number.t)
  (re : RegExp.t) (f : charge_field) (text : str) (data : BillRecord)
  : completion BillRecord :=
  ms <- String_matchAll re text ;;
  Normal (apply_months quantity rate ms f data).

(** [if (data.f.rate === 0) { ... }] *)
Definition if_rate_zero (f : charge_field)
  (retry : BillRecord -> completion BillRecord) (data : BillRecord)
  : completion BillRecord :=
  if Number.eqb (rate_of f data) Number.zero then retry data
  else Normal data.

(** The single-line form first, the per-month form when the rate is
    still zero: electricity delivery (lines 198-226), transition
    (230-252) and SBC (256-278), gas delivery (339-363). *)
Definition two_tier (quantity : option str -> Number.t)
  (simple monthly : RegExp.t) (f : charge_field) (text : str)
  (data : BillRecord) : completion BillRecord :=
  if_rate_zero f (from_months quantity reconstructRate monthly f text)
    (from_line simple f text data).

(** Lines 157-161. *)
Definition readStatementDate (h : Host) (text : str) (data : BillRecord)
  : BillRecord :=
  match String_match Patterns.statementDate text with
  | Some m => set_statementDate (parseDate h (at_ m 1)) data
  | None => data
  end.

(** Lines 163-169. *)
Definition readServicePeriod (h : Host) (text : str) (data : BillRecord)
  : BillRecord :=
  match String_match Patterns.servicePeriod text with
  | Some m =>
      in_servicePeriod (ServicePeriod.set_end_ (parseDate h (at_ m 2)))
        (in_servicePeriod (ServicePeriod.set_start (parseDate h (at_ m 1)))
           data)
  | None => data
  end.

(** Lines 171-182. *)
Definition readDaysKwh (text : str) (data : BillRecord) : BillRecord :=
  match String_match Patterns.daysKwh text with
  | Some m =>
      in_electricity (Electricity.set_usage (parseInt (at_ m 2)))
        (in_servicePeriod (ServicePeriod.set_days (parseInt (at_ m 1)))
           data)
  | None =>
      match String_match Patterns.kwhDays text with
      | Some m =>
          in_servicePeriod (ServicePeriod.set_days (parseInt (at_ m 2)))
            (in_electricity (Electricity.set_usage (parseInt (at_ m 1)))
               data)
      | None => data
      end
  end.

(** Lines 184-310, the electricity section. *)
Definition readElectricity (text : str) (data : BillRecord)
  : completion BillRecord :=
  let data :=
    read_amount Patterns.elecBasic
      (fun v => in_electricity (Electricity.set_basicServiceCharge v))
      text data in
  data <- two_tier parseInt Patterns.delivery Patterns.deliveryMonth
            elec_delivery text data ;;
  data <- two_tier parseInt Patterns.transition Patterns.transitionMonth
            elec_transition text data ;;
  data <- two_tier parseInt Patterns.sbc Patterns.sbcMonth
            elec_sbc text data ;;
  let data :=
    read_amount Patterns.elecDeliveryTotal
      (fun v => in_electricity (Electricity.set_totalDelivery v))
      text data in
  let data := from_line Patterns.supply elec_supply text data in
  let data :=
    read_amount Patterns.elecSupplyTotal
      (fun v => in_electricity (Electricity.set_totalSupply v))
      text data in
  let data :=
    read_amount Patterns.elecTax
      (fun v => in_electricity (Electricity.set_totalTaxes v))
      text data in
  Normal
    (read_amount Patterns.elecTotal
       (fun v => in_electricity (Electricity.set_totalCost v))
       text data).

(** Lines 365-409: the per-month form with split digits, then the
    per-month form with a literal rate when the rate is still zero. *)
Definition readGasSupply (text : str) (data : BillRecord)
  : completion BillRecord :=
  data <- from_months parseNumber reconstructRate Patterns.gasSupply
            gas_supply text data ;;
  if_rate_zero gas_supply
    (from_months parseNumber parseNumber Patterns.gasSupplyStd
       gas_supply text)
    data.

(** Lines 312-433, the natural gas section. *)
Definition readGas (text : str) (data : BillRecord)
  : completion BillRecord :=
  let data :=
    read_amount Patterns.gasCcf
      (fun v => in_gas (Gas.set_usageCcf v)) text data in
  let data :=
    read_amount Patterns.gasTherm
      (fun v => in_gas (Gas.set_usageTherms v)) text data in
  let data :=
    read_amount Patterns.gasBasic
      (fun v => in_gas (Gas.set_basicServiceCharge v)) text data in
  data <- two_tier parseNumber Patterns.gasDeliverySimple
            Patterns.gasDeliveryMonth gas_delivery text data ;;
  data <- readGasSupply text data ;;
  let data :=
    read_amount Patterns.gasDeliveryTotal
      (fun v => in_gas (Gas.set_totalDelivery v)) text data in
  let data :=
    read_amount Patterns.gasSupplyTotal
      (fun v => in_gas (Gas.set_totalSupply v)) text data in
  let data :=
    read_amount Patterns.gasTax
      (fun v => in_gas (Gas.set_totalTaxes v)) text data in
  Normal
    (read_amount Patterns.gasTotal
       (fun v => in_gas (Gas.set_totalCost v)) text data).

(** Lines 435-447, the totals. *)
Definition readTotals (text : str) (data : BillRecord) : BillRecord :=
  read_amount Patterns.amountDue set_amountDue text
    (read_amount Patterns.totalEnergy set_totalEnergyCharges text data).

(** Lines 449-453.  A Date object is truthy, also the invalid date. *)
Definition deriveDays (data : BillRecord) : BillRecord :=
  if Number.eqb (ServicePeriod.days (servicePeriod data)) Number.zero then
    match ServicePeriod.start (servicePeriod data),
          ServicePeriod.end_ (servicePeriod data) with
    | Some a, Some b =>
        in_servicePeriod (ServicePeriod.set_days (days_between a b)) data
    | _, _ => data
    end
  else data.

Definition extractBillData (h : Host) (text fileName : str)
  : completion BillRecord :=
  let data := initial fileName in
  let data := readStatementDate h text data in
  let data := readServicePeriod h text data in
  let data := readDaysKwh text data in
  data <- readElectricity text data ;;
  data <- readGas text data ;;
  let data := readTotals text data in
  Normal (deriveDays data).

(** ** The record that is returned

    The only operation of [extractBillData] that can throw is [matchAll],
    on an expression without the [g] flag.  The definitions below are
    the steps above with the list of matches in place of the call; they
    are shown further down to be what the steps return. *)

Definition months_value (quantity rate : option str -> Number.t)
  (re : RegExp.t) (f : charge_field) (text : str) (data : BillRecord)
  : BillRecord :=
  apply_months quantity rate (RegExp.all_matches re text) f data.

Definition two_tier_value (quantity : option str -> Number.t)
  (simple monthly : RegExp.t) (f : charge_field) (text : str)
  (data : BillRecord) : BillRecord :=
  let data := from_line simple f text data in
  if Number.eqb (rate_of f data) Number.zero
  then months_value quantity reconstructRate monthly f text data
  else data.

Definition gasSupply_value (text : str) (data : BillRecord) : BillRecord :=
  let data :=
    months_value parseNumber reconstructRate Patterns.gasSupply gas_supply
      text data in
  if Number.eqb (rate_of gas_supply data) Number.zero
  then months_value parseNumber parseNumber Patterns.gasSupplyStd gas_supply
         text data
  else data.

Definition electricity_tail (text : str) (data : BillRecord) : BillRecord :=
  read_amount Patterns.elecTotal
    (fun v => in_electricity (Electricity.set_totalCost v)) text
    (read_amount Patterns.elecTax
       (fun v => in_electricity (Electricity.set_totalTaxes v)) text
       (read_amount Patterns.elecSupplyTotal
          (fun v => in_electricity (Electricity.set_totalSupply v)) text
          data)).

Definition electricity_value (text : str) (data : BillRecord) : BillRecord :=
  electricity_tail text
    (from_line Patterns.supply elec_supply text
       (read_amount Patterns.elecDeliveryTotal
          (fun v => in_electricity (Electricity.set_totalDelivery v)) text
          (two_tier_value parseInt Patterns.sbc Patterns.sbcMonth
             elec_sbc text
             (two_tier_value parseInt Patterns.transition
                Patterns.transitionMonth elec_transition text
                (two_tier_value parseInt Patterns.delivery
                   Patterns.deliveryMonth elec_delivery text
                   (read_amount Patterns.elecBasic
                      (fun v =>
                         in_electricity (Electricity.set_basicServiceCharge v))
                      text data)))))).

Definition gas_tail (text : str) (data : BillRecord) : BillRecord :=
  read_amount Patterns.gasTotal
    (fun v => in_gas (Gas.set_totalCost v)) text
    (read_amount Patterns.gasTax
       (fun v => in_gas (Gas.set_totalTaxes v)) text
       (read_amount Patterns.gasSupplyTotal
          (fun v => in_gas (Gas.set_totalSupply v)) text
          (read_amount Patterns.gasDeliveryTotal
             (fun v => in_gas (Gas.set_totalDelivery v)) text data))).

Definition gas_head (text : str) (data : BillRecord) : BillRecord :=
  read_amount Patterns.gasBasic
    (fun v => in_gas (Gas.set_basicServiceCharge v)) text
    (read_amount Patterns.gasTherm
       (fun v => in_gas (Gas.set_usageTherms v)) text
       (read_amount Patterns.gasCcf
          (fun v => in_gas (Gas.set_usageCcf v)) text data)).

Definition gas_value (text : str) (data : BillRecord) : BillRecord :=
  gas_tail text
    (gasSupply_value text
       (two_tier_value parseNumber Patterns.gasDeliverySimple
          Patterns.gasDeliveryMonth gas_delivery text
          (gas_head text data))).

Definition header_value (h : Host) (text fileName : str) : BillRecord :=
  readDaysKwh text
    (readServicePeriod h text
       (readStatementDate h text (initial fileName))).

Definition bill_value (h : Host) (text fileName : str) : BillRecord :=
  deriveDays
    (readTotals text
       (gas_value text
          (electricity_value text (header_value h text fileName)))).

(** The three electricity charges that have a single-line and a
    per-month form. *)
Inductive elec_charge := Delivery | Transition | SBC.

Definition simple_re (k : elec_charge) : RegExp.t :=
  match k with
  | Delivery => Patterns.delivery
  | Transition => Patterns.transition
  | SBC => Patterns.sbc
  end.

Definition monthly_re (k : elec_charge) : RegExp.t :=
  match k with
  | Delivery => Patterns.deliveryMonth
  | Transition => Patterns.transitionMonth
  | SBC => Patterns.sbcMonth
  end.

Definition field (k : elec_charge) : charge_field :=
  match k with
  | Delivery => elec_delivery
  | Transition => elec_transition
  | SBC => elec_sbc
  end.

(** A gas supply line in the single-line form, the form of
    [gasDeliverySimple] under the label of the supply charge:
    [/Supply\s+charge\s+([\d.]+)\s+therm\s+(\d+)\s*@\s*0\.\s+([\d,.]+)/i].
    The source has no such expression; it serves to say what a gas
    supply line without a month is. *)
Definition gasSupplySimple_form : RegExp.t :=
  RegExp.regex_i
    (RegExp.cat ([RegExp.lit "Supply"; RegExp.plus RegExp.s;
                  RegExp.lit "charge"; RegExp.plus RegExp.s]
                 ++ Patterns.therm_rate)).

(** ** Sample texts *)

Definition nl : str := [10%N].

Definition lines (l : list string) : str :=
  flat_map (fun x => js x ++ nl) l.

(** ** Readings and assignments

    The notions the properties below are stated with. *)

(** An assignment that the reading [g] does not see. *)
Definition unseen {A : Type} (g : BillRecord -> A)
  (set : Number.t -> BillRecord -> BillRecord) : Prop :=
  forall v data, g (set v data) = g data.

(** The reading of both members of a pair. *)
Definition pair_of (f : charge_field) (data : BillRecord)
  : Number.t * Number.t :=
  (rate_of f data, charge_of f data).

(** The two assignments of a pair write what the two readings read. *)
Definition lawful (f : charge_field) : Prop :=
  forall r c data, pair_of f (set_charge f c (set_rate f r data)) = (r, c).

(** The pair a single-line match stands for. *)
Definition line_pair (m : list (option str)) : Number.t * Number.t :=
  (reconstructRate (at_ m 2), parseNumber (at_ m 3)).

(** The quantities, the products and the charges of per-month matches,
    in the order of the matches. *)
Definition quantities (quantity : option str -> Number.t)
  (ms : list (list (option str))) : list Number.t :=
  map (fun m => quantity (at_ m 1)) ms.

Definition products (quantity rate : option str -> Number.t)
  (ms : list (list (option str))) : list Number.t :=
  map (fun m => Number.mul (quantity (at_ m 1)) (rate (at_ m 2))) ms.

Definition charges (ms : list (list (option str))) : list Number.t :=
  map (fun m => parseNumber (at_ m 3)) ms.

(** Two per-month delivery lines, of 100 kWh at 0.05 for 5.00 and of
    200 kWh at 0.08 for 16.00. *)
Definition two_months : str :=
  lines [ "100 kwh 05 @ 0. Delivery charge - Mar 5.00";
          "200 kwh 08 @ 0. Delivery charge - Apr 16.00" ]%string.

(** The same two lines after a single-line delivery charge whose digits
    are all zeros. *)
Definition zero_rate_then_months : str :=
  lines [ "300 kwh 000 @ 0. Delivery charge 21.00";
          "100 kwh 05 @ 0. Delivery charge - Mar 5.00";
          "200 kwh 08 @ 0. Delivery charge - Apr 16.00" ]%string.

(** A per-month delivery line of no usage. *)
Definition no_usage_month : str :=
  lines [ "0 kwh 05 @ 0. Delivery charge - Mar 5.00" ]%string.

(** A gas bill whose supply charge is one line without a month, next to
    the gas delivery line of the same form. *)
Definition gas_single_lines : str :=
  lines [ "Delivery charge 44.2 therm 73822 @ 0. 32.63";
          "Supply charge 44.2 therm 61252 @ 0. 27.07" ]%string.

(** An electricity bill whose supply charge is listed per month. *)
Definition supply_per_month : str :=
  lines [ "Supply charge - Mar 1297 kwh 08395531 @ 0. 108.89";
          "Supply charge - Apr 2693 kwh 08395531 @ 0. 226.09" ]%string.

(** A service period without a count of days. *)
Definition period_only : str :=
  lines [ "Service from: 01/09/25 - 02/07/25" ]%string.

(** A service period across the end of daylight saving time. *)
Definition autumn_period : str :=
  lines [ "Service from: 10/20/25 - 11/10/25" ]%string.

(** Two digits, a slash, two digits, a slash, two digits. *)
Definition is_mmddyy (x : str) : bool :=
  match x with
  | [a; b; s1; c; d; s2; e; f] =>
      is_digit a && is_digit b && (s1 =? 47)%N && is_digit c && is_digit d
      && (s2 =? 47)%N && is_digit e && is_digit f
  | _ => false
  end.

(** The number that two decimal digits write. *)
Definition two_digits (a b : N) : Z := 10 * digit_value a + digit_value b.

(** A pattern without capturing groups. *)
Fixpoint groupfree (r : RegExp.node) : bool :=
  match r with
  | RegExp.Seq a b | RegExp.Alt a b => groupfree a && groupfree b
  | RegExp.Star _ a => groupfree a
  | RegExp.Group _ _ => false
  | _ => true
  end.

(** The end-to-end scenario of the specification. *)
Definition scenario : str :=
  lines [ "Statement Date: February 11, 2025";
          "Service from: 01/09/25 - 02/07/25";
          "30 days 3990 kwh";
          "Basic service charge 19.00";
          "3990 kwh 07894 @ 0. Delivery charge 314.97" ]%string.

(** The test of line 98 on one match of the name pattern. *)
Definition kept (m : str) : bool :=
  negb (isExcluded (split_space m))
  && (List.length (split_space m) =? 2)%nat.

(** The texts of the successive matches of the name pattern. *)
Definition name_matches (text : str) : list str :=
  map (fun m => to_String (at_ m 0))
    (RegExp.all_matches Patterns.name text).

(** ** Where a match is in the text

    The matcher moves forward only: the state a pattern leaves is the
    state it was given, less a prefix [w] of the remaining text. *)





(** ** The account record, field by field *)

(** Four digits, a dash, four digits, a dash, three digits. *)
Definition is_account (x : str) : bool :=
  match x with
  | [a; b; c; d; s1; e; f; g; h; s2; i; j; k] =>
      forallb is_digit [a; b; c; d; e; f; g; h; i; j; k]
      && (s1 =? 45)%N && (s2 =? 45)%N
  | _ => false
  end.

Definition accountNumber_of (text : str) : str :=
  match String_match Patterns.account text with
  | Some m => trim (to_String (at_ m 1))
  | None => []
  end.

Definition customerName_of (text : str) : str :=
  match find kept (name_matches text) with
  | Some m => m
  | None => []
  end.

Definition serviceAddress_of (text : str) : str :=
  match String_match Patterns.address text with
  | Some m => trim (to_String (at_ m 1) ++ js ", " ++ to_String (at_ m 2))
  | None => []
  end.

Definition account_of (text : str) : AccountInfo :=
  {| accountNumber := accountNumber_of text;
     customerName := customerName_of text;
     serviceAddress := serviceAddress_of text |}.

(** ** The bill record, field by field *)

(** The amount after a label: group 1 of the first match, 0 without a
    match. *)
Definition amount (re : RegExp.t) (text : str) : Number.t :=
  match String_match re text with
  | Some m => parseNumber (at_ m 1)
  | None => Number.zero
  end.

(** The rate and the charge of a two-tier field: the single line when it
    is found with a rate other than 0, otherwise the reconciled
    per-month lines when there are any. *)
Definition two_tier_result (quantity : option str -> Number.t)
  (simple monthly : RegExp.t) (text : str) : Number.t * Number.t :=
  let cur :=
    match String_match simple text with
    | Some m => line_pair m
    | None => (Number.zero, Number.zero)
    end in
  if Number.eqb (fst cur) Number.zero then
    match RegExp.all_matches monthly text with
    | [] => cur
    | ms => reconcile quantity reconstructRate ms
    end
  else cur.

(** The day count and the usage that the text states, lines 172-182. *)
Definition explicit_days (text : str) : Number.t :=
  match String_match Patterns.daysKwh text with
  | Some m => parseInt (at_ m 1)
  | None =>
      match String_match Patterns.kwhDays text with
      | Some m => parseInt (at_ m 2)
      | None => Number.zero
      end
  end.

Definition explicit_usage (text : str) : Number.t :=
  match String_match Patterns.daysKwh text with
  | Some m => parseInt (at_ m 2)
  | None =>
      match String_match Patterns.kwhDays text with
      | Some m => parseInt (at_ m 1)
      | None => Number.zero
      end
  end.

(** The date of group [i] of the service period, lines 165-169. *)
Definition period_date (h : Host) (text : str) (i : nat) : option Date.t :=
  match String_match Patterns.servicePeriod text with
  | Some m => parseDate h (at_ m i)
  | None => None
  end.

(** A bill for gas only. *)
Definition gas_only_bill : str :=
  lines [ "Natural Gas Delivery Charges";
          "Basic service charge 20.30" ]%string.

(** ** The loop of [processFiles] over the results

    Lines 192-229 of the application script.  A result of
    [processMultiplePDFs] is the name of the file, its text, and the
    message of the error when the PDF could not be read. *)

Record PdfResult := {
  pdf_name : str;
  pdf_text : str;
  pdf_error : option str
}.

Record ErrorEntry := {
  error_fileName : str;
  error_text : str
}.

(** The [state] object, lines 11-19. *)
Record AppState := {
  bills : list BillRecord;
  errors : list ErrorEntry;
  accountInfo : AccountInfo
}.

Definition initial_state : AppState :=
  {| bills := []; errors := [];
     accountInfo := {| accountNumber := []; customerName := [];
                       serviceAddress := [] |} |}.

(** ToBoolean on a string, and on a string that may be undefined. *)
Definition nonempty (s : str) : bool :=
  match s with
  | [] => false
  | _ :: _ => true
  end.

Definition truthy_str (s : option str) : bool :=
  match s with
  | Some v => nonempty v
  | None => false
  end.

(** The test of [findIndex], lines 211-214: both dates are there and
    their time values are [===]; the time value of the invalid date is
    NaN, which equals nothing. *)
Definition same_statement (billData b : BillRecord) : bool :=
  match statementDate b, statementDate billData with
  | Some (Date.Valid t1), Some (Date.Valid t2) => (t1 =? t2)%Z
  | _, _ => false
  end.

Fixpoint findIndex {A : Type} (p : A -> bool) (l : list A) : Z :=
  match l with
  | [] => (-1)%Z
  | x :: l' =>
      if p x then 0%Z
      else let i := findIndex p l' in
           if (i <? 0)%Z then (-1)%Z else (i + 1)%Z
  end.

(** [l[i] = v] for an index of the array. *)
Fixpoint assign_at {A : Type} (l : list A) (i : nat) (v : A) : list A :=
  match l, i with
  | [], _ => []
  | _ :: l', O => v :: l'
  | x :: l', S i' => x :: assign_at l' i' v
  end.

(** Lines 211-221. *)
Definition mergeBill (bs : list BillRecord) (billData : BillRecord)
  : list BillRecord :=
  let existingIndex := findIndex (same_statement billData) bs in
  if (0 <=? existingIndex)%Z
  then assign_at bs (Z.to_nat existingIndex) billData
  else bs ++ [billData].

(** Lines 203-208. *)
Definition adoptAccount (current : AccountInfo) (text : str)
  : completion AccountInfo :=
  if nonempty (accountNumber current) then Normal current
  else
    info <- extractAccountInfo text ;;
    Normal (if nonempty (accountNumber info) then info else current).

(** One turn of the loop.  [message] is the text that the host gives to
    an error. *)
Definition processResult (h : Host) (message : js_error -> str)
  (state : AppState) (result : PdfResult) : AppState :=
  if truthy_str (pdf_error result) then
    {| bills := bills state;
       errors := errors state
                 ++ [{| error_fileName := pdf_name result;
                        error_text := to_String (pdf_error result) |}];
       accountInfo := accountInfo state |}
  else
    match
      billData <- extractBillData h (pdf_text result) (pdf_name result) ;;
      info <- adoptAccount (accountInfo state) (pdf_text result) ;;
      Normal (billData, info)
    with
    | Normal (billData, info) =>
        {| bills := mergeBill (bills state) billData;
           errors := errors state;
           accountInfo := info |}
    | Throw extractError =>
        {| bills := bills state;
           errors := errors state
                     ++ [{| error_fileName := pdf_name result;
                            error_text := message extractError |}];
           accountInfo := accountInfo state |}
    end.

Definition processResults (h : Host) (message : js_error -> str)
  (results : list PdfResult) (state : AppState) : AppState :=
  fold_left (processResult h message) results state.

(** The time values of the valid statement dates of a list of bills. *)
Definition statement_times (bs : list BillRecord) : list Z :=
  flat_map (fun b => match statementDate b with
                     | Some (Date.Valid t) => [t]
                     | _ => []
                     end) bs.

Definition readable (result : PdfResult) : bool :=
  negb (truthy_str (pdf_error result)).

Definition has_account (result : PdfResult) : bool :=
  readable result && nonempty (accountNumber_of (pdf_text result)).

Definition scenario_pdf : PdfResult :=
  {| pdf_name := js "bill.pdf"; pdf_text := scenario; pdf_error := None |}.

Definition damaged_pdf : PdfResult :=
  {| pdf_name := js "scan.pdf"; pdf_text := [];
     pdf_error := Some (js "Invalid PDF structure") |}.

(** The scenario under another file name, the bill of the next month,
    and a page without a statement date. *)
Definition scenario_copy : PdfResult :=
  {| pdf_name := js "copy.pdf"; pdf_text := scenario; pdf_error := None |}.

Definition next_bill : str :=
  lines [ "Statement Date: March 12, 2025";
          "Service from: 02/07/25 - 03/11/25";
          "32 days 3105 kwh";
          "Basic service charge 19.00" ]%string.

Definition next_pdf : PdfResult :=
  {| pdf_name := js "march.pdf"; pdf_text := next_bill;
     pdf_error := None |}.

Definition undated_pdf : PdfResult :=
  {| pdf_name := js "page.pdf"; pdf_text := period_only;
     pdf_error := None |}.

(** ** [escapeCSV], lines 21-28 of [csv-export.js]

    The argument is the string of the value, or [None] for [null] and
    [undefined].  The comma is code unit 44, the quotation mark 34, the
    line feed 10. *)

Definition has_char (c : N) (s : str) : bool := existsb (N.eqb c) s.

(** [str.replace] of every quotation mark by two. *)
Definition double_quotes (s : str) : str :=
  flat_map (fun c => if (c =? 34)%N then [34; 34]%N else [c]) s.

Definition needs_quoting (s : str) : bool :=
  has_char 44 s || has_char 34 s || has_char 10 s.

Definition escapeCSV (value : option str) : str :=
  match value with
  | None => []
  | Some s =>
      if needs_quoting s
      then [34%N] ++ double_quotes s ++ [34%N]
      else s
  end.

(** ** [formatDateCSV], lines 11-14 of [csv-export.js]

    [Date.prototype.toISOString] after the ECMAScript definitions of
    the day, the year, the month and the date of a time value. *)

Module ISO.

Local Open Scope Z_scope.

Definition Day (t : Z) : Z := t / Date.msPerDay.

Fixpoint year_down (fuel : nat) (y day : Z) : Z :=
  match fuel with
  | O => y
  | S fuel' =>
      if Date.DayFromYear y <=? day then y else year_down fuel' (y - 1) day
  end.

(** YearFromTime: the largest year that starts on or before the day,
    found by a search downward from a year that starts after it. *)
Definition YearFromDay (day : Z) : Z :=
  let hi := 1970 + Z.max (day / 365) (day / 366) + 1 in
  let lo := 1970 + Z.min (day / 365) (day / 366) in
  year_down (Z.to_nat (hi - lo + 1)) hi day.

(** MonthFromTime, from the day within the year. *)
Definition MonthFromDay (day : Z) : Z :=
  let y := YearFromDay day in
  let d := day - Date.DayFromYear y in
  let l := if Date.InLeapYear y then 1 else 0 in
  if d <? 31 then 0
  else if d <? 59 + l then 1
  else if d <? 90 + l then 2
  else if d <? 120 + l then 3
  else if d <? 151 + l then 4
  else if d <? 181 + l then 5
  else if d <? 212 + l then 6
  else if d <? 243 + l then 7
  else if d <? 273 + l then 8
  else if d <? 304 + l then 9
  else if d <? 334 + l then 10
  else 11.

(** DateFromTime. *)
Definition DateFromDay (day : Z) : Z :=
  let y := YearFromDay day in
  day - Date.DayFromYear y
  - Date.DayWithinYear (Date.InLeapYear y) (MonthFromDay day) + 1.

(** The last [width] decimal digits of [n], zero padded. *)
Fixpoint pad (width : nat) (n : Z) : str :=
  match width with
  | O => []
  | S w => pad w (n / 10) ++ [Z.to_N (48 + n mod 10)]
  end.

(** Four digits for the years 0 to 9999, a sign and six digits for the
    others. *)
Definition year_string (y : Z) : str :=
  if (0 <=? y) && (y <=? 9999) then pad 4 y
  else (if y <? 0 then [45%N] else [43%N]) ++ pad 6 (Z.abs y).

(** The date part of the format, [YYYY-MM-DD]. *)
Definition date_string (day : Z) : str :=
  year_string (YearFromDay day)
  ++ [45%N] ++ pad 2 (MonthFromDay day + 1)
  ++ [45%N] ++ pad 2 (DateFromDay day).

(** The time part, [HH:mm:ss.sssZ]. *)
Definition time_string (t : Z) : str :=
  pad 2 ((t / 3600000) mod 24)
  ++ [58%N] ++ pad 2 ((t / 60000) mod 60)
  ++ [58%N] ++ pad 2 ((t / 1000) mod 60)
  ++ [46%N] ++ pad 3 (t mod 1000) ++ [90%N].

Definition toISOString (tv : Z) : str :=
  date_string (Day tv) ++ [84%N] ++ time_string tv.

(** The days of month [m] (0 is January). *)
Definition DaysInMonth (leap : bool) (m : Z) : Z :=
  match m with
  | 1 => if leap then 29 else 28
  | 3 | 5 | 8 | 10 => 30
  | _ => 31
  end.

End ISO.

(** What a call of [formatDateCSV] does: [toISOString] throws a
    RangeError on the invalid date. *)
Inductive csv_date :=
| Returned (s : str)
| RangeError.

(** [s.split('T')[0]]: the part before the first [T] (code unit 84). *)
Fixpoint before_T (s : str) : str :=
  match s with
  | [] => []
  | c :: s' => if (c =? 84)%N then [] else c :: before_T s'
  end.

Definition formatDateCSV (date : option Date.t) : csv_date :=
  match date with
  | None => Returned []
  | Some Date.Invalid => RangeError
  | Some (Date.Valid tv) => Returned (before_T (ISO.toISOString tv))
  end.

(** [YYYY-MM-DD] for a year of four digits. *)
Definition iso_date (y m dd : Z) : str :=
  ISO.pad 4 y ++ [45%N] ++ ISO.pad 2 m ++ [45%N] ++ ISO.pad 2 dd.

(** The host of a machine whose local time is one hour ahead of UTC
    throughout. *)
Definition east_host : Host :=
  {| LocalTZA := fun _ => 3600000%Z;
     Date_parse := legacy_parse (fun _ => 3600000%Z) |}.

(** ** The text of a page, lines 531-554 of [pdf-parser.js] *)

Module Pdf.

(** A text item of pdf.js: its string and [transform[5]], the vertical
    position of its baseline. *)
Record TextItem := {
  item_str : str;
  item_y : Number.t
}.

Definition sub : Number.t -> Number.t -> Number.t :=
  SFsub Number.prec Number.emax.

(** [Math.abs(y - lastY) > 5] *)
Definition far (y lastY : Number.t) : bool :=
  Number.ltb (Number.of_Z 5) (SFabs (sub y lastY)).

(** The body of the loop over the items of a page: the state is
    [lastY] ([None] for [null]) and [pageText]. *)
Definition add_item (state : option Number.t * str) (item : TextItem)
  : option Number.t * str :=
  let (lastY, pageText) := state in
  let pageText :=
    match lastY with
    | Some y0 => if far (item_y item) y0 then pageText ++ [10%N] else pageText
    | None => pageText
    end in
  (Some (item_y item), pageText ++ item_str item ++ [32%N]).

Definition pageText (items : list TextItem) : str :=
  snd (fold_left add_item items (None, [])).

Definition page_break : str :=
  [10; 10]%N ++ js "--- PAGE BREAK ---" ++ [10; 10]%N.

(** The text of a document, from the items of its pages. *)
Definition fullText (pages : list (list TextItem)) : str :=
  fold_left (fun fullText items => fullText ++ pageText items ++ page_break)
    pages [].

(** A text without its line feeds. *)
Definition without_breaks (s : str) : str :=
  filter (fun c => negb (c =? 10)%N) s.

(** The line feed that the loop puts before an item, and the text of a
    page as the concatenation of what each item adds. *)
Definition break_before (lastY : option Number.t) (item : TextItem) : str :=
  match lastY with
  | Some y0 => if far (item_y item) y0 then [10%N] else []
  | None => []
  end.

Fixpoint pieces (lastY : option Number.t) (items : list TextItem) : str :=
  match items with
  | [] => []
  | item :: rest =>
      break_before lastY item ++ item_str item ++ [32%N]
      ++ pieces (Some (item_y item)) rest
  end.

Definition one_line : list TextItem :=
  [ {| item_str := js "Basic service charge";
       item_y := Number.of_Z 700 |};
    {| item_str := js "19.00"; item_y := Number.of_Z 700 |} ].

Definition two_lines : list TextItem :=
  [ {| item_str := js "Basic service charge";
       item_y := Number.of_Z 700 |};
    {| item_str := js "19.00"; item_y := Number.of_Z 688 |} ].

End Pdf.

(** * Properties *)

(** ** No step throws *)

Lemma String_matchAll_global (re : RegExp.t) (text : str) :
  RegExp.global re = true ->
  String_matchAll re text = Normal (RegExp.all_matches re text).
Proof. unfold String_matchAll. intros ->. reflexivity. Qed.

Lemma from_months_normal quantity rate re f text data :
  RegExp.global re = true ->
  from_months quantity rate re f text data
  = Normal (months_value quantity rate re f text data).
Proof.
  intros Hg. unfold from_months, months_value.
  rewrite String_matchAll_global by exact Hg. reflexivity.
Qed.

Lemma two_tier_normal quantity simple monthly f text data :
  RegExp.global monthly = true ->
  two_tier quantity simple monthly f text data
  = Normal (two_tier_value quantity simple monthly f text data).
Proof.
  intros Hg. unfold two_tier, two_tier_value, if_rate_zero.
  destruct (Number.eqb _ _).
  - apply from_months_normal, Hg.
  - reflexivity.
Qed.

Lemma readGasSupply_normal text data :
  readGasSupply text data = Normal (gasSupply_value text data).
Proof.
  unfold readGasSupply, gasSupply_value, if_rate_zero.
  rewrite from_months_normal by reflexivity. cbn [bind].
  destruct (Number.eqb _ _).
  - apply from_months_normal. reflexivity.
  - reflexivity.
Qed.

Lemma readElectricity_normal text data :
  readElectricity text data = Normal (electricity_value text data).
Proof.
  unfold readElectricity, electricity_value, electricity_tail.
  repeat (rewrite two_tier_normal by reflexivity; cbn [bind]).
  reflexivity.
Qed.

Lemma readGas_normal text data :
  readGas text data = Normal (gas_value text data).
Proof.
  unfold readGas, gas_value, gas_tail, gas_head.
  rewrite two_tier_normal by reflexivity. cbn [bind].
  rewrite readGasSupply_normal. reflexivity.
Qed.

Lemma extractBillData_normal h text fileName :
  extractBillData h text fileName = Normal (bill_value h text fileName).
Proof.
  unfold extractBillData, bill_value, header_value.
  rewrite readElectricity_normal. cbn [bind].
  rewrite readGas_normal. reflexivity.
Qed.

(** C1. [extractBillData] returns a record for every text and file name,
    it never throws; on the empty text the record is the initial one, in
    which every number is [0] and every date is [null]. *)
Theorem extractBillData_total :
  (forall (h : Host) (text fileName : str),
      exists r, extractBillData h text fileName = Normal r)
  /\ (forall (h : Host) (fileName : str),
         extractBillData h [] fileName = Normal (initial fileName)).
Proof.
  split.
  - intros h text fileName. exists (bill_value h text fileName).
    apply extractBillData_normal.
  - intros h fileName. reflexivity.
Qed.

(** ** What a step leaves alone *)

Section Frame.

Context {A : Type}.
Variable g : BillRecord -> A.

Lemma read_amount_keeps re set text data :
  unseen g set -> g (read_amount re set text data) = g data.
Proof.
  intros Hs. unfold read_amount.
  destruct (String_match re text); [apply Hs | reflexivity].
Qed.

Lemma from_line_keeps re f text data :
  unseen g (set_rate f) -> unseen g (set_charge f) ->
  g (from_line re f text data) = g data.
Proof.
  intros Hr Hc. unfold from_line.
  destruct (String_match re text); [| reflexivity].
  rewrite Hc. apply Hr.
Qed.

Lemma apply_months_keeps quantity rate ms f data :
  unseen g (set_rate f) -> unseen g (set_charge f) ->
  g (apply_months quantity rate ms f data) = g data.
Proof.
  intros Hr Hc. unfold apply_months.
  destruct ms; [reflexivity |].
  destruct (reconcile quantity rate _) as [r c].
  rewrite Hc. apply Hr.
Qed.

Lemma two_tier_keeps quantity simple monthly f text data :
  unseen g (set_rate f) -> unseen g (set_charge f) ->
  g (two_tier_value quantity simple monthly f text data) = g data.
Proof.
  intros Hr Hc. unfold two_tier_value, months_value.
  destruct (Number.eqb _ _).
  - rewrite apply_months_keeps by assumption.
    apply from_line_keeps; assumption.
  - apply from_line_keeps; assumption.
Qed.

Lemma gasSupply_keeps text data :
  unseen g (set_rate gas_supply) -> unseen g (set_charge gas_supply) ->
  g (gasSupply_value text data) = g data.
Proof.
  intros Hr Hc. unfold gasSupply_value, months_value.
  destruct (Number.eqb _ _);
    repeat (rewrite apply_months_keeps by assumption); reflexivity.
Qed.

End Frame.

(** Discharges [unseen g set] for a reading and an assignment of
    different fields: both sides compute to the same projection. *)
Ltac unseen_solve := intros ? ?; reflexivity.

(** Moves a reading [g] backwards through the steps it does not see. *)
Ltac skip_steps g :=
  repeat first
    [ rewrite (read_amount_keeps g) by unseen_solve
    | rewrite (from_line_keeps g) by unseen_solve
    | rewrite (two_tier_keeps g) by unseen_solve
    | rewrite (gasSupply_keeps g) by unseen_solve ].

Lemma deriveDays_keeps {A} (g : BillRecord -> A) data :
  (forall f d, g (in_servicePeriod f d) = g d) ->
  g (deriveDays data) = g data.
Proof.
  intros Hg. unfold deriveDays.
  destruct (Number.eqb _ _); [| reflexivity].
  destruct (ServicePeriod.start _); [| reflexivity].
  destruct (ServicePeriod.end_ _); [| reflexivity].
  apply Hg.
Qed.

(** The gas section, the totals and the derivation of the days do not
    touch the electricity fields. *)
Lemma electricity_after_gas text data :
  electricity (deriveDays (readTotals text (gas_value text data)))
  = electricity data.
Proof.
  rewrite (deriveDays_keeps electricity) by reflexivity.
  unfold readTotals, gas_value, gas_tail, gas_head.
  skip_steps electricity. reflexivity.
Qed.

Lemma gas_after_tail text data :
  gas (deriveDays (readTotals text data)) = gas data.
Proof.
  rewrite (deriveDays_keeps gas) by reflexivity.
  unfold readTotals. skip_steps gas. reflexivity.
Qed.

(** Nothing between the header and the derivation touches the service
    period. *)
Lemma servicePeriod_after_header text data :
  servicePeriod (readTotals text (gas_value text (electricity_value text data)))
  = servicePeriod data.
Proof.
  unfold readTotals, gas_value, gas_tail, gas_head, electricity_value,
    electricity_tail.
  skip_steps servicePeriod. reflexivity.
Qed.

(** The header writes the statement date, the service period and the
    electricity usage only. *)
Lemma header_keeps {A} (g : BillRecord -> A) h text fileName :
  (forall v d, g (set_statementDate v d) = g d) ->
  (forall f d, g (in_servicePeriod f d) = g d) ->
  (forall v d, g (in_electricity (Electricity.set_usage v) d) = g d) ->
  g (header_value h text fileName) = g (initial fileName).
Proof.
  intros H1 H2 H3.
  unfold header_value, readDaysKwh, readServicePeriod, readStatementDate.
  repeat match goal with
         | |- context [match ?x with Some _ => _ | None => _ end] =>
             destruct x
         end;
    repeat first [rewrite H1 | rewrite H2 | rewrite H3]; reflexivity.
Qed.

(** ** The value of a pair after its steps *)

Lemma lawful_fields :
  lawful elec_delivery /\ lawful elec_transition /\ lawful elec_sbc
  /\ lawful elec_supply /\ lawful gas_delivery /\ lawful gas_supply.
Proof. repeat split. Qed.

Lemma from_line_pair re f text data :
  lawful f ->
  pair_of f (from_line re f text data)
  = match String_match re text with
    | Some m => line_pair m
    | None => pair_of f data
    end.
Proof.
  intros Hf. unfold from_line.
  destruct (String_match re text); [apply Hf | reflexivity].
Qed.

Lemma apply_months_pair quantity rate ms f data :
  lawful f ->
  pair_of f (apply_months quantity rate ms f data)
  = match ms with
    | [] => pair_of f data
    | _ :: _ => reconcile quantity rate ms
    end.
Proof.
  intros Hf. unfold apply_months.
  destruct ms; [reflexivity |].
  destruct (reconcile quantity rate _) as [r c]. apply Hf.
Qed.

Lemma two_tier_pair quantity simple monthly f text data :
  lawful f ->
  pair_of f (two_tier_value quantity simple monthly f text data)
  = let cur := pair_of f (from_line simple f text data) in
    if Number.eqb (fst cur) Number.zero then
      match RegExp.all_matches monthly text with
      | [] => cur
      | ms => reconcile quantity reconstructRate ms
      end
    else cur.
Proof.
  intros Hf. unfold two_tier_value, months_value. cbn zeta.
  change (fst (pair_of f ?d)) with (rate_of f d).
  destruct (Number.eqb _ _); [| reflexivity].
  rewrite apply_months_pair by exact Hf.
  destruct (RegExp.all_matches monthly text); reflexivity.
Qed.

(** The pair of an electricity charge in the record is the one its own
    step leaves. *)
Lemma elec_pair_final h text fileName (k : elec_charge) :
  exists before,
    pair_of (field k) (bill_value h text fileName)
    = pair_of (field k)
        (two_tier_value parseInt (simple_re k) (monthly_re k) (field k)
           text before).
Proof.
  unfold bill_value, pair_of.
  destruct k; cbn [field simple_re monthly_re];
    cbn [rate_of charge_of elec_delivery elec_transition elec_sbc];
    rewrite electricity_after_gas.
  - change (Electricity.deliveryRate (electricity ?x))
      with (rate_of elec_delivery x).
    change (Electricity.deliveryCharge (electricity ?x))
      with (charge_of elec_delivery x).
    unfold electricity_value, electricity_tail.
    skip_steps (rate_of elec_delivery). skip_steps (charge_of elec_delivery).
    eexists. reflexivity.
  - change (Electricity.transitionRate (electricity ?x))
      with (rate_of elec_transition x).
    change (Electricity.transitionCharge (electricity ?x))
      with (charge_of elec_transition x).
    unfold electricity_value, electricity_tail.
    skip_steps (rate_of elec_transition).
    skip_steps (charge_of elec_transition).
    eexists. reflexivity.
  - change (Electricity.sbcRate (electricity ?x))
      with (rate_of elec_sbc x).
    change (Electricity.sbcCharge (electricity ?x))
      with (charge_of elec_sbc x).
    unfold electricity_value, electricity_tail.
    skip_steps (rate_of elec_sbc). skip_steps (charge_of elec_sbc).
    eexists. reflexivity.
Qed.

Lemma lawful_field (k : elec_charge) : lawful (field k).
Proof. destruct k; repeat intro; reflexivity. Qed.

(** C2. When the single-line pattern of electricity delivery (likewise
    transition, SBC) matches and the per-month pattern has matches too,
    the rate and the charge of the record are those of the single-line
    match if its reconstructed rate is not zero, and both are the result
    of the reconciler on the per-month matches if that rate is zero. *)
Theorem single_line_kept_iff_rate_nonzero
  (h : Host) (text fileName : str) (k : elec_charge)
  (m : list (option str)) :
  String_match (simple_re k) text = Some m ->
  RegExp.all_matches (monthly_re k) text <> [] ->
  exists r,
    extractBillData h text fileName = Normal r
    /\ (rate_of (field k) r, charge_of (field k) r)
       = if Number.eqb (reconstructRate (at_ m 2)) Number.zero
         then reconcile parseInt reconstructRate
                (RegExp.all_matches (monthly_re k) text)
         else (reconstructRate (at_ m 2), parseNumber (at_ m 3)).
Proof.
  intros Hline Hmonths.
  exists (bill_value h text fileName). split.
  - apply extractBillData_normal.
  - destruct (elec_pair_final h text fileName k) as [before Hb].
    unfold pair_of in Hb. rewrite Hb.
    change (pair_of (field k)
              (two_tier_value parseInt (simple_re k) (monthly_re k)
                 (field k) text before) = 
            if Number.eqb (reconstructRate (at_ m 2)) Number.zero
            then reconcile parseInt reconstructRate
                   (RegExp.all_matches (monthly_re k) text)
            else (reconstructRate (at_ m 2), parseNumber (at_ m 3))).
    rewrite two_tier_pair by apply lawful_field.
    rewrite from_line_pair by apply lawful_field.
    rewrite Hline. cbn zeta. unfold line_pair at 1. cbn [fst].
    destruct (Number.eqb _ _); [| reflexivity].
    destruct (RegExp.all_matches (monthly_re k) text);
      [contradiction | reflexivity].
Qed.

Lemma single_line_kept_witness :
  exists r,
    extractBillData utc_host zero_rate_then_months (js "bill.pdf") = Normal r
    /\ (rate_of (field Delivery) r, charge_of (field Delivery) r)
       = (parseFloat (js "0.07"), Number.of_Z 21).
Proof.
  destruct (single_line_kept_iff_rate_nonzero utc_host zero_rate_then_months
              (js "bill.pdf") Delivery
              [Some (js "300 kwh 000 @ 0. Delivery charge 21.00");
               Some (js "300"); Some (js "000"); Some (js "21.00")])
    as [r [Hr Hp]].
  - vm_compute. reflexivity.
  - vm_compute. discriminate.
  - exists r. split; [exact Hr |]. rewrite Hp. vm_compute. reflexivity.
Defined.

(** ** The reconciler *)

Lemma fold_accumulate quantity rate ms a b c :
  fold_left (accumulate quantity rate) ms (a, b, c)
  = (fold_left Number.add (quantities quantity ms) a,
     fold_left Number.add (products quantity rate ms) b,
     fold_left Number.add (charges ms) c).
Proof.
  revert a b c. induction ms as [| m ms IH]; intros a b c.
  - reflexivity.
  - cbn [fold_left quantities products charges map].
    unfold accumulate at 2. apply IH.
Qed.

Lemma eqb_zero_not_positive (x : Number.t) :
  Number.eqb x Number.zero = true -> Number.ltb Number.zero x = false.
Proof. destruct x as [[] | [] | | [] ? ?]; cbn; congruence. Qed.

(** C3. On every sequence of per-month matches the reconciler yields the
    sum of [quantity * rate] divided by the sum of the quantities as the
    rate, [0] when the sum of the quantities is zero, and the sum of
    the matched charges as the charge, which is not recomputed from the
    rate; the lines (100, 0.05, 5.00) and (200, 0.08, 16.00) give the
    rate 0.07 and the charge 21.00. *)
Theorem reconcile_weighted_average :
  (forall quantity rate ms,
      reconcile quantity rate ms
      = (if Number.ltb Number.zero (Number.sum (quantities quantity ms))
         then Number.div (Number.sum (products quantity rate ms))
                (Number.sum (quantities quantity ms))
         else Number.zero,
         Number.sum (charges ms)))
  /\ (forall quantity rate ms,
         Number.eqb (Number.sum (quantities quantity ms)) Number.zero = true ->
         fst (reconcile quantity rate ms) = Number.zero)
  /\ (let ms := RegExp.all_matches Patterns.deliveryMonth two_months in
      quantities parseInt ms = [Number.of_Z 100; Number.of_Z 200]
      /\ map (fun m => reconstructRate (at_ m 2)) ms
         = [parseFloat (js "0.05"); parseFloat (js "0.08")]
      /\ charges ms = [Number.of_Z 5; Number.of_Z 16]
      /\ reconcile parseInt reconstructRate ms
         = (parseFloat (js "0.07"), Number.of_Z 21)
      /\ forall h fileName,
           exists r,
             extractBillData h two_months fileName = Normal r
             /\ Electricity.deliveryRate (electricity r)
                = parseFloat (js "0.07")
             /\ Electricity.deliveryCharge (electricity r) = Number.of_Z 21).
Proof.
  assert (Hform : forall quantity rate ms,
             reconcile quantity rate ms
             = (if Number.ltb Number.zero
                     (Number.sum (quantities quantity ms))
                then Number.div (Number.sum (products quantity rate ms))
                       (Number.sum (quantities quantity ms))
                else Number.zero,
                Number.sum (charges ms))).
  { intros quantity rate ms. unfold reconcile.
    rewrite fold_accumulate. reflexivity. }
  split; [exact Hform |]. split.
  - intros quantity rate ms Hz. rewrite Hform. cbn [fst].
    rewrite (eqb_zero_not_positive _ Hz). reflexivity.
  - cbn zeta. repeat split; try (vm_compute; reflexivity).
    intros h fileName. exists (bill_value h two_months fileName).
    split; [apply extractBillData_normal |].
    split; vm_compute; reflexivity.
Qed.

Lemma reconcile_weighted_average_witness :
  fst (reconcile parseInt reconstructRate
         (RegExp.all_matches Patterns.deliveryMonth no_usage_month))
  = Number.zero.
Proof.
  apply (proj1 (proj2 reconcile_weighted_average)).
  vm_compute. reflexivity.
Defined.

(** ** Supply charges *)

(** The pair of the electricity supply charge in the record is the one
    its single-line step leaves. *)
Lemma elec_supply_final h text fileName :
  pair_of elec_supply (bill_value h text fileName)
  = match String_match Patterns.supply text with
    | Some m => line_pair m
    | None => (Number.zero, Number.zero)
    end.
Proof.
  unfold bill_value, pair_of. cbn [rate_of charge_of elec_supply].
  rewrite electricity_after_gas.
  change (Electricity.supplyRate (electricity ?x))
    with (rate_of elec_supply x).
  change (Electricity.supplyCharge (electricity ?x))
    with (charge_of elec_supply x).
  unfold electricity_value, electricity_tail.
  skip_steps (rate_of elec_supply). skip_steps (charge_of elec_supply).
  change (pair_of elec_supply
            (from_line Patterns.supply elec_supply text
               (read_amount Patterns.elecDeliveryTotal
                  (fun v => in_electricity (Electricity.set_totalDelivery v))
                  text
                  (two_tier_value parseInt Patterns.sbc Patterns.sbcMonth
                     elec_sbc text
                     (two_tier_value parseInt Patterns.transition
                        Patterns.transitionMonth elec_transition text
                        (two_tier_value parseInt Patterns.delivery
                           Patterns.deliveryMonth elec_delivery text
                           (read_amount Patterns.elecBasic
                              (fun v =>
                                 in_electricity
                                   (Electricity.set_basicServiceCharge v))
                              text (header_value h text fileName)))))))
          = match String_match Patterns.supply text with
            | Some m => line_pair m
            | None => (Number.zero, Number.zero)
            end).
  rewrite from_line_pair by (repeat intro; reflexivity).
  destruct (String_match Patterns.supply text); [reflexivity |].
  unfold pair_of.
  skip_steps (rate_of elec_supply). skip_steps (charge_of elec_supply).
  rewrite (header_keeps (rate_of elec_supply)) by reflexivity.
  rewrite (header_keeps (charge_of elec_supply)) by reflexivity.
  reflexivity.
Qed.

(** C10. The electricity supply charge has one pattern and no per-month
    form: on every text that the single-line supply pattern does not
    match, its rate and its charge stay [0], also when the supply
    charge is listed per month. *)
Theorem electricity_supply_single_pattern
  (h : Host) (text fileName : str) :
  String_match Patterns.supply text = None ->
  exists r,
    extractBillData h text fileName = Normal r
    /\ Electricity.supplyRate (electricity r) = Number.zero
    /\ Electricity.supplyCharge (electricity r) = Number.zero.
Proof.
  intros Hnone. exists (bill_value h text fileName).
  split; [apply extractBillData_normal |].
  pose proof (elec_supply_final h text fileName) as Hp.
  rewrite Hnone in Hp. unfold pair_of in Hp.
  cbn [rate_of charge_of elec_supply] in Hp.
  inversion Hp. split; reflexivity.
Qed.

Lemma electricity_supply_single_pattern_witness :
  exists r,
    extractBillData utc_host supply_per_month (js "bill.pdf") = Normal r
    /\ Electricity.supplyRate (electricity r) = Number.zero
    /\ Electricity.supplyCharge (electricity r) = Number.zero.
Proof.
  apply (electricity_supply_single_pattern utc_host supply_per_month
           (js "bill.pdf")).
  vm_compute. reflexivity.
Defined.

(** The pair of the gas supply charge in the record is the one its two
    per-month steps leave. *)
Lemma gas_supply_final h text fileName :
  pair_of gas_supply (bill_value h text fileName)
  = let cur :=
      match RegExp.all_matches Patterns.gasSupply text with
      | [] => (Number.zero, Number.zero)
      | ms => reconcile parseNumber reconstructRate ms
      end in
    if Number.eqb (fst cur) Number.zero then
      match RegExp.all_matches Patterns.gasSupplyStd text with
      | [] => cur
      | ms => reconcile parseNumber parseNumber ms
      end
    else cur.
Proof.
  unfold bill_value, pair_of. cbn [rate_of charge_of gas_supply].
  rewrite gas_after_tail.
  change (Gas.supplyRate (gas ?x)) with (rate_of gas_supply x).
  change (Gas.supplyCharge (gas ?x)) with (charge_of gas_supply x).
  unfold gas_value, gas_tail.
  skip_steps (rate_of gas_supply). skip_steps (charge_of gas_supply).
  set (before := two_tier_value _ _ _ _ _ _).
  assert (Hb : pair_of gas_supply before = (Number.zero, Number.zero)).
  { unfold before, pair_of, gas_head, electricity_value, electricity_tail.
    skip_steps (rate_of gas_supply). skip_steps (charge_of gas_supply).
    rewrite (header_keeps (rate_of gas_supply)) by reflexivity.
    rewrite (header_keeps (charge_of gas_supply)) by reflexivity.
    reflexivity. }
  change (pair_of gas_supply (gasSupply_value text before)
          = let cur :=
              match RegExp.all_matches Patterns.gasSupply text with
              | [] => (Number.zero, Number.zero)
              | ms => reconcile parseNumber reconstructRate ms
              end in
            if Number.eqb (fst cur) Number.zero then
              match RegExp.all_matches Patterns.gasSupplyStd text with
              | [] => cur
              | ms => reconcile parseNumber parseNumber ms
              end
            else cur).
  unfold gasSupply_value, months_value. cbn zeta.
  change (rate_of gas_supply ?d) with (fst (pair_of gas_supply d)).
  assert (Hl : lawful gas_supply) by (repeat intro; reflexivity).
  rewrite (apply_months_pair parseNumber reconstructRate _ gas_supply before Hl).
  rewrite Hb.
  destruct (RegExp.all_matches Patterns.gasSupply text) as [| m ms].
  - cbn [fst]. destruct (Number.eqb Number.zero Number.zero).
    + rewrite apply_months_pair by exact Hl. cbn [apply_months].
      rewrite Hb.
      destruct (RegExp.all_matches Patterns.gasSupplyStd text); reflexivity.
    + cbn [apply_months]. exact Hb.
  - destruct (Number.eqb _ _).
    + rewrite apply_months_pair by exact Hl.
      rewrite apply_months_pair by exact Hl.
      destruct (RegExp.all_matches Patterns.gasSupplyStd text); reflexivity.
    + rewrite apply_months_pair by exact Hl. reflexivity.
Qed.

(** C4, as the code has it.  The gas supply charge is resolved by two
    patterns, both per-month: the split-digit per-month pattern,
    reconciled over its matches, and, when the rate is still zero, the
    per-month pattern with a literal decimal rate.  There is no
    single-line pattern: when neither per-month pattern matches, the
    rate and the charge stay [0]. *)
Theorem gas_supply_per_month_only (h : Host) (text fileName : str) :
  exists r,
    extractBillData h text fileName = Normal r
    /\ (Gas.supplyRate (gas r), Gas.supplyCharge (gas r))
       = (let cur :=
            match RegExp.all_matches Patterns.gasSupply text with
            | [] => (Number.zero, Number.zero)
            | ms => reconcile parseNumber reconstructRate ms
            end in
          if Number.eqb (fst cur) Number.zero then
            match RegExp.all_matches Patterns.gasSupplyStd text with
            | [] => cur
            | ms => reconcile parseNumber parseNumber ms
            end
          else cur)
    /\ (RegExp.all_matches Patterns.gasSupply text = [] ->
        RegExp.all_matches Patterns.gasSupplyStd text = [] ->
        Gas.supplyRate (gas r) = Number.zero
        /\ Gas.supplyCharge (gas r) = Number.zero).
Proof.
  exists (bill_value h text fileName).
  split; [apply extractBillData_normal |].
  pose proof (gas_supply_final h text fileName) as Hp.
  unfold pair_of in Hp. cbn [rate_of charge_of gas_supply] in Hp.
  split; [exact Hp |].
  intros H1 H2. rewrite H1, H2 in Hp. cbn in Hp.
  inversion Hp. split; reflexivity.
Qed.

Lemma gas_supply_per_month_only_witness :
  exists r,
    extractBillData utc_host gas_single_lines (js "bill.pdf") = Normal r
    /\ Gas.supplyRate (gas r) = Number.zero
    /\ Gas.supplyCharge (gas r) = Number.zero.
Proof.
  destruct (gas_supply_per_month_only utc_host gas_single_lines
              (js "bill.pdf")) as [r [Hr [_ Hz]]].
  exists r. split; [exact Hr |].
  apply Hz; vm_compute; reflexivity.
Defined.

(** C4, as it is stated, fails on [gas_single_lines]: the gas supply
    line without a month has the single-line form, with the rate digits
    61252 and the charge 27.07, and the record keeps the rate and the
    charge of gas supply at [0]; the delivery line of the same form
    is read. *)
Lemma gas_supply_single_line_not_read :
  exists m r,
    String_match gasSupplySimple_form gas_single_lines = Some m
    /\ line_pair m = (parseFloat (js "0.61252"), parseFloat (js "27.07"))
    /\ extractBillData utc_host gas_single_lines (js "bill.pdf") = Normal r
    /\ (Gas.supplyRate (gas r), Gas.supplyCharge (gas r))
       = (Number.zero, Number.zero)
    /\ (Gas.supplyRate (gas r), Gas.supplyCharge (gas r)) <> line_pair m
    /\ (Gas.deliveryRate (gas r), Gas.deliveryCharge (gas r))
       = (parseFloat (js "0.73822"), parseFloat (js "32.63")).
Proof.
  eexists. eexists.
  split; [vm_compute; reflexivity |].
  split; [vm_compute; reflexivity |].
  split; [vm_compute; reflexivity |].
  split; [vm_compute; reflexivity |].
  split; [vm_compute; discriminate |].
  vm_compute; reflexivity.
Qed.

(** ** The matcher on the date patterns *)

(** A pattern without groups hands to its continuation the captures it
    was given. *)
Lemma star_loop_groupfree greedy body k :
  (forall k' s e, body k' s = Some e ->
     exists s', k' s' = Some e /\ RegExp.caps s' = RegExp.caps s) ->
  forall n s e, RegExp.star_loop greedy body k n s = Some e ->
  exists s', k s' = Some e /\ RegExp.caps s' = RegExp.caps s.
Proof.
  intros Hbody. induction n as [| n IHn]; intros s e Hrun.
  - exists s. split; [exact Hrun | reflexivity].
  - cbn [RegExp.star_loop] in Hrun. cbv zeta in Hrun.
    assert (Hagain : forall e',
               body (fun s' => if (RegExp.idx s <? RegExp.idx s')%nat
                               then RegExp.star_loop greedy body k n s'
                               else None) s = Some e' ->
               exists s', k s' = Some e' /\ RegExp.caps s' = RegExp.caps s).
    { intros e' H. destruct (Hbody _ _ _ H) as [s1 [H1 C1]].
      destruct (RegExp.idx s <? RegExp.idx s1)%nat; [| discriminate].
      destruct (IHn _ _ H1) as [s2 [H2 C2]].
      exists s2. split; [exact H2 | congruence]. }
    destruct greedy.
    + destruct (body _ s) eqn:E.
      * inversion Hrun; subst. apply Hagain. reflexivity.
      * exists s. split; [exact Hrun | reflexivity].
    + destruct (k s) eqn:E.
      * inversion Hrun; subst. exists s. split; [exact E | reflexivity].
      * apply Hagain. exact Hrun.
Qed.

Lemma run_groupfree (ic : bool) (r : RegExp.node) :
  groupfree r = true ->
  forall k s e, RegExp.run ic r k s = Some e ->
  exists s', k s' = Some e /\ RegExp.caps s' = RegExp.caps s.
Proof.
  induction r as [| c | p | a IHa b IHb | a IHa b IHb | greedy a IHa
                 | i a IHa |]; intros Hg k s e Hrun; cbn in Hg.
  - exists s. split; [exact Hrun | reflexivity].
  - cbn in Hrun. destruct (RegExp.rest s) as [| x tl]; [discriminate |].
    destruct (RegExp.char_matches ic c x); [| discriminate].
    eexists. split; [exact Hrun | reflexivity].
  - cbn in Hrun. destruct (RegExp.rest s) as [| x tl]; [discriminate |].
    destruct (RegExp.class_matches ic p x); [| discriminate].
    eexists. split; [exact Hrun | reflexivity].
  - apply andb_prop in Hg. destruct Hg as [Ha Hb]. cbn in Hrun.
    destruct (IHa Ha _ _ _ Hrun) as [s1 [H1 C1]].
    destruct (IHb Hb _ _ _ H1) as [s2 [H2 C2]].
    exists s2. split; [exact H2 | congruence].
  - apply andb_prop in Hg. destruct Hg as [Ha Hb]. cbn in Hrun.
    destruct (RegExp.run ic a k s) eqn:E.
    + inversion Hrun; subst. apply (IHa Ha _ _ _ E).
    + apply (IHb Hb _ _ _ Hrun).
  - cbn [RegExp.run] in Hrun.
    apply (star_loop_groupfree greedy (RegExp.run ic a) k (IHa Hg) _ _ _ Hrun).
  - discriminate.
  - cbn in Hrun.
    destruct (xorb _ _); [| discriminate].
    exists s. split; [exact Hrun | reflexivity].
Qed.

(** What [search] returns is a successful run from a position without
    captures. *)
Lemma search_run ic r : forall s lst i st e,
  RegExp.search ic r lst s i = Some (st, e) ->
  RegExp.run ic r Some st = Some e /\ RegExp.caps st = [].
Proof.
  induction s as [| c tl IH]; intros lst i st e H; cbn [RegExp.search] in H.
  - destruct (RegExp.run ic r Some _) eqn:E; [| discriminate].
    inversion H; subst. split; [exact E | reflexivity].
  - destruct (RegExp.run ic r Some _) eqn:E.
    + inversion H; subst. split; [exact E | reflexivity].
    + apply (IH _ _ _ _ H).
Qed.

Lemma class_digit x : RegExp.class_matches false is_digit x = is_digit x.
Proof. unfold RegExp.class_matches. cbn. apply orb_false_r. Qed.

(** One character test of an unfolded run [H] that succeeded. *)
Ltac next_char H x tl E :=
  match type of H with
  | match ?l with [] => _ | _ :: _ => _ end = Some _ =>
      destruct l as [| x tl]; [discriminate H |]
  end;
  match type of H with
  | (if ?c then _ else _) = Some _ =>
      destruct c eqn:E; [| discriminate H]
  end.

Lemma run_mmddyy k s e :
  RegExp.run false Patterns.mmddyy k s = Some e ->
  exists a b c d y z tl,
    RegExp.rest s = [a; b; 47; c; d; 47; y; z]%N ++ tl
    /\ is_mmddyy [a; b; 47; c; d; 47; y; z]%N = true
    /\ k {| RegExp.last := Some z; RegExp.rest := tl;
            RegExp.idx := 8 + RegExp.idx s; RegExp.caps := RegExp.caps s |}
       = Some e.
Proof.
  destruct s as [lst rs i cs]. intros H.
  unfold Patterns.mmddyy in H. cbn in H.
  next_char H a t1 Ea. next_char H b t2 Eb. next_char H s1 t3 E1.
  next_char H c t4 Ec. next_char H d t5 Ed. next_char H s2 t6 E2.
  next_char H y t7 Ey. next_char H z t8 Ez.
  rewrite class_digit in *.
  apply N.eqb_eq in E1, E2. subst.
  exists a, b, c, d, y, z, t8.
  split; [reflexivity |]. split.
  - cbn. rewrite Ea, Eb, Ec, Ed, Ey, Ez. reflexivity.
  - exact H.
Qed.

Lemma run_Seq ic a b k s :
  RegExp.run ic (RegExp.Seq a b) k s = RegExp.run ic a (RegExp.run ic b k) s.
Proof. reflexivity. Qed.

Lemma run_Group ic i a k s :
  RegExp.run ic (RegExp.Group i a) k s
  = RegExp.run ic a (fun e => k (RegExp.capture i s e)) s.
Proof. reflexivity. Qed.

(** The two groups of a service period are dates of the short form. *)
Lemma servicePeriod_groups text m :
  String_match Patterns.servicePeriod text = Some m ->
  exists x y,
    at_ m 1 = Some x /\ at_ m 2 = Some y
    /\ is_mmddyy x = true /\ is_mmddyy y = true.
Proof.
  unfold String_match. cbn [RegExp.global Patterns.servicePeriod RegExp.regex].
  unfold RegExp.exec.
  cbn [RegExp.ignoreCase RegExp.source].
  destruct (RegExp.search _ _ _ _ _) as [[st e] |] eqn:Hs; [| discriminate].
  intros Hm. cbn [option_map] in Hm. inversion Hm; subst m; clear Hm.
  apply search_run in Hs. destruct Hs as [Hrun Hc].
  change (RegExp.run false
            (RegExp.Seq (RegExp.Group 1 Patterns.mmddyy)
               (RegExp.Seq (RegExp.star RegExp.s)
                  (RegExp.Seq (RegExp.lit "-")
                     (RegExp.Seq (RegExp.star RegExp.s)
                        (RegExp.Seq (RegExp.Group 2 Patterns.mmddyy)
                           RegExp.Empty))))) Some st = Some e) in Hrun.
  rewrite run_Seq, run_Group in Hrun.
  apply run_mmddyy in Hrun.
  destruct Hrun as (a & b & c & d & y & z & tl & Hrest & Hx & Hrun).
  rewrite run_Seq in Hrun.
  apply run_groupfree in Hrun; [| reflexivity].
  destruct Hrun as (s1 & Hrun & C1).
  rewrite run_Seq in Hrun.
  apply run_groupfree in Hrun; [| reflexivity].
  destruct Hrun as (s2 & Hrun & C2).
  rewrite run_Seq in Hrun.
  apply run_groupfree in Hrun; [| reflexivity].
  destruct Hrun as (s3 & Hrun & C3).
  rewrite run_Seq, run_Group in Hrun.
  apply run_mmddyy in Hrun.
  destruct Hrun as (a' & b' & c' & d' & y' & z' & tl' & Hrest' & Hy & Hrun).
  cbn [RegExp.run] in Hrun. inversion Hrun; subst e; clear Hrun.
  exists [a; b; 47; c; d; 47; y; z]%N, [a'; b'; 47; c'; d'; 47; y'; z']%N.
  split; [| split; [| split; [exact Hx | exact Hy]]];
    unfold RegExp.match_array, at_; cbn -[Nat.add Nat.sub firstn].
  - rewrite C3, C2, C1. cbn -[Nat.add Nat.sub firstn].
    rewrite Hrest. f_equal.
    match goal with
    | |- firstn ?n _ = _ => replace n with 8%nat by lia
    end.
    reflexivity.
  - rewrite Hrest'. f_equal.
    match goal with
    | |- firstn ?n _ = _ => replace n with 8%nat by lia
    end.
    reflexivity.
Qed.

Lemma digit_cases a :
  is_digit a = true ->
  In a [48; 49; 50; 51; 52; 53; 54; 55; 56; 57]%N.
Proof.
  unfold is_digit, in_range. intros H.
  apply andb_prop in H. destruct H as [H1 H2].
  apply N.leb_le in H1, H2. cbn [In].
  lia.
Qed.

Lemma parseInt_two_digits a b :
  is_digit a = true -> is_digit b = true ->
  parseInt_Z (Some [a; b]) = Some (two_digits a b).
Proof.
  intros Ha Hb. apply digit_cases in Ha, Hb. cbn [In] in Ha, Hb.
  repeat match goal with
         | H : _ \/ _ |- _ => destruct H as [H | H]
         | H : False |- _ => destruct H
         end; subst; reflexivity.
Qed.

Lemma is_mmddyy_digits a b s1 c d s2 y z :
  is_mmddyy [a; b; s1; c; d; s2; y; z] = true ->
  is_digit a = true /\ is_digit b = true /\ is_digit c = true
  /\ is_digit d = true /\ is_digit y = true /\ is_digit z = true
  /\ s1 = 47%N /\ s2 = 47%N.
Proof.
  unfold is_mmddyy. intros H.
  do 7 (apply andb_prop in H; destruct H as [H ?]).
  repeat match goal with
         | E : (_ =? _)%N = true |- _ => apply N.eqb_eq in E
         end.
  repeat split; assumption.
Qed.

Lemma shortDate_mmddyy a b c d y z :
  is_mmddyy [a; b; 47; c; d; 47; y; z]%N = true ->
  String_match Patterns.shortDate [a; b; 47; c; d; 47; y; z]%N
  = Some [Some [a; b; 47; c; d; 47; y; z]%N;
          Some [a; b]; Some [c; d]; Some [y; z]].
Proof.
  intros H. apply is_mmddyy_digits in H.
  destruct H as (Ha & Hb & Hc & Hd & Hy & Hz & _ & _).
  unfold String_match, RegExp.exec. cbn.
  rewrite !class_digit, Ha, Hb, Hc, Hd, Hy, Hz.
  reflexivity.
Qed.

(** On a date of the short form [parseDate] takes the first branch and
    builds a date from the three numbers. *)
Lemma parseDate_mmddyy h x :
  is_mmddyy x = true ->
  exists a b c d y z,
    x = [a; b; 47; c; d; 47; y; z]%N
    /\ parseDate h (Some x)
       = Some (new_Date h (Some (expand_year (two_digits y z)))
                 (Some (two_digits a b - 1)%Z) (Some (two_digits c d))).
Proof.
  intros H.
  destruct x as [| a [| b [| s1 [| c [| d [| s2 [| y [| z [| ? ?]]]]]]]]];
    try discriminate H.
  pose proof (is_mmddyy_digits _ _ _ _ _ _ _ _ H)
    as (Ha & Hb & Hc & Hd & Hy & Hz & -> & ->).
  exists a, b, c, d, y, z. split; [reflexivity |].
  unfold parseDate. rewrite (shortDate_mmddyy _ _ _ _ _ _ H).
  unfold at_. cbn [nth].
  rewrite !parseInt_two_digits by assumption.
  reflexivity.
Qed.

(** Wherever the short form is found, the three groups are pairs of
    digits. *)
Lemma shortDate_groups s m :
  String_match Patterns.shortDate s = Some m ->
  exists a b c d y z,
    is_mmddyy [a; b; 47; c; d; 47; y; z]%N = true
    /\ m = [Some [a; b; 47; c; d; 47; y; z]%N;
            Some [a; b]; Some [c; d]; Some [y; z]].
Proof.
  unfold String_match. cbn [RegExp.global Patterns.shortDate RegExp.regex].
  unfold RegExp.exec. cbn [RegExp.ignoreCase RegExp.source].
  destruct (RegExp.search _ _ _ _ _) as [[st e] |] eqn:Hs; [| discriminate].
  intros Hm. cbn [option_map] in Hm. inversion Hm; subst m; clear Hm.
  apply search_run in Hs. destruct Hs as [H Hc].
  destruct st as [lst rs i cs]. cbn [RegExp.caps] in Hc. subst cs.
  cbn in H.
  next_char H a t1 Ea. next_char H b t2 Eb. next_char H s1 t3 E1.
  next_char H c t4 Ec. next_char H d t5 Ed. next_char H s2 t6 E2.
  next_char H y t7 Ey. next_char H z t8 Ez.
  rewrite class_digit in *.
  apply N.eqb_eq in E1, E2. subst s1 s2.
  inversion H; subst e; clear H.
  exists a, b, c, d, y, z. split.
  - unfold is_mmddyy. rewrite Ea, Eb, Ec, Ed, Ey, Ez. reflexivity.
  - unfold RegExp.match_array. cbn -[Nat.sub firstn].
    replace (S (S (S (S (S (S (S (S i))))))) - i)%nat with 8%nat by lia.
    replace (S (S i) - i)%nat with 2%nat by lia.
    replace (S (S (S (S (S i)))) - S (S (S i)))%nat with 2%nat by lia.
    replace (S (S (S (S (S (S (S (S i))))))) - S (S (S (S (S (S i))))))%nat
      with 2%nat by lia.
    reflexivity.
Qed.

(** ** Dates *)

Lemma new_Date_valid h y m d :
  exists tv, new_Date h (Some y) (Some m) (Some d) = Date.Valid tv.
Proof. eexists. reflexivity. Qed.

Lemma ceil_div_spec (a b : Z) :
  (0 < b)%Z ->
  ((Date.ceil_div a b - 1) * b < a <= Date.ceil_div a b * b)%Z.
Proof.
  intros Hb. unfold Date.ceil_div.
  pose proof (Z.div_mod (- a) b ltac:(lia)) as Hdm.
  pose proof (Z.mod_pos_bound (- a) b Hb) as Hmod.
  nia.
Qed.

Lemma ceil_div_nonneg (a b : Z) :
  (0 <= a)%Z -> (0 < b)%Z -> (0 <= Date.ceil_div a b)%Z.
Proof.
  intros Ha Hb. pose proof (ceil_div_spec a b Hb). nia.
Qed.

Lemma deriveDays_servicePeriod data :
  servicePeriod (deriveDays data)
  = let p := servicePeriod data in
    if Number.eqb (ServicePeriod.days p) Number.zero then
      match ServicePeriod.start p, ServicePeriod.end_ p with
      | Some a, Some b => ServicePeriod.set_days (days_between a b) p
      | _, _ => p
      end
    else p.
Proof.
  unfold deriveDays. cbn zeta.
  destruct (Number.eqb _ _); [| reflexivity].
  destruct (ServicePeriod.start _); [| reflexivity].
  destruct (ServicePeriod.end_ _); reflexivity.
Qed.

Lemma header_servicePeriod h text fileName m :
  String_match Patterns.daysKwh text = None ->
  String_match Patterns.kwhDays text = None ->
  String_match Patterns.servicePeriod text = Some m ->
  servicePeriod (header_value h text fileName)
  = {| ServicePeriod.start := parseDate h (at_ m 1);
       ServicePeriod.end_ := parseDate h (at_ m 2);
       ServicePeriod.days := Number.zero |}.
Proof.
  intros H1 H2 H3.
  unfold header_value, readDaysKwh, readServicePeriod, readStatementDate.
  rewrite H1, H2, H3.
  destruct (String_match Patterns.statementDate text); reflexivity.
Qed.

(** C7. On every text in which no count of days is matched and the
    service period is, both dates are parsed, and the days of the record
    are the ceiling of the absolute difference of the two dates in days,
    a non-negative integer.  From 2025-01-09 to 2025-02-07 that is 29,
    on a host whose offset from UTC is the same on both days. *)
Theorem days_derived_from_dates :
  (forall (h : Host) (text fileName : str) (m : list (option str)),
      String_match Patterns.daysKwh text = None ->
      String_match Patterns.kwhDays text = None ->
      String_match Patterns.servicePeriod text = Some m ->
      exists r ta tb n,
        extractBillData h text fileName = Normal r
        /\ parseDate h (at_ m 1) = Some (Date.Valid ta)
        /\ parseDate h (at_ m 2) = Some (Date.Valid tb)
        /\ ServicePeriod.start (servicePeriod r) = Some (Date.Valid ta)
        /\ ServicePeriod.end_ (servicePeriod r) = Some (Date.Valid tb)
        /\ ServicePeriod.days (servicePeriod r) = Number.of_Z n
        /\ (0 <= n)%Z
        /\ ((n - 1) * Date.msPerDay < Z.abs (tb - ta) <= n * Date.msPerDay)%Z)
  /\ (forall (h : Host) (fileName : str),
         LocalTZA h (Date.MakeDay 2025 0 9 * Date.msPerDay)
         = LocalTZA h (Date.MakeDay 2025 1 7 * Date.msPerDay) ->
         exists r,
           extractBillData h period_only fileName = Normal r
           /\ ServicePeriod.start (servicePeriod r)
              = Some (new_Date h (Some 2025%Z) (Some 0%Z) (Some 9%Z))
           /\ ServicePeriod.end_ (servicePeriod r)
              = Some (new_Date h (Some 2025%Z) (Some 1%Z) (Some 7%Z))
           /\ ServicePeriod.days (servicePeriod r) = Number.of_Z 29).
Proof.
  split.
  - intros h text fileName m H1 H2 H3.
    destruct (servicePeriod_groups _ _ H3) as (x & y & Hx & Hy & Sx & Sy).
    destruct (parseDate_mmddyy h x Sx) as (a & b & c & d & e & f & _ & Px).
    destruct (parseDate_mmddyy h y Sy) as (a' & b' & c' & d' & e' & f' & _ & Py).
    destruct (new_Date_valid h (expand_year (two_digits e f))
                (two_digits a b - 1) (two_digits c d)) as [ta Ha].
    destruct (new_Date_valid h (expand_year (two_digits e' f'))
                (two_digits a' b' - 1) (two_digits c' d')) as [tb Hb].
    rewrite Ha in Px. rewrite Hb in Py. rewrite <- Hx in Px. rewrite <- Hy in Py.
    exists (bill_value h text fileName), ta, tb,
      (Date.ceil_div (Z.abs (tb - ta)) Date.msPerDay).
    split; [apply extractBillData_normal |].
    split; [exact Px |]. split; [exact Py |].
    assert (Hp : servicePeriod (bill_value h text fileName)
                 = {| ServicePeriod.start := Some (Date.Valid ta);
                      ServicePeriod.end_ := Some (Date.Valid tb);
                      ServicePeriod.days :=
                        Number.of_Z
                          (Date.ceil_div (Z.abs (tb - ta)) Date.msPerDay) |}).
    { unfold bill_value. rewrite deriveDays_servicePeriod.
      rewrite servicePeriod_after_header.
      rewrite (header_servicePeriod h text fileName m H1 H2 H3).
      rewrite Px, Py. reflexivity. }
    rewrite Hp. cbn [ServicePeriod.start ServicePeriod.end_ ServicePeriod.days].
    split; [reflexivity |]. split; [reflexivity |]. split; [reflexivity |].
    split.
    + apply ceil_div_nonneg; [lia | reflexivity].
    + apply ceil_div_spec. reflexivity.
  - intros h fileName Htz.
    exists (bill_value h period_only fileName).
    split; [apply extractBillData_normal |].
    assert (Hp : servicePeriod (bill_value h period_only fileName)
                 = {| ServicePeriod.start :=
                        Some (new_Date h (Some 2025%Z) (Some 0%Z) (Some 9%Z));
                      ServicePeriod.end_ :=
                        Some (new_Date h (Some 2025%Z) (Some 1%Z) (Some 7%Z));
                      ServicePeriod.days := Number.of_Z 29 |}).
    { unfold bill_value. rewrite deriveDays_servicePeriod.
      rewrite servicePeriod_after_header.
      rewrite (header_servicePeriod h period_only fileName
                 [Some (js "01/09/25 - 02/07/25");
                  Some (js "01/09/25"); Some (js "02/07/25")])
        by (vm_compute; reflexivity).
      unfold at_. cbn [nth].
      destruct (parseDate_mmddyy h (js "01/09/25") eq_refl)
        as (a & b & c & d & e & f & Hx & Px).
      destruct (parseDate_mmddyy h (js "02/07/25") eq_refl)
        as (a' & b' & c' & d' & e' & f' & Hy & Py).
      inversion Hx; subst. inversion Hy; subst.
      rewrite Px, Py.
      change (expand_year (two_digits 50 53)) with 2025%Z.
      change (two_digits 48 49 - 1)%Z with 0%Z.
      change (two_digits 48 50 - 1)%Z with 1%Z.
      change (two_digits 48 57) with 9%Z.
      change (two_digits 48 55) with 7%Z.
      cbn zeta.
      cbn [ServicePeriod.start ServicePeriod.end_ ServicePeriod.days].
      change (Number.eqb Number.zero Number.zero) with true. cbn iota.
      unfold ServicePeriod.set_days.
      cbn [ServicePeriod.start ServicePeriod.end_ ServicePeriod.days].
      f_equal.
      unfold new_Date, days_between.
      change ((0 <=? 2025)%Z && (2025 <=? 99)%Z) with false. cbn iota.
      rewrite <- Htz.
      set (tz := LocalTZA h (Date.MakeDay 2025 0 9 * Date.msPerDay)).
      replace (Date.MakeDay 2025 1 7 * Date.msPerDay - tz
               - (Date.MakeDay 2025 0 9 * Date.msPerDay - tz))%Z
        with (29 * Date.msPerDay)%Z
        by (change (Date.MakeDay 2025 1 7) with 20126%Z;
            change (Date.MakeDay 2025 0 9) with 20097%Z;
            unfold Date.msPerDay; lia).
      reflexivity. }
    rewrite Hp. repeat split.
Qed.

Lemma days_derived_from_dates_witness :
  (exists r ta tb n,
      extractBillData utc_host period_only (js "bill.pdf") = Normal r
      /\ parseDate utc_host (Some (js "01/09/25")) = Some (Date.Valid ta)
      /\ parseDate utc_host (Some (js "02/07/25")) = Some (Date.Valid tb)
      /\ ServicePeriod.start (servicePeriod r) = Some (Date.Valid ta)
      /\ ServicePeriod.end_ (servicePeriod r) = Some (Date.Valid tb)
      /\ ServicePeriod.days (servicePeriod r) = Number.of_Z n
      /\ (0 <= n)%Z
      /\ ((n - 1) * Date.msPerDay < Z.abs (tb - ta) <= n * Date.msPerDay)%Z)
  /\ (exists r,
         extractBillData utc_host period_only (js "bill.pdf") = Normal r
         /\ ServicePeriod.start (servicePeriod r)
            = Some (new_Date utc_host (Some 2025%Z) (Some 0%Z) (Some 9%Z))
         /\ ServicePeriod.end_ (servicePeriod r)
            = Some (new_Date utc_host (Some 2025%Z) (Some 1%Z) (Some 7%Z))
         /\ ServicePeriod.days (servicePeriod r) = Number.of_Z 29).
Proof.
  split.
  - apply (proj1 days_derived_from_dates utc_host period_only (js "bill.pdf")
             [Some (js "01/09/25 - 02/07/25");
              Some (js "01/09/25"); Some (js "02/07/25")]);
      vm_compute; reflexivity.
  - apply (proj2 days_derived_from_dates utc_host (js "bill.pdf")).
    reflexivity.
Defined.

(** The condition on the host matters: from 2025-10-20 to 2025-11-10
    there are 21 days, and on New York time, which falls back by one
    hour in between, the derived count is 22. *)
Example autumn_period_days :
  (Date.MakeDay 2025 10 10 - Date.MakeDay 2025 9 20 = 21)%Z
  /\ exists r,
       extractBillData new_york_2025 autumn_period (js "bill.pdf") = Normal r
       /\ ServicePeriod.days (servicePeriod r) = Number.of_Z 22.
Proof.
  split; [reflexivity |].
  eexists. split; vm_compute; reflexivity.
Qed.

(** ** Numbers *)

Lemma span_digits (ds : str) :
  forallb is_digit ds = true -> span is_digit ds = (ds, []).
Proof.
  induction ds as [| c ds IH]; intros H; [reflexivity |].
  cbn [forallb] in H. apply andb_prop in H. destruct H as [Hc Hds].
  cbn [span]. rewrite Hc, (IH Hds). reflexivity.
Qed.

Lemma digit_not_comma (c : N) : is_digit c = true -> (c =? 44)%N = false.
Proof.
  unfold is_digit, in_range. intros H.
  apply andb_prop in H. destruct H as [H1 H2].
  apply N.leb_le in H1. apply N.eqb_neq. lia.
Qed.

Lemma remove_commas_digits (ds : str) :
  forallb is_digit ds = true -> remove_commas ds = ds.
Proof.
  induction ds as [| c ds IH]; intros H; [reflexivity |].
  cbn [forallb] in H. apply andb_prop in H. destruct H as [Hc Hds].
  unfold remove_commas in *. cbn [filter].
  rewrite (digit_not_comma c Hc). cbn [negb]. rewrite (IH Hds). reflexivity.
Qed.

Lemma parseFloat_fraction (ds : str) :
  forallb is_digit ds = true ->
  parseFloat (js "0." ++ ds)
  = Number.of_decimal false (digits_value ds)
      (- Z.of_nat (List.length ds)).
Proof.
  intros H. unfold parseFloat.
  change (js "0." ++ ds) with (48 :: 46 :: ds)%N.
  change (skip_space (48 :: 46 :: ds)%N) with (48 :: 46 :: ds)%N.
  change (take_sign (48 :: 46 :: ds)%N) with (false, (48 :: 46 :: ds)%N).
  cbn iota.
  change (strip_prefix (js "Infinity") (48 :: 46 :: ds)%N) with (@None str).
  cbn iota.
  change (span is_digit (48 :: 46 :: ds)%N) with ([48%N], (46 :: ds)%N).
  cbn iota. rewrite (span_digits ds H). cbn iota.
  change ([48%N] ++ ds) with (48%N :: ds).
  cbn iota.
  change (digits_value (48%N :: ds)) with (digits_value ds).
  change (exponent_part []) with 0%Z.
  reflexivity.
Qed.

(** C5. On a run of digits [reconstructRate] is [parseNumber] of "0."
    followed by the digits, the number whose fractional digits they
    are; it is [0] on the empty string and on [null].  "07894" gives
    0.07894.  [parseNumber] removes the commas and parses a decimal; it
    gives [0] on [null] and when nothing can be parsed. *)
Theorem reconstructRate_is_parseNumber :
  (forall ds : str,
      forallb is_digit ds = true ->
      reconstructRate (Some ds) = parseNumber (Some (js "0." ++ ds))
      /\ reconstructRate (Some ds)
         = Number.or_zero
             (Number.of_decimal false (digits_value ds)
                (- Z.of_nat (List.length ds))))
  /\ reconstructRate (Some (js "07894")) = parseFloat (js "0.07894")
  /\ reconstructRate (Some (js "07894"))
     = Number.div (Number.of_Z 7894) (Number.of_Z 100000)
  /\ reconstructRate (Some []) = Number.zero
  /\ reconstructRate None = Number.zero
  /\ parseNumber None = Number.zero
  /\ (forall s : str,
         parseNumber (Some s)
         = match s with
           | [] => Number.zero
           | _ :: _ => Number.or_zero (parseFloat (remove_commas s))
           end)
  /\ (forall s : str,
         parseFloat (remove_commas s) = Number.NaN ->
         parseNumber (Some s) = Number.zero)
  /\ parseNumber (Some (js "1,234.56")) = parseFloat (js "1234.56")
  /\ parseNumber (Some (js "n/a")) = Number.zero.
Proof.
  split.
  { intros ds H.
    assert (Hr : reconstructRate (Some ds)
                 = Number.or_zero
                     (Number.of_decimal false (digits_value ds)
                        (- Z.of_nat (List.length ds)))).
    { unfold reconstructRate. destruct ds as [| c ds]; [reflexivity |].
      rewrite (parseFloat_fraction (c :: ds) H). reflexivity. }
    split; [| exact Hr].
    rewrite Hr. unfold parseNumber.
    change (js "0." ++ ds) with (48 :: 46 :: ds)%N. cbn iota.
    change (remove_commas (48 :: 46 :: ds)%N)
      with (48 :: 46 :: remove_commas ds)%N.
    rewrite (remove_commas_digits ds H).
    change (48 :: 46 :: ds)%N with (js "0." ++ ds).
    rewrite (parseFloat_fraction ds H). reflexivity. }
  do 5 (split; [vm_compute; reflexivity |]).
  split.
  { intros s. destruct s; reflexivity. }
  split.
  { intros s Hnan. unfold parseNumber.
    destruct s; [reflexivity |]. rewrite Hnan. reflexivity. }
  split; vm_compute; reflexivity.
Qed.

Lemma reconstructRate_is_parseNumber_witness :
  reconstructRate (Some (js "08395531"))
  = parseNumber (Some (js "0.08395531"))
  /\ parseNumber (Some (js ",")) = Number.zero.
Proof.
  split.
  - apply (proj1 reconstructRate_is_parseNumber (js "08395531")).
    reflexivity.
  - apply (proj1 (proj2 (proj2 (proj2 (proj2 (proj2 (proj2 (proj2
             reconstructRate_is_parseNumber))))))) (js ",")).
    reflexivity.
Defined.

(** The digits are needed: [parseNumber] removes a comma before it
    parses, [reconstructRate] stops at it. *)
Example reconstructRate_comma :
  reconstructRate (Some (js "1,5")) = parseFloat (js "0.1")
  /\ parseNumber (Some (js "0.1,5")) = parseFloat (js "0.15").
Proof. split; reflexivity. Qed.

(** ** The record and its readers *)

(** C8 fails on the code.  The record of [extractBillData] has no
    property [miscellaneousCharges] on any text: reading it gives
    [undefined], not [0], and the CSV export, which formats it with
    [toFixed], throws a TypeError. *)
Theorem miscellaneousCharges_missing :
  (forall (h : Host) (text fileName : str),
      exists r,
        extractBillData h text fileName = Normal r
        /\ get_property r "miscellaneousCharges" = None
        /\ csv_miscellaneousCharges r = Throw TypeError)
  /\ (forall h : Host,
         bind (extractBillData h [] (js "bill.pdf")) csv_miscellaneousCharges
         = Throw TypeError).
Proof.
  split.
  - intros h text fileName. exists (bill_value h text fileName).
    split; [apply extractBillData_normal |]. split; reflexivity.
  - intros h. reflexivity.
Qed.

Lemma pick_name_find (ms : list (list (option str))) :
  Forall (fun m => at_ m 0 <> None) ms ->
  pick_name (map (fun m => nth 0 m None) ms)
  = Normal (find kept (map (fun m => to_String (at_ m 0)) ms)).
Proof.
  induction 1 as [| m ms Hm _ IH]; [reflexivity |].
  cbn [map pick_name find]. unfold at_ in *.
  destruct (nth 0 m None) as [x |]; [| contradiction].
  cbn [to_String]. unfold kept at 1.
  destruct (negb _ && _); [reflexivity | exact IH].
Qed.

Lemma all_from_whole ic r fuel lst s i :
  Forall (fun m => at_ m 0 <> None) (RegExp.all_from ic r fuel lst s i).
Proof.
  revert lst s i. induction fuel as [| fuel IH]; intros lst s i.
  - constructor.
  - cbn [RegExp.all_from].
    destruct (RegExp.search ic r lst s i) as [[st e] |]; [| constructor].
    constructor.
    + cbn. discriminate.
    + destruct (RegExp.idx st <? RegExp.idx e)%nat; [apply IH |].
      destruct (RegExp.rest e); [constructor | apply IH].
Qed.

(** What the code does on every text: the name is the first of the
    successive, non-overlapping matches of the name pattern that passes
    the test, and it is empty when none does. *)
Lemma customerName_first_kept (text : str) (info : AccountInfo) :
  extractAccountInfo text = Normal info ->
  customerName info
  = match find kept (name_matches text) with
    | Some m => m
    | None => []
    end.
Proof.
  unfold extractAccountInfo, name_matches.
  match goal with
  | |- bind ?c _ = _ -> _ => destruct c as [number |]
  end; cbn [bind]; [| discriminate].
  change (String_match Patterns.name text)
    with (match RegExp.all_matches Patterns.name text with
          | [] => None
          | ms => Some (map (fun m => nth 0 m None) ms)
          end).
  assert (Hall : Forall (fun m => at_ m 0 <> None)
                   (RegExp.all_matches Patterns.name text))
    by apply all_from_whole.
  destruct (RegExp.all_matches Patterns.name text) as [| m ms] eqn:E.
  - cbn [bind map find]. intros H. inversion H. reflexivity.
  - rewrite (pick_name_find (m :: ms) Hall). cbn [bind].
    intros H. inversion H. reflexivity.
Qed.

(** C9 fails on the code.  In "NYSEG JOHN SMITH" the pair JOHN SMITH is
    made of two consecutive all-caps tokens outside the exclusion
    vocabulary, and it is the name found when the text is "JOHN SMITH";
    but the global match yields the pairs without overlap, NYSEG JOHN
    comes first and takes JOHN with it, and the name stays empty. *)
Theorem customerName_overlapping_pair :
  String_match Patterns.name (js "NYSEG JOHN SMITH")
  = Some [Some (js "NYSEG JOHN")]
  /\ isExcluded [js "JOHN"; js "SMITH"] = false
  /\ extractAccountInfo (js "JOHN SMITH")
     = Normal {| accountNumber := []; customerName := js "JOHN SMITH";
                 serviceAddress := [] |}
  /\ extractAccountInfo (js "NYSEG JOHN SMITH")
     = Normal {| accountNumber := []; customerName := [];
                 serviceAddress := [] |}.
Proof. repeat split; vm_compute; reflexivity. Qed.

(** ** The model against known values *)

(** The doubles the parser builds are the nearest ones: the mantissa has
    53 bits and the distance to the decimal is at most half a unit in
    the last place. *)
Example parseFloat_nearest :
  parseFloat (js "0.07894") = S754_finite false 5688226473354031 (-56)
  /\ (2 ^ 52 <= 5688226473354031 < 2 ^ 53)%Z
  /\ (2 * Z.abs (5688226473354031 * 100000 - 7894 * 2 ^ 56) <= 100000)%Z
  /\ parseFloat (js "0.07") = S754_finite false 5044031582654956 (-56)
  /\ (2 ^ 52 <= 5044031582654956 < 2 ^ 53)%Z
  /\ (2 * Z.abs (5044031582654956 * 100 - 7 * 2 ^ 56) <= 100)%Z.
Proof. repeat split; vm_compute; congruence. Qed.

(** The end-to-end scenario of the specification; the statement date is
    what the parser of the host makes of "February 11, 2025". *)
Example end_to_end_scenario (h : Host) :
  exists r,
    extractBillData h scenario (js "bill.pdf") = Normal r
    /\ statementDate r = Some (Date_parse h (js "February 11, 2025"))
    /\ ServicePeriod.days (servicePeriod r) = Number.of_Z 30
    /\ Electricity.usage (electricity r) = Number.of_Z 3990
    /\ Electricity.basicServiceCharge (electricity r) = Number.of_Z 19
    /\ Electricity.deliveryRate (electricity r) = parseFloat (js "0.07894")
    /\ Electricity.deliveryCharge (electricity r) = parseFloat (js "314.97").
Proof.
  exists (bill_value h scenario (js "bill.pdf")).
  split; [apply extractBillData_normal |].
  repeat split; vm_compute; reflexivity.
Qed.

(** * Further properties of the code *)

(** ** Where a match is in the text *)













(** ** The account record *)

Lemma digit_not_space c : is_digit c = true -> is_space c = false.
Proof.
  intros H. apply digit_cases in H. cbn [In] in H.
  repeat match goal with
         | H : _ \/ _ |- _ => destruct H as [H | H]
         | H : False |- _ => destruct H
         end; subst; reflexivity.
Qed.

Lemma account_groups text m :
  String_match Patterns.account text = Some m ->
  exists x, is_account x = true /\ m = [Some x; Some x].
Proof.
  unfold String_match. cbn [RegExp.global Patterns.account RegExp.regex].
  unfold RegExp.exec. cbn [RegExp.ignoreCase RegExp.source].
  destruct (RegExp.search _ _ _ _ _) as [[st e] |] eqn:Hs; [| discriminate].
  intros Hm. cbn [option_map] in Hm. inversion Hm; subst m; clear Hm.
  apply search_run in Hs. destruct Hs as [H Hc].
  destruct st as [lst rs i cs]. cbn [RegExp.caps] in Hc. subst cs.
  cbn in H.
  next_char H a t1 Ea. next_char H b t2 Eb. next_char H c t3 Ec.
  next_char H d t4 Ed. next_char H s1 t5 E1.
  next_char H e1 t6 Ee. next_char H f t7 Ef. next_char H g t8 Eg.
  next_char H h t9 Eh. next_char H s2 t10 E2.
  next_char H i1 t11 Ei. next_char H j t12 Ej. next_char H k t13 Ek.
  rewrite class_digit in *.
  apply N.eqb_eq in E1, E2. subst s1 s2.
  inversion H; subst e; clear H.
  exists [a; b; c; d; 45; e1; f; g; h; 45; i1; j; k]%N. split.
  - unfold is_account. cbn [forallb].
    rewrite Ea, Eb, Ec, Ed, Ee, Ef, Eg, Eh, Ei, Ej, Ek. reflexivity.
  - unfold RegExp.match_array. cbn -[Nat.sub firstn].
    replace (S (S (S (S (S (S (S (S (S (S (S (S (S i)))))))))))) - i)%nat
      with 13%nat by lia.
    reflexivity.
Qed.

Lemma trim_account x : is_account x = true -> trim x = x.
Proof.
  intros H.
  destruct x as [| a [| b [| c [| d [| s1 [| e [| f [| g [| h [| s2 [| i
                [| j [| k [| ? ?]]]]]]]]]]]]]]; try discriminate H.
  unfold is_account in H. cbn [forallb] in H.
  apply andb_prop in H. destruct H as [H _].
  apply andb_prop in H. destruct H as [H _].
  apply andb_prop in H. destruct H as [Ha H].
  repeat (apply andb_prop in H; destruct H as [? H]).
  unfold trim. cbn [skip_space]. rewrite (digit_not_space a Ha).
  cbn [rev app skip_space].
  match goal with
  | E : is_digit k = true |- _ => rewrite (digit_not_space k E)
  end.
  reflexivity.
Qed.

Lemma extractAccountInfo_returns text :
  extractAccountInfo text
  = Normal {| accountNumber := accountNumber_of text;
              customerName := customerName_of text;
              serviceAddress := serviceAddress_of text |}.
Proof.
  unfold extractAccountInfo, accountNumber_of, customerName_of,
    serviceAddress_of, name_matches.
  destruct (String_match Patterns.account text) as [m |] eqn:Ha.
  - destruct (account_groups text m Ha) as (x & _ & ->).
    unfold at_. cbn [nth to_String bind].
    change (String_match Patterns.name text)
      with (match RegExp.all_matches Patterns.name text with
            | [] => None
            | ms => Some (map (fun m => nth 0 m None) ms)
            end).
    assert (Hall : Forall (fun m => at_ m 0 <> None)
                     (RegExp.all_matches Patterns.name text))
      by apply all_from_whole.
    destruct (RegExp.all_matches Patterns.name text) as [| n ns].
    + reflexivity.
    + rewrite (pick_name_find (n :: ns) Hall). reflexivity.
  - cbn [bind].
    change (String_match Patterns.name text)
      with (match RegExp.all_matches Patterns.name text with
            | [] => None
            | ms => Some (map (fun m => nth 0 m None) ms)
            end).
    assert (Hall : Forall (fun m => at_ m 0 <> None)
                     (RegExp.all_matches Patterns.name text))
      by apply all_from_whole.
    destruct (RegExp.all_matches Patterns.name text) as [| n ns].
    + reflexivity.
    + rewrite (pick_name_find (n :: ns) Hall). reflexivity.
Qed.

(** X1.  [extractAccountInfo] throws on no text: group 1 of the account
    pattern always takes part in a match, so that [trim] has a string.
    The account number it returns is empty or of the form
    NNNN-NNNN-NNN, and it is empty exactly when the text has no such
    number. *)
Theorem extractAccountInfo_account (text : str) :
  exists info,
    extractAccountInfo text = Normal info
    /\ (accountNumber info = [] \/ is_account (accountNumber info) = true)
    /\ (accountNumber info = []
        <-> String_match Patterns.account text = None).
Proof.
  exists (account_of text).
  split; [apply extractAccountInfo_returns |].
  unfold account_of. cbn [accountNumber]. unfold accountNumber_of.
  destruct (String_match Patterns.account text) as [m |] eqn:Hm.
  - destruct (account_groups text m Hm) as (x & Hx & ->).
    unfold at_. cbn [nth to_String]. rewrite (trim_account x Hx).
    split; [right; exact Hx |].
    split; [intros E; subst x; discriminate Hx | discriminate].
  - split; [left; reflexivity |]. split; reflexivity.
Qed.

(** X2.  The customer name is the first of the successive matches of
    the name pattern that passes the test of line 98, on every text; a
    name that is not empty is one of these matches and passes the
    test, and the name is empty exactly when no match passes it. *)
Theorem customerName_choice (text : str) :
  exists info,
    extractAccountInfo text = Normal info
    /\ customerName info
       = match find kept (name_matches text) with
         | Some m => m
         | None => []
         end
    /\ (customerName info <> [] ->
        In (customerName info) (name_matches text)
        /\ kept (customerName info) = true)
    /\ (forallb (fun m => negb (kept m)) (name_matches text) = true ->
        customerName info = []).
Proof.
  exists (account_of text).
  split; [apply extractAccountInfo_returns |].
  unfold account_of. cbn [customerName]. unfold customerName_of.
  split; [reflexivity |].
  destruct (find kept (name_matches text)) as [m |] eqn:Hf.
  - apply find_some in Hf. split; [intros _; exact Hf |].
    intros Hall. rewrite forallb_forall in Hall.
    destruct Hf as [Hin Hk]. specialize (Hall m Hin).
    rewrite Hk in Hall. discriminate.
  - split; [intros H; exfalso; apply H; reflexivity | reflexivity].
Qed.

(** ** The fields of the bill record *)

Lemma read_amount_get {A} (g : BillRecord -> A) (inj : Number.t -> A)
  re set text data :
  (forall v d, g (set v d) = inj v) ->
  g (read_amount re set text data)
  = match String_match re text with
    | Some m => inj (parseNumber (at_ m 1))
    | None => g data
    end.
Proof.
  intros H. unfold read_amount.
  destruct (String_match re text); [apply H | reflexivity].
Qed.

Ltac pass g :=
  repeat (etransitivity;
          [ solve [ first
              [ apply (read_amount_keeps g); unseen_solve
              | apply (from_line_keeps g); unseen_solve
              | apply (two_tier_keeps g); unseen_solve
              | apply (gasSupply_keeps g); unseen_solve
              | apply (deriveDays_keeps g); reflexivity ] ]
          | cbv beta ]).

Ltac unfold_bill :=
  unfold bill_value, readTotals, gas_value, gas_tail, gas_head,
    electricity_value, electricity_tail.

Ltac amount_field g :=
  unfold_bill; pass g;
  etransitivity;
  [ apply (read_amount_get g (fun v => v)); intros; reflexivity |];
  unfold amount;
  match goal with
  | |- match ?x with _ => _ end = _ => destruct x; [reflexivity |]
  end;
  pass g; rewrite (header_keeps g) by reflexivity; reflexivity.

(** X3.  Fourteen fields of the record are each the amount after the
    first match of one pattern, 0 without a match, whatever else the
    text holds; the file name is the argument. *)
Theorem labelled_amounts (h : Host) (text name : str) :
  exists r,
    extractBillData h text name = Normal r
    /\ fileName r = name
    /\ Electricity.basicServiceCharge (electricity r)
       = amount Patterns.elecBasic text
    /\ Electricity.totalDelivery (electricity r)
       = amount Patterns.elecDeliveryTotal text
    /\ Electricity.totalSupply (electricity r)
       = amount Patterns.elecSupplyTotal text
    /\ Electricity.totalTaxes (electricity r) = amount Patterns.elecTax text
    /\ Electricity.totalCost (electricity r) = amount Patterns.elecTotal text
    /\ Gas.usageCcf (gas r) = amount Patterns.gasCcf text
    /\ Gas.usageTherms (gas r) = amount Patterns.gasTherm text
    /\ Gas.basicServiceCharge (gas r) = amount Patterns.gasBasic text
    /\ Gas.totalDelivery (gas r) = amount Patterns.gasDeliveryTotal text
    /\ Gas.totalSupply (gas r) = amount Patterns.gasSupplyTotal text
    /\ Gas.totalTaxes (gas r) = amount Patterns.gasTax text
    /\ Gas.totalCost (gas r) = amount Patterns.gasTotal text
    /\ totalEnergyCharges r = amount Patterns.totalEnergy text
    /\ amountDue r = amount Patterns.amountDue text.
Proof.
  exists (bill_value h text name).
  split; [apply extractBillData_normal |].
  split.
  { unfold_bill. pass fileName.
    rewrite (header_keeps fileName) by reflexivity. reflexivity. }
  split.
  { amount_field (fun r => Electricity.basicServiceCharge (electricity r)). }
  split.
  { amount_field (fun r => Electricity.totalDelivery (electricity r)). }
  split.
  { amount_field (fun r => Electricity.totalSupply (electricity r)). }
  split.
  { amount_field (fun r => Electricity.totalTaxes (electricity r)). }
  split.
  { amount_field (fun r => Electricity.totalCost (electricity r)). }
  split.
  { amount_field (fun r => Gas.usageCcf (gas r)). }
  split.
  { amount_field (fun r => Gas.usageTherms (gas r)). }
  split.
  { amount_field (fun r => Gas.basicServiceCharge (gas r)). }
  split.
  { amount_field (fun r => Gas.totalDelivery (gas r)). }
  split.
  { amount_field (fun r => Gas.totalSupply (gas r)). }
  split.
  { amount_field (fun r => Gas.totalTaxes (gas r)). }
  split.
  { amount_field (fun r => Gas.totalCost (gas r)). }
  split.
  { amount_field totalEnergyCharges. }
  amount_field amountDue.
Qed.

Lemma two_tier_final quantity simple monthly f text data :
  lawful f ->
  pair_of f data = (Number.zero, Number.zero) ->
  pair_of f (two_tier_value quantity simple monthly f text data)
  = two_tier_result quantity simple monthly text.
Proof.
  intros Hf H0. rewrite two_tier_pair by exact Hf.
  rewrite from_line_pair by exact Hf. rewrite H0. reflexivity.
Qed.

Ltac initial_pair f :=
  pass (pair_of f); rewrite (header_keeps (pair_of f)) by reflexivity;
  reflexivity.

(** X4.  The rate and the charge of electricity delivery, transition
    and SBC and of gas delivery, on every text: the single line when it
    is found with a rate other than 0; otherwise the reconciled
    per-month lines when there are any; otherwise the single line, or
    0 and 0. *)
Theorem two_tier_charges (h : Host) (text name : str) :
  exists r,
    extractBillData h text name = Normal r
    /\ (forall k : elec_charge,
           (rate_of (field k) r, charge_of (field k) r)
           = two_tier_result parseInt (simple_re k) (monthly_re k) text)
    /\ (Gas.deliveryRate (gas r), Gas.deliveryCharge (gas r))
       = two_tier_result parseNumber Patterns.gasDeliverySimple
           Patterns.gasDeliveryMonth text.
Proof.
  exists (bill_value h text name).
  split; [apply extractBillData_normal |]. split.
  - intros k.
    change (pair_of (field k) (bill_value h text name)
            = two_tier_result parseInt (simple_re k) (monthly_re k) text).
    destruct k; cbn [field simple_re monthly_re]; unfold_bill.
    + pass (pair_of elec_delivery).
      apply two_tier_final; [repeat intro; reflexivity |].
      initial_pair elec_delivery.
    + pass (pair_of elec_transition).
      apply two_tier_final; [repeat intro; reflexivity |].
      initial_pair elec_transition.
    + pass (pair_of elec_sbc).
      apply two_tier_final; [repeat intro; reflexivity |].
      initial_pair elec_sbc.
  - change (pair_of gas_delivery (bill_value h text name)
            = two_tier_result parseNumber Patterns.gasDeliverySimple
                Patterns.gasDeliveryMonth text).
    unfold_bill. pass (pair_of gas_delivery).
    apply two_tier_final; [repeat intro; reflexivity |].
    initial_pair gas_delivery.
Qed.

Lemma header_fields h text name :
  statementDate (header_value h text name)
  = match String_match Patterns.statementDate text with
    | Some m => parseDate h (at_ m 1)
    | None => None
    end
  /\ servicePeriod (header_value h text name)
     = {| ServicePeriod.start := period_date h text 1;
          ServicePeriod.end_ := period_date h text 2;
          ServicePeriod.days := explicit_days text |}
  /\ Electricity.usage (electricity (header_value h text name))
     = explicit_usage text.
Proof.
  unfold header_value, readDaysKwh, readServicePeriod, readStatementDate,
    period_date, explicit_days, explicit_usage.
  destruct (String_match Patterns.statementDate text);
    destruct (String_match Patterns.servicePeriod text);
    destruct (String_match Patterns.daysKwh text);
    destruct (String_match Patterns.kwhDays text);
    repeat split.
Qed.

Lemma bill_servicePeriod h text name :
  servicePeriod (bill_value h text name)
  = if Number.eqb (explicit_days text) Number.zero then
      match period_date h text 1, period_date h text 2 with
      | Some a, Some b =>
          {| ServicePeriod.start := Some a; ServicePeriod.end_ := Some b;
             ServicePeriod.days := days_between a b |}
      | _, _ =>
          {| ServicePeriod.start := period_date h text 1;
             ServicePeriod.end_ := period_date h text 2;
             ServicePeriod.days := explicit_days text |}
      end
    else
      {| ServicePeriod.start := period_date h text 1;
         ServicePeriod.end_ := period_date h text 2;
         ServicePeriod.days := explicit_days text |}.
Proof.
  destruct (header_fields h text name) as (_ & Hp & _).
  unfold bill_value. rewrite deriveDays_servicePeriod.
  rewrite servicePeriod_after_header. cbn zeta. rewrite Hp.
  cbn [ServicePeriod.start ServicePeriod.end_ ServicePeriod.days].
  destruct (Number.eqb _ _); [| reflexivity].
  destruct (period_date h text 1); [| reflexivity].
  destruct (period_date h text 2); reflexivity.
Qed.

(** X5.  The head of the record on every text: the statement date and
    the two dates of the service period are what [parseDate] makes of
    the groups; of the two orders of days and usage, [N days N kwh] is
    read first and the other only without it; a stated day count other
    than 0 is kept, and a count of 0 or none is replaced by the
    distance of the two dates when both are there. *)
Theorem header_and_days (h : Host) (text name : str) :
  exists r,
    extractBillData h text name = Normal r
    /\ statementDate r
       = match String_match Patterns.statementDate text with
         | Some m => parseDate h (at_ m 1)
         | None => None
         end
    /\ ServicePeriod.start (servicePeriod r) = period_date h text 1
    /\ ServicePeriod.end_ (servicePeriod r) = period_date h text 2
    /\ Electricity.usage (electricity r) = explicit_usage text
    /\ ServicePeriod.days (servicePeriod r)
       = (if Number.eqb (explicit_days text) Number.zero then
            match period_date h text 1, period_date h text 2 with
            | Some a, Some b => days_between a b
            | _, _ => explicit_days text
            end
          else explicit_days text).
Proof.
  exists (bill_value h text name).
  split; [apply extractBillData_normal |].
  destruct (header_fields h text name) as (Hs & _ & Hu).
  split.
  { rewrite <- Hs. unfold_bill. pass statementDate. reflexivity. }
  rewrite bill_servicePeriod.
  split.
  { destruct (Number.eqb _ _); [| reflexivity].
    destruct (period_date h text 1); [| reflexivity].
    destruct (period_date h text 2); reflexivity. }
  split.
  { destruct (Number.eqb _ _); [| reflexivity].
    destruct (period_date h text 1); [| reflexivity].
    destruct (period_date h text 2); reflexivity. }
  split.
  { rewrite <- Hu. unfold_bill.
    pass (fun r => Electricity.usage (electricity r)). reflexivity. }
  destruct (Number.eqb _ _); [| reflexivity].
  destruct (period_date h text 1); [| reflexivity].
  destruct (period_date h text 2); reflexivity.
Qed.




Example gas_only_bill_record (h : Host) :
  exists r,
    extractBillData h gas_only_bill (js "gas.pdf") = Normal r
    /\ Gas.basicServiceCharge (gas r) = parseFloat (js "20.30")
    /\ Electricity.basicServiceCharge (electricity r)
       = parseFloat (js "20.30").
Proof.
  eexists. split; [apply extractBillData_normal |].
  split; vm_compute; reflexivity.
Qed.

(** ** The service period in the export *)

Section CivilDates.
Import ISO.
Local Open Scope Z_scope.

Lemma InLeapYear_cases y :
  (Date.InLeapYear y = true
   /\ ((y mod 4 = 0 /\ y mod 100 <> 0) \/ y mod 400 = 0))
  \/ (Date.InLeapYear y = false
      /\ (y mod 4 <> 0 \/ y mod 100 = 0) /\ y mod 400 <> 0).
Proof.
  unfold Date.InLeapYear.
  destruct (Z.eqb_spec (y mod 4) 0), (Z.eqb_spec (y mod 100) 0),
    (Z.eqb_spec (y mod 400) 0); cbn; tauto.
Qed.

Lemma DayFromYear_step y :
  Date.DayFromYear (y + 1)
  = Date.DayFromYear y + 365 + (if Date.InLeapYear y then 1 else 0).
Proof.
  destruct (InLeapYear_cases y) as [[-> H] | [-> H]];
    unfold Date.DayFromYear; Z.div_mod_to_equations; lia.
Qed.

Lemma DayFromYear_mono y y' :
  y < y' -> Date.DayFromYear y + 365 <= Date.DayFromYear y'.
Proof.
  intros H. unfold Date.DayFromYear. Z.div_mod_to_equations. lia.
Qed.

Lemma year_down_spec day : forall fuel y lo,
  lo <= y -> y - lo < Z.of_nat fuel ->
  Date.DayFromYear lo <= day -> day < Date.DayFromYear (y + 1) ->
  let r := year_down fuel y day in
  Date.DayFromYear r <= day < Date.DayFromYear (r + 1).
Proof.
  induction fuel as [| fuel IH]; intros y lo Hlo Hf Hd Hu; cbn zeta.
  - lia.
  - cbn [year_down]. destruct (Z.leb_spec (Date.DayFromYear y) day) as [H | H].
    + split; assumption.
    + assert (lo <> y) by (intros ->; lia).
      apply (IH (y - 1) lo); try lia.
      replace (y - 1 + 1) with y by lia. exact H.
Qed.

(** The search gives the year of the ECMAScript definition: the
    largest one that starts on or before the day. *)
Lemma YearFromDay_largest day :
  Date.DayFromYear (YearFromDay day) <= day
  < Date.DayFromYear (YearFromDay day + 1).
Proof.
  unfold YearFromDay. cbn zeta.
  apply (year_down_spec day _ _ (1970 + Z.min (day / 365) (day / 366))).
  - Z.div_mod_to_equations. lia.
  - Z.div_mod_to_equations. lia.
  - unfold Date.DayFromYear. Z.div_mod_to_equations. lia.
  - unfold Date.DayFromYear. Z.div_mod_to_equations. lia.
Qed.

Lemma YearFromDay_unique day y :
  Date.DayFromYear y <= day < Date.DayFromYear (y + 1) ->
  YearFromDay day = y.
Proof.
  intros H. pose proof (YearFromDay_largest day) as L.
  destruct (Z.lt_trichotomy (YearFromDay day) y) as [Hlt | [E | Hgt]];
    [| exact E |].
  - pose proof (DayFromYear_mono (YearFromDay day) y Hlt).
    assert (YearFromDay day + 1 <= y) by lia.
    destruct (Z.eq_dec (YearFromDay day + 1) y) as [E | N].
    + rewrite E in L. lia.
    + pose proof (DayFromYear_mono (YearFromDay day + 1) y). lia.
  - destruct (Z.eq_dec (y + 1) (YearFromDay day)) as [E | N].
    + rewrite <- E in L. lia.
    + pose proof (DayFromYear_mono (y + 1) (YearFromDay day)). lia.
Qed.

(** Year, month and date of the day that [MakeDay] gives to a date of
    the calendar are those of the date. *)
Lemma civil_round_trip y m dd :
  0 <= m <= 11 ->
  1 <= dd <= DaysInMonth (Date.InLeapYear y) m ->
  let day := Date.MakeDay y m dd in
  YearFromDay day = y /\ MonthFromDay day = m /\ DateFromDay day = dd.
Proof.
  intros Hm Hd. cbn zeta.
  assert (Hday : Date.MakeDay y m dd
                 = Date.DayFromYear y
                   + Date.DayWithinYear (Date.InLeapYear y) m + dd - 1).
  { unfold Date.MakeDay. cbn zeta.
    rewrite (Z.div_small m 12), (Z.mod_small m 12) by lia.
    rewrite Z.add_0_r. reflexivity. }
  assert (Hy : YearFromDay (Date.MakeDay y m dd) = y).
  { apply YearFromDay_unique. rewrite Hday, DayFromYear_step.
    assert (m = 0 \/ m = 1 \/ m = 2 \/ m = 3 \/ m = 4 \/ m = 5 \/ m = 6
            \/ m = 7 \/ m = 8 \/ m = 9 \/ m = 10 \/ m = 11) as Hc by lia.
    destruct (Date.InLeapYear y);
      repeat (destruct Hc as [-> | Hc]); try subst m; cbn in Hd |- *; lia. }
  split; [exact Hy |].
  assert (Hmo : MonthFromDay (Date.MakeDay y m dd) = m).
  { unfold MonthFromDay. cbn zeta. rewrite Hy, Hday.
    assert (m = 0 \/ m = 1 \/ m = 2 \/ m = 3 \/ m = 4 \/ m = 5 \/ m = 6
            \/ m = 7 \/ m = 8 \/ m = 9 \/ m = 10 \/ m = 11) as Hc by lia.
    destruct (Date.InLeapYear y);
      repeat (destruct Hc as [-> | Hc]); try subst m; cbn in Hd;
      cbn [Date.DayWithinYear];
      repeat match goal with
             | |- context [?a <? ?b] => destruct (Z.ltb_spec a b); try lia
             end. }
  split; [exact Hmo |].
  unfold DateFromDay. cbn zeta. rewrite Hmo, Hy, Hday. lia.
Qed.

Lemma Day_of_local day offset :
  0 <= offset < Date.msPerDay ->
  Day (day * Date.msPerDay + offset) = day.
Proof.
  intros H. unfold Day. symmetry.
  apply (Z.div_unique _ _ day offset); [left; exact H |].
  unfold Date.msPerDay. lia.
Qed.

Lemma pad_chars w : forall n c, In c (pad w n) -> is_digit c = true.
Proof.
  induction w as [| w IH]; intros n c H; [destruct H |].
  cbn [pad] in H. apply in_app_or in H. destruct H as [H | [<- | []]].
  - apply (IH _ _ H).
  - pose proof (Z.mod_pos_bound n 10 ltac:(lia)).
    unfold is_digit, in_range. apply andb_true_intro. split; apply N.leb_le; lia.
Qed.

Lemma year_string_chars y c : In c (year_string y) -> c <> 84%N.
Proof.
  unfold year_string. intros H E. subst c.
  destruct ((0 <=? y) && (y <=? 9999)).
  - apply pad_chars in H. discriminate.
  - apply in_app_or in H. destruct H as [H | H].
    + destruct (y <? 0); destruct H as [H | []]; discriminate.
    + apply pad_chars in H. discriminate.
Qed.

Lemma before_T_app a b :
  (forall c, In c a -> c <> 84%N) -> before_T (a ++ 84%N :: b) = a.
Proof.
  induction a as [| x a IH]; intros H; [reflexivity |].
  cbn [app before_T]. destruct (N.eqb_spec x 84) as [E | _].
  - exfalso. apply (H x); [left; reflexivity | exact E].
  - f_equal. apply IH. intros c Hc. apply H. right. exact Hc.
Qed.

Lemma date_string_chars day c : In c (date_string day) -> c <> 84%N.
Proof.
  unfold date_string. intros H.
  apply in_app_or in H.
  destruct H as [H | H]; [apply (year_string_chars _ _ H) |].
  apply in_app_or in H.
  destruct H as [H | H]; [destruct H as [<- | []]; discriminate |].
  apply in_app_or in H.
  destruct H as [H | H]; [apply pad_chars in H; intros ->; discriminate |].
  apply in_app_or in H.
  destruct H as [H | H]; [destruct H as [<- | []]; discriminate |].
  apply pad_chars in H. intros ->. discriminate.
Qed.

Lemma pad_two_digits a b :
  is_digit a = true -> is_digit b = true ->
  pad 2 (two_digits a b) = [a; b].
Proof.
  intros Ha Hb. unfold two_digits, digit_value.
  unfold is_digit, in_range in Ha, Hb.
  apply andb_prop in Ha, Hb. destruct Ha as [Ha1 Ha2], Hb as [Hb1 Hb2].
  apply N.leb_le in Ha1, Ha2, Hb1, Hb2.
  cbn [pad app].
  assert (E1 : (10 * (Z.of_N a - 48) + (Z.of_N b - 48)) mod 10
               = Z.of_N b - 48)
    by (Z.div_mod_to_equations; lia).
  assert (E2 : ((10 * (Z.of_N a - 48) + (Z.of_N b - 48)) / 10) mod 10
               = Z.of_N a - 48)
    by (Z.div_mod_to_equations; lia).
  rewrite E1, E2. f_equal; [| f_equal]; lia.
Qed.

End CivilDates.

Lemma formatDateCSV_valid tv :
  formatDateCSV (Some (Date.Valid tv))
  = Returned (ISO.date_string (ISO.Day tv)).
Proof.
  unfold formatDateCSV, ISO.toISOString. f_equal.
  apply (before_T_app (ISO.date_string (ISO.Day tv))).
  apply date_string_chars.
Qed.

Lemma date_string_civil y m dd :
  (0 <= y <= 9999)%Z -> (0 <= m <= 11)%Z ->
  (1 <= dd <= ISO.DaysInMonth (Date.InLeapYear y) m)%Z ->
  ISO.date_string (Date.MakeDay y m dd) = iso_date y (m + 1) dd.
Proof.
  intros Hy Hm Hd.
  destruct (civil_round_trip y m dd Hm Hd) as (E1 & E2 & E3).
  unfold ISO.date_string, iso_date. rewrite E1, E2, E3.
  unfold ISO.year_string.
  replace ((0 <=? y)%Z && (y <=? 9999)%Z) with true; [reflexivity |].
  symmetry. apply andb_true_intro. split; apply Z.leb_le; lia.
Qed.

Lemma new_Date_day h y m dd :
  (100 <= y)%Z ->
  let local := (Date.MakeDay y m dd * Date.msPerDay)%Z in
  let tza := LocalTZA h local in
  new_Date h (Some y) (Some m) (Some dd) = Date.Valid (local - tza)
  /\ ((- Date.msPerDay < tza <= 0)%Z ->
      ISO.Day (local - tza) = Date.MakeDay y m dd)
  /\ ((0 < tza <= Date.msPerDay)%Z ->
      ISO.Day (local - tza) = (Date.MakeDay y m dd - 1)%Z).
Proof.
  intros Hy. cbn zeta. split; [| split].
  - unfold new_Date.
    replace ((0 <=? y)%Z && (y <=? 99)%Z) with false; [reflexivity |].
    symmetry. apply andb_false_iff. right. apply Z.leb_gt. lia.
  - intros Ht.
    replace (Date.MakeDay y m dd * Date.msPerDay
             - LocalTZA h (Date.MakeDay y m dd * Date.msPerDay))%Z
      with (Date.MakeDay y m dd * Date.msPerDay
            + - LocalTZA h (Date.MakeDay y m dd * Date.msPerDay))%Z by lia.
    apply Day_of_local. lia.
  - intros Ht.
    replace (Date.MakeDay y m dd * Date.msPerDay
             - LocalTZA h (Date.MakeDay y m dd * Date.msPerDay))%Z
      with ((Date.MakeDay y m dd - 1) * Date.msPerDay
            + (Date.msPerDay
               - LocalTZA h (Date.MakeDay y m dd * Date.msPerDay)))%Z by lia.
    apply Day_of_local. lia.
Qed.

(** ** The date that [parseDate] builds *)

Lemma pivot_year_range (y z : N) :
  is_digit y = true -> is_digit z = true ->
  (1951 <= (if (50 <? two_digits y z)%Z
            then (1900 + two_digits y z)%Z
            else (2000 + two_digits y z)%Z) <= 2050)%Z.
Proof.
  intros Hy Hz. unfold two_digits, digit_value.
  unfold is_digit, in_range in Hy, Hz.
  apply andb_prop in Hy, Hz. destruct Hy as [Hy1 Hy2], Hz as [Hz1 Hz2].
  apply N.leb_le in Hy1, Hy2, Hz1, Hz2.
  destruct (Z.ltb_spec 50 (10 * (Z.of_N y - 48) + (Z.of_N z - 48))); lia.
Qed.

(** The day of local midnight is the day of [MakeDay], and it reads
    back as the date of the calendar it was made from. *)
Lemma midnight_reads_back (year m dd : Z) :
  (0 <= m <= 11)%Z ->
  (1 <= dd <= ISO.DaysInMonth (Date.InLeapYear year) m)%Z ->
  let local := (Date.MakeDay year m dd * Date.msPerDay)%Z in
  ISO.YearFromDay (ISO.Day local) = year
  /\ ISO.MonthFromDay (ISO.Day local) = m
  /\ ISO.DateFromDay (ISO.Day local) = dd.
Proof.
  intros Hm Hd. cbn zeta.
  replace (Date.MakeDay year m dd * Date.msPerDay)%Z
    with (Date.MakeDay year m dd * Date.msPerDay + 0)%Z by lia.
  rewrite Day_of_local by (unfold Date.msPerDay; lia).
  apply (civil_round_trip year m dd Hm Hd).
Qed.

(** What [parseDate] returns on the short form, as a time value. *)
Lemma parseDate_time_value (h : Host) (s : str) (a b c d y z : N) :
  is_mmddyy [a; b; 47; c; d; 47; y; z]%N = true ->
  parseDate h (Some s)
  = Some (new_Date h
            (Some (if (50 <? two_digits y z)%Z
                   then (1900 + two_digits y z)%Z
                   else (2000 + two_digits y z)%Z))
            (Some (two_digits a b - 1)%Z)
            (Some (two_digits c d))) ->
  let year := if (50 <? two_digits y z)%Z
              then (1900 + two_digits y z)%Z
              else (2000 + two_digits y z)%Z in
  let local :=
    (Date.MakeDay year (two_digits a b - 1) (two_digits c d)
     * Date.msPerDay)%Z in
  parseDate h (Some s) = Some (Date.Valid (local - LocalTZA h local))
  /\ (1951 <= year <= 2050)%Z
  /\ ((1 <= two_digits a b <= 12)%Z ->
      (1 <= two_digits c d
       <= ISO.DaysInMonth (Date.InLeapYear year) (two_digits a b - 1))%Z ->
      ISO.YearFromDay (ISO.Day local) = year
      /\ ISO.MonthFromDay (ISO.Day local) = (two_digits a b - 1)%Z
      /\ ISO.DateFromDay (ISO.Day local) = two_digits c d).
Proof.
  intros Hx Hp. cbn zeta.
  pose proof (is_mmddyy_digits _ _ _ _ _ _ _ _ Hx)
    as (_ & _ & _ & _ & Hy & Hz & _ & _).
  pose proof (pivot_year_range y z Hy Hz) as Hyear.
  split; [| split; [exact Hyear |]].
  - rewrite Hp. f_equal.
    apply (new_Date_day h _ (two_digits a b - 1) (two_digits c d)). lia.
  - intros Hm Hd. apply midnight_reads_back; [lia | exact Hd].
Qed.

(** C6. [parseDate] on a string in which the form MM/DD/YY is found
    builds the date from the year 1900 + yy when yy > 50 and 2000 + yy
    otherwise, the month MM - 1 and the day DD: the result is a valid
    date, local midnight of that day on the host, its year is from 1951
    to 2050, and when MM/DD is a date of the calendar the year, the
    month and the date of that midnight are the pivot year, MM and DD.
    "01/09/25" is 2025-01-09, the year of "51" is 1951 and the year of
    "49" is 2049.  When neither form is found in the string the result
    is [null]. *)
Theorem parseDate_two_digit_year :
  (forall (h : Host) (s : str) (m : list (option str)),
      s <> [] ->
      String_match Patterns.shortDate s = Some m ->
      exists a b c d y z,
        is_mmddyy [a; b; 47; c; d; 47; y; z]%N = true
        /\ m = [Some [a; b; 47; c; d; 47; y; z]%N;
                Some [a; b]; Some [c; d]; Some [y; z]]
        /\ parseDate h (Some s)
           = Some (new_Date h
                     (Some (if (50 <? two_digits y z)%Z
                            then (1900 + two_digits y z)%Z
                            else (2000 + two_digits y z)%Z))
                     (Some (two_digits a b - 1)%Z)
                     (Some (two_digits c d)))
        /\ let year := if (50 <? two_digits y z)%Z
                       then (1900 + two_digits y z)%Z
                       else (2000 + two_digits y z)%Z in
           let local :=
             (Date.MakeDay year (two_digits a b - 1) (two_digits c d)
              * Date.msPerDay)%Z in
           parseDate h (Some s)
           = Some (Date.Valid (local - LocalTZA h local))
           /\ (1951 <= year <= 2050)%Z
           /\ ((1 <= two_digits a b <= 12)%Z ->
               (1 <= two_digits c d
                <= ISO.DaysInMonth (Date.InLeapYear year)
                     (two_digits a b - 1))%Z ->
               ISO.YearFromDay (ISO.Day local) = year
               /\ ISO.MonthFromDay (ISO.Day local) = (two_digits a b - 1)%Z
               /\ ISO.DateFromDay (ISO.Day local) = two_digits c d))
  /\ (forall (h : Host) (a b c d y z : N),
         is_mmddyy [a; b; 47; c; d; 47; y; z]%N = true ->
         parseDate h (Some [a; b; 47; c; d; 47; y; z]%N)
         = Some (new_Date h
                   (Some (if (50 <? two_digits y z)%Z
                          then (1900 + two_digits y z)%Z
                          else (2000 + two_digits y z)%Z))
                   (Some (two_digits a b - 1)%Z)
                   (Some (two_digits c d)))
         /\ let year := if (50 <? two_digits y z)%Z
                        then (1900 + two_digits y z)%Z
                        else (2000 + two_digits y z)%Z in
            let local :=
              (Date.MakeDay year (two_digits a b - 1) (two_digits c d)
               * Date.msPerDay)%Z in
            parseDate h (Some [a; b; 47; c; d; 47; y; z]%N)
            = Some (Date.Valid (local - LocalTZA h local)))
  /\ (forall h : Host,
         parseDate h (Some (js "01/09/25"))
         = Some (new_Date h (Some 2025%Z) (Some 0%Z) (Some 9%Z))
         /\ parseDate h (Some (js "06/15/51"))
            = Some (new_Date h (Some 1951%Z) (Some 5%Z) (Some 15%Z))
         /\ parseDate h (Some (js "06/15/49"))
            = Some (new_Date h (Some 2049%Z) (Some 5%Z) (Some 15%Z))
         /\ parseDate h (Some (js "06/15/50"))
            = Some (new_Date h (Some 2050%Z) (Some 5%Z) (Some 15%Z)))
  /\ (forall h : Host,
         parseDate h (Some (js "01/09/25"))
         = Some (Date.Valid
                   (1736380800000 - LocalTZA h 1736380800000))
         /\ ISO.date_string (ISO.Day 1736380800000) = js "2025-01-09"
         /\ parseDate h (Some (js "06/15/51"))
            = Some (Date.Valid
                      (-585360000000 - LocalTZA h (-585360000000)))
         /\ ISO.date_string (ISO.Day (-585360000000)) = js "1951-06-15"
         /\ parseDate h (Some (js "06/15/49"))
            = Some (Date.Valid
                      (2507328000000 - LocalTZA h 2507328000000))
         /\ ISO.date_string (ISO.Day 2507328000000) = js "2049-06-15"
         /\ parseDate h (Some (js "06/15/50"))
            = Some (Date.Valid
                      (2538864000000 - LocalTZA h 2538864000000))
         /\ ISO.date_string (ISO.Day 2538864000000) = js "2050-06-15")
  /\ (forall (h : Host) (s : str),
         String_match Patterns.shortDate s = None ->
         String_match Patterns.longDate s = None ->
         parseDate h (Some s) = None)
  /\ (forall h : Host, parseDate h None = None).
Proof.
  split; [| split; [| split; [| split; [| split]]]].
  - intros h s m Hs Hm.
    destruct (shortDate_groups s m Hm) as (a & b & c & d & y & z & Hx & ->).
    exists a, b, c, d, y, z. split; [exact Hx |]. split; [reflexivity |].
    pose proof (is_mmddyy_digits _ _ _ _ _ _ _ _ Hx)
      as (Ha & Hb & Hc & Hd & Hy & Hz & _ & _).
    assert (Hp : parseDate h (Some s)
                 = Some (new_Date h
                           (Some (if (50 <? two_digits y z)%Z
                                  then (1900 + two_digits y z)%Z
                                  else (2000 + two_digits y z)%Z))
                           (Some (two_digits a b - 1)%Z)
                           (Some (two_digits c d)))).
    { unfold parseDate. destruct s as [| c0 s]; [contradiction |].
      rewrite Hm. unfold at_. cbn [nth].
      rewrite !parseInt_two_digits by assumption. reflexivity. }
    split; [exact Hp |].
    apply (parseDate_time_value h s a b c d y z Hx Hp).
  - intros h a b c d y z H.
    destruct (parseDate_mmddyy h _ H) as (a' & b' & c' & d' & y' & z' & E & P).
    inversion E; subst a' b' c' d' y' z'. clear E.
    assert (Hp : parseDate h (Some [a; b; 47; c; d; 47; y; z]%N)
                 = Some (new_Date h
                           (Some (if (50 <? two_digits y z)%Z
                                  then (1900 + two_digits y z)%Z
                                  else (2000 + two_digits y z)%Z))
                           (Some (two_digits a b - 1)%Z)
                           (Some (two_digits c d)))) by exact P.
    split; [exact Hp |].
    apply (parseDate_time_value h _ a b c d y z H Hp).
  - intros h. repeat split; reflexivity.
  - intros h. repeat split; vm_compute; reflexivity.
  - intros h s H1 H2. unfold parseDate.
    destruct s; [reflexivity |]. rewrite H1, H2. reflexivity.
  - reflexivity.
Qed.

Lemma parseDate_two_digit_year_witness :
  parseDate utc_host (Some (js "Due 12/31/51."))
  = Some (new_Date utc_host (Some 1951%Z) (Some 11%Z) (Some 31%Z))
  /\ parseDate utc_host (Some (js "Due 12/31/51."))
     = Some (Date.Valid (-568166400000))
  /\ ISO.date_string (ISO.Day (-568166400000)) = js "1951-12-31"
  /\ (ISO.YearFromDay (ISO.Day (-568166400000)) = 1951%Z
      /\ ISO.MonthFromDay (ISO.Day (-568166400000)) = 11%Z
      /\ ISO.DateFromDay (ISO.Day (-568166400000)) = 31%Z)
  /\ parseDate utc_host (Some (js "12/31/49"))
     = Some (new_Date utc_host (Some 2049%Z) (Some 11%Z) (Some 31%Z))
  /\ parseDate utc_host (Some (js "12/31/49"))
     = Some (Date.Valid 2524521600000)
  /\ ISO.date_string (ISO.Day 2524521600000) = js "2049-12-31"
  /\ parseDate new_york_2025 (Some (js "11/03/25"))
     = Some (Date.Valid 1762146000000)
  /\ parseDate utc_host (Some (js "next month")) = None.
Proof.
  destruct (proj1 parseDate_two_digit_year utc_host (js "Due 12/31/51.")
              [Some (js "12/31/51"); Some (js "12"); Some (js "31");
               Some (js "51")])
    as (a & b & c & d & y & z & _ & Hm & Hp & Hv & _ & Hc);
    [discriminate | vm_compute; reflexivity |].
  inversion Hm; subst a b c d y z; clear Hm.
  destruct (proj1 (proj2 parseDate_two_digit_year) utc_host
              49 50 51 49 52 57 eq_refl)%N as [Hq Hw].
  split; [exact Hp |].
  split; [exact Hv |].
  split; [vm_compute; reflexivity |].
  split; [apply Hc; cbn; lia |].
  split; [exact Hq |].
  split; [exact Hw |].
  split; [vm_compute; reflexivity |].
  split.
  - exact (proj2 (proj1 (proj2 parseDate_two_digit_year) new_york_2025
                    49 49 48 51 50 53 eq_refl)%N).
  - apply (proj1 (proj2 (proj2 (proj2 (proj2 parseDate_two_digit_year))))
             utc_host (js "next month"));
      vm_compute; reflexivity.
Defined.

(** X7.  A date built by [new Date(year, month, day)] on a host whose
    local time is UTC or behind it by less than a day, as in New York,
    is exported as the same date of the calendar, [YYYY-MM-DD]. *)
Theorem csv_date_is_local_date (h : Host) (y m dd : Z) :
  (100 <= y <= 9999)%Z -> (0 <= m <= 11)%Z ->
  (1 <= dd <= ISO.DaysInMonth (Date.InLeapYear y) m)%Z ->
  (- Date.msPerDay
   < LocalTZA h (Date.MakeDay y m dd * Date.msPerDay) <= 0)%Z ->
  formatDateCSV (Some (new_Date h (Some y) (Some m) (Some dd)))
  = Returned (iso_date y (m + 1) dd).
Proof.
  intros Hy Hm Hd Ht.
  destruct (new_Date_day h y m dd ltac:(lia)) as (E & Hw & _).
  rewrite E, formatDateCSV_valid, (Hw Ht).
  rewrite date_string_civil by (assumption || lia). reflexivity.
Qed.

Lemma csv_date_is_local_date_witness :
  formatDateCSV (Some (new_Date new_york_2025 (Some 2025%Z) (Some 10%Z)
                         (Some 2%Z)))
  = Returned (js "2025-11-02").
Proof.
  apply (csv_date_is_local_date new_york_2025 2025 10 2);
    [lia | lia | cbn; lia | cbn; lia].
Defined.

(** X8.  On a host whose local time is ahead of UTC the same date is
    exported as the day before: local midnight is still the previous
    day in UTC, and [toISOString] is in UTC. *)
Theorem csv_date_is_day_before (h : Host) (y m dd : Z) :
  (100 <= y <= 9999)%Z -> (0 <= m <= 11)%Z ->
  (1 <= dd <= ISO.DaysInMonth (Date.InLeapYear y) m)%Z ->
  (0 < LocalTZA h (Date.MakeDay y m dd * Date.msPerDay)
   <= Date.msPerDay)%Z ->
  formatDateCSV (Some (new_Date h (Some y) (Some m) (Some dd)))
  = Returned (ISO.date_string (Date.MakeDay y m dd - 1))
  /\ ((2 <= dd)%Z ->
      formatDateCSV (Some (new_Date h (Some y) (Some m) (Some dd)))
      = Returned (iso_date y (m + 1) (dd - 1))).
Proof.
  intros Hy Hm Hd Ht.
  destruct (new_Date_day h y m dd ltac:(lia)) as (E & _ & He).
  rewrite E, formatDateCSV_valid, (He Ht).
  split; [reflexivity |].
  intros H2. f_equal.
  replace (Date.MakeDay y m dd - 1)%Z with (Date.MakeDay y m (dd - 1))
    by (unfold Date.MakeDay; lia).
  apply date_string_civil; lia.
Qed.

Lemma csv_date_is_day_before_witness :
  formatDateCSV (Some (new_Date east_host (Some 2025%Z) (Some 0%Z)
                         (Some 9%Z)))
  = Returned (js "2025-01-08").
Proof.
  apply (csv_date_is_day_before east_host 2025 0 9);
    [lia | lia | cbn; lia | unfold Date.msPerDay; cbn; lia | lia].
Defined.

(** The statement date of the scenario, on a machine at UTC. *)
Example scenario_statement_date :
  exists r,
    extractBillData utc_host scenario (js "bill.pdf") = Normal r
    /\ statementDate r = Some (Date.Valid 1739232000000)
    /\ formatDateCSV (statementDate r) = Returned (js "2025-02-11").
Proof.
  eexists. split; [apply extractBillData_normal |].
  split; vm_compute; reflexivity.
Qed.

(** The first of January 2025 is exported as the last day of 2024. *)
Example new_year_day_east :
  formatDateCSV (Some (new_Date east_host (Some 2025%Z) (Some 0%Z)
                         (Some 1%Z)))
  = Returned (js "2024-12-31").
Proof. vm_compute. reflexivity. Qed.

(** X9.  From the bill to the export: a date printed [MM/DD/YY] that is
    a date of the calendar is exported by [formatDateCSV] as
    [YYYY-MM-DD] with the same digits for month and day and the year
    from 1951 to 2050 that [parseDate] chooses, on a host at UTC or
    behind it by less than a day. *)
Theorem printed_date_to_csv (h : Host) (a b c d y z : N) :
  let year := expand_year (two_digits y z) in
  let month := two_digits a b in
  let day := two_digits c d in
  is_mmddyy [a; b; 47; c; d; 47; y; z]%N = true ->
  (1 <= month <= 12)%Z ->
  (1 <= day <= ISO.DaysInMonth (Date.InLeapYear year) (month - 1))%Z ->
  (- Date.msPerDay
   < LocalTZA h (Date.MakeDay year (month - 1) day * Date.msPerDay)
   <= 0)%Z ->
  formatDateCSV (parseDate h (Some [a; b; 47; c; d; 47; y; z]%N))
  = Returned (ISO.pad 4 year ++ [45; a; b; 45; c; d]%N).
Proof.
  intros year month day Hx Hm Hd Ht.
  destruct (parseDate_mmddyy h _ Hx) as (a' & b' & c' & d' & y' & z' & E & Hp).
  unfold str in Hp. rewrite Hp. clear Hp.
  inversion E; subst a' b' c' d' y' z'; clear E.
  subst year month day.
  pose proof (is_mmddyy_digits _ _ _ _ _ _ _ _ Hx)
    as (Ha & Hb & Hc & Hdd & Hy & Hz & _ & _).
  assert (Hyear : (1951 <= expand_year (two_digits y z) <= 2050)%Z).
  { unfold expand_year, two_digits, digit_value.
    unfold is_digit, in_range in Hy, Hz.
    apply andb_prop in Hy, Hz. destruct Hy as [Hy1 Hy2], Hz as [Hz1 Hz2].
    apply N.leb_le in Hy1, Hy2, Hz1, Hz2.
    destruct (Z.ltb_spec 50 (10 * (Z.of_N y - 48) + (Z.of_N z - 48))); lia. }
  destruct (new_Date_day h (expand_year (two_digits y z))
              (two_digits a b - 1) (two_digits c d) ltac:(lia))
    as (E & Hw & _).
  rewrite E, formatDateCSV_valid, (Hw Ht).
  rewrite date_string_civil by (assumption || lia).
  unfold iso_date.
  replace (two_digits a b - 1 + 1)%Z with (two_digits a b) by lia.
  rewrite !pad_two_digits by assumption. reflexivity.
Qed.

Lemma printed_date_to_csv_witness :
  formatDateCSV (parseDate new_york_2025 (Some (js "11/02/25")))
  = Returned (js "2025-11-02").
Proof.
  apply (printed_date_to_csv new_york_2025 49 49 48 50 50 53)%N;
    [reflexivity | cbn; lia | cbn; lia | cbn; lia].
Defined.

Lemma period_date_valid h text i :
  i = 1%nat \/ i = 2%nat ->
  period_date h text i = None
  \/ exists tv, period_date h text i = Some (Date.Valid tv).
Proof.
  intros Hi. unfold period_date.
  destruct (String_match Patterns.servicePeriod text) as [m |] eqn:Hm;
    [| left; reflexivity].
  destruct (servicePeriod_groups text m Hm) as (x & y & H1 & H2 & Hx & Hy).
  right.
  destruct Hi as [-> | ->].
  - rewrite H1. destruct (parseDate_mmddyy h x Hx)
      as (a & b & c & d & e & f & _ & ->).
    eexists. reflexivity.
  - rewrite H2. destruct (parseDate_mmddyy h y Hy)
      as (a & b & c & d & e & f & _ & ->).
    eexists. reflexivity.
Qed.

(** X10.  The two dates of the service period of a record are never
    the invalid date, on any text and any host: [formatDateCSV] does
    not throw a RangeError on them. *)
Theorem service_period_exports (h : Host) (text name : str) :
  exists r,
    extractBillData h text name = Normal r
    /\ formatDateCSV (ServicePeriod.start (servicePeriod r)) <> RangeError
    /\ formatDateCSV (ServicePeriod.end_ (servicePeriod r)) <> RangeError.
Proof.
  exists (bill_value h text name).
  split; [apply extractBillData_normal |].
  assert (Hs : ServicePeriod.start (servicePeriod (bill_value h text name))
               = period_date h text 1
               /\ ServicePeriod.end_ (servicePeriod (bill_value h text name))
                  = period_date h text 2).
  { rewrite bill_servicePeriod.
    destruct (Number.eqb _ _); [| split; reflexivity].
    destruct (period_date h text 1); [| split; reflexivity].
    destruct (period_date h text 2); split; reflexivity. }
  destruct Hs as [-> ->].
  split.
  - destruct (period_date_valid h text 1 (or_introl eq_refl))
      as [-> | [tv ->]]; discriminate.
  - destruct (period_date_valid h text 2 (or_intror eq_refl))
      as [-> | [tv ->]]; discriminate.
Qed.

(** ** [escapeCSV] *)

Lemma double_quotes_inj : forall a b,
  double_quotes a = double_quotes b -> a = b.
Proof.
  induction a as [| x a IH]; intros [| y b] H; cbn in H.
  - reflexivity.
  - destruct (y =? 34)%N; discriminate.
  - destruct (x =? 34)%N; discriminate.
  - destruct (x =? 34)%N eqn:Hx, (y =? 34)%N eqn:Hy; cbn in H.
    + apply N.eqb_eq in Hx, Hy. subst. inversion H as [H']. f_equal.
      apply IH. exact H'.
    + inversion H as [[H1 H2]]. subst y. discriminate.
    + inversion H as [[H1 H2]]. subst x. discriminate.
    + inversion H as [[H1 H2]]. f_equal. apply IH. exact H2.
Qed.

Lemma count_double_quotes s :
  count_occ N.eq_dec (double_quotes s) 34%N
  = (2 * count_occ N.eq_dec s 34%N)%nat.
Proof.
  induction s as [| x s IH]; [reflexivity |].
  cbn [double_quotes flat_map]. fold (double_quotes s).
  rewrite count_occ_app, IH.
  destruct (x =? 34)%N eqn:Hx.
  - apply N.eqb_eq in Hx. subst x. cbn. lia.
  - apply N.eqb_neq in Hx. cbn [count_occ].
    destruct (N.eq_dec x 34) as [E | _]; [contradiction | lia].
Qed.

Lemma length_double_quotes s :
  List.length (double_quotes s)
  = (List.length s + count_occ N.eq_dec s 34%N)%nat.
Proof.
  induction s as [| x s IH]; [reflexivity |].
  cbn [double_quotes flat_map]. fold (double_quotes s).
  rewrite length_app, IH. cbn [count_occ List.length].
  destruct (x =? 34)%N eqn:Hx.
  - apply N.eqb_eq in Hx. subst.
    destruct (N.eq_dec 34 34); [cbn; lia | contradiction].
  - apply N.eqb_neq in Hx.
    destruct (N.eq_dec x 34); [contradiction | cbn; lia].
Qed.

Lemma has_char_false c s :
  has_char c s = false -> count_occ N.eq_dec s c = 0%nat.
Proof.
  intros H. apply count_occ_not_In. intros Hin.
  unfold has_char in H.
  assert (existsb (N.eqb c) s = true)
    by (apply existsb_exists; exists c; split; [exact Hin | apply N.eqb_refl]).
  congruence.
Qed.

(** X11.  [escapeCSV] loses nothing: two strings with the same field are
    the same string.  A string without comma, quotation mark and line
    feed is its own field; the other fields are between two quotation
    marks, one character longer for each quotation mark of the string;
    and the quotation marks of a field are even in number, so that a
    field never leaves a quotation open. *)
Theorem escapeCSV_faithful :
  (forall a b, escapeCSV (Some a) = escapeCSV (Some b) -> a = b)
  /\ (forall s, needs_quoting s = false -> escapeCSV (Some s) = s)
  /\ (forall s, Nat.even (count_occ N.eq_dec (escapeCSV (Some s)) 34%N)
                = true)
  /\ (forall s, needs_quoting s = true ->
        exists body, escapeCSV (Some s) = [34%N] ++ body ++ [34%N]
                     /\ List.length body
                        = (List.length s + count_occ N.eq_dec s 34%N)%nat).
Proof.
  split; [| split; [| split]].
  - intros a b. unfold escapeCSV.
    destruct (needs_quoting a) eqn:Ha, (needs_quoting b) eqn:Hb; intros H.
    + cbn in H. inversion H as [H']. apply app_inj_tail in H'.
      apply double_quotes_inj. apply H'.
    + subst b. unfold needs_quoting in Hb. cbn in Hb.
      rewrite orb_true_r in Hb. discriminate.
    + subst a. unfold needs_quoting in Ha. cbn in Ha.
      rewrite orb_true_r in Ha. discriminate.
    + exact H.
  - intros s H. unfold escapeCSV. rewrite H. reflexivity.
  - intros s. unfold escapeCSV. destruct (needs_quoting s) eqn:H.
    + rewrite !count_occ_app, count_double_quotes. cbn [count_occ].
      destruct (N.eq_dec 34 34) as [_ | E]; [| contradiction].
      replace (1 + (2 * count_occ N.eq_dec s 34%N + 1))%nat
        with (2 * (1 + count_occ N.eq_dec s 34%N))%nat by lia.
      apply Nat.even_spec. exists (1 + count_occ N.eq_dec s 34%N)%nat.
      reflexivity.
    + unfold needs_quoting in H. apply orb_false_iff in H.
      destruct H as [H _]. apply orb_false_iff in H. destruct H as [_ H].
      rewrite (has_char_false _ _ H). reflexivity.
  - intros s H. unfold escapeCSV. rewrite H. exists (double_quotes s).
    split; [reflexivity | apply length_double_quotes].
Qed.

(** ** The loop of [processFiles] *)

Lemma processResult_readable h message state result :
  readable result = true ->
  processResult h message state result
  = {| bills := mergeBill (bills state)
                  (bill_value h (pdf_text result) (pdf_name result));
       errors := errors state;
       accountInfo :=
         if nonempty (accountNumber (accountInfo state))
         then accountInfo state
         else if nonempty (accountNumber_of (pdf_text result))
              then account_of (pdf_text result)
              else accountInfo state |}.
Proof.
  unfold readable, processResult, adoptAccount. intros H.
  apply negb_true_iff in H. rewrite H.
  rewrite extractBillData_normal. cbn [bind].
  rewrite extractAccountInfo_returns.
  destruct (nonempty (accountNumber (accountInfo state))); reflexivity.
Qed.

Lemma processResult_unreadable h message state result :
  readable result = false ->
  processResult h message state result
  = {| bills := bills state;
       errors := errors state
                 ++ [{| error_fileName := pdf_name result;
                        error_text := to_String (pdf_error result) |}];
       accountInfo := accountInfo state |}.
Proof.
  unfold readable, processResult. intros Hr.
  apply negb_false_iff in Hr. rewrite Hr. reflexivity.
Qed.

Lemma findIndex_range {A} (p : A -> bool) l :
  (findIndex p l = -1 /\ forallb (fun x => negb (p x)) l = true)%Z
  \/ exists i x, findIndex p l = Z.of_nat i /\ nth_error l i = Some x
                 /\ p x = true.
Proof.
  induction l as [| x l IH]; [left; split; reflexivity |].
  cbn [findIndex forallb]. destruct (p x) eqn:Hp.
  - right. exists 0%nat, x. repeat split. exact Hp.
  - destruct IH as [[Hi Hall] | (i & y & Hi & Hn & Hy)].
    + left. rewrite Hi. split; [reflexivity | exact Hall].
    + right. exists (S i), y. rewrite Hi.
      replace (Z.of_nat i <? 0)%Z with false by (symmetry; apply Z.ltb_ge; lia).
      split; [lia |]. split; assumption.
Qed.

Lemma statement_times_app a b :
  statement_times (a ++ b) = statement_times a ++ statement_times b.
Proof. unfold statement_times. apply flat_map_app. Qed.

Lemma statement_times_assign bs : forall i b billData,
  nth_error bs i = Some b ->
  same_statement billData b = true ->
  statement_times (assign_at bs i billData) = statement_times bs.
Proof.
  induction bs as [| x bs IH]; intros i b billData Hn Hs.
  - destruct i; discriminate.
  - destruct i as [| i].
    + cbn in Hn. inversion Hn; subst x. cbn [assign_at].
      unfold statement_times. cbn [flat_map]. f_equal.
      unfold same_statement in Hs.
      destruct (statementDate b) as [[| t1] |]; try discriminate.
      destruct (statementDate billData) as [[| t2] |]; try discriminate.
      apply Z.eqb_eq in Hs. subst. reflexivity.
    + cbn [assign_at]. unfold statement_times in *. cbn [flat_map].
      f_equal. apply (IH i b billData Hn Hs).
Qed.

Lemma not_found_fresh billData bs t :
  forallb (fun x => negb (same_statement billData x)) bs = true ->
  statementDate billData = Some (Date.Valid t) ->
  ~ In t (statement_times bs).
Proof.
  intros Hall Hd Hin. unfold statement_times in Hin.
  apply in_flat_map in Hin. destruct Hin as (b & Hb & Ht).
  rewrite forallb_forall in Hall. specialize (Hall b Hb).
  unfold same_statement in Hall. rewrite Hd in Hall.
  destruct (statementDate b) as [[| t1] |]; try contradiction.
  destruct Ht as [<- |[]]. rewrite Z.eqb_refl in Hall. discriminate.
Qed.

Lemma mergeBill_unique bs billData :
  NoDup (statement_times bs) ->
  NoDup (statement_times (mergeBill bs billData)).
Proof.
  intros Hu. unfold mergeBill. cbn zeta.
  destruct (findIndex_range (same_statement billData) bs)
    as [[Hi Hall] | (i & b & Hi & Hn & Hs)]; rewrite Hi.
  - cbn. rewrite statement_times_app.
    unfold statement_times at 2. cbn [flat_map]. rewrite app_nil_r.
    destruct (statementDate billData) as [[| t] |] eqn:Hd;
      try (rewrite app_nil_r; exact Hu).
    apply NoDup_app; [exact Hu | repeat constructor; intros [] |].
    intros x Hx [E | []]. subst x.
    exact (not_found_fresh billData bs t Hall Hd Hx).
  - replace (0 <=? Z.of_nat i)%Z with true by (symmetry; apply Z.leb_le; lia).
    rewrite Nat2Z.id.
    rewrite (statement_times_assign bs i b billData Hn Hs). exact Hu.
Qed.

Lemma processResult_unique h message state result :
  NoDup (statement_times (bills state)) ->
  NoDup (statement_times (bills (processResult h message state result))).
Proof.
  intros Hu. destruct (readable result) eqn:Hr.
  - rewrite (processResult_readable h message state result Hr).
    cbn [bills]. apply mergeBill_unique. exact Hu.
  - rewrite (processResult_unreadable h message state result Hr).
    exact Hu.
Qed.

(** X12.  The list of bills never holds two bills with the same valid
    statement date: the loop keeps it so over any results, from any
    state where it is so, the empty one to begin with. *)
Theorem statement_dates_stay_unique h message results : forall state,
  NoDup (statement_times (bills state)) ->
  NoDup (statement_times (bills (processResults h message results state))).
Proof.
  unfold processResults.
  induction results as [| r results IH]; intros state Hu; [exact Hu |].
  cbn [fold_left]. apply IH. apply processResult_unique. exact Hu.
Qed.

Lemma statement_dates_stay_unique_witness :
  let state :=
    processResults utc_host (fun _ => []) [scenario_pdf] initial_state in
  let state' :=
    processResults utc_host (fun _ => [])
      [next_pdf; damaged_pdf; scenario_copy] state in
  statement_times (bills state) = [1739232000000%Z]
  /\ NoDup (statement_times (bills state'))
  /\ statement_times (bills state') = [1739232000000%Z; 1741737600000%Z]
  /\ map fileName (bills state') = [js "copy.pdf"; js "march.pdf"].
Proof.
  cbn zeta.
  assert (E : statement_times
                (bills (processResults utc_host (fun _ => [])
                          [scenario_pdf] initial_state))
              = [1739232000000%Z]) by (vm_compute; reflexivity).
  split; [exact E |]. split.
  - apply (statement_dates_stay_unique utc_host (fun _ => [])
             [next_pdf; damaged_pdf; scenario_copy]).
    rewrite E. constructor; [intros [] | constructor].
  - split; vm_compute; reflexivity.
Defined.

Lemma assign_at_length {A} (l : list A) : forall i v,
  List.length (assign_at l i v) = List.length l.
Proof.
  induction l as [| x l IH]; intros [| i] v; cbn; try reflexivity.
  rewrite IH. reflexivity.
Qed.

Lemma assign_at_In {A} (l : list A) : forall i x v,
  nth_error l i = Some x -> In v (assign_at l i v).
Proof.
  induction l as [| y l IH]; intros [| i] x v H; try discriminate.
  - left. reflexivity.
  - right. apply (IH i x v H).
Qed.

Lemma assign_at_others {A} (l : list A) : forall i v y,
  In y l -> nth_error l i <> Some y -> In y (assign_at l i v).
Proof.
  induction l as [| x l IH]; intros [| i] v y Hin Hn; cbn in *;
    try contradiction.
  - destruct Hin as [-> | Hin]; [exfalso; apply Hn; reflexivity |].
    right. exact Hin.
  - destruct Hin as [-> | Hin]; [left; reflexivity |].
    right. apply IH; assumption.
Qed.

Lemma mergeBill_outcome bs billData :
  In billData (mergeBill bs billData)
  /\ (List.length (mergeBill bs billData) = List.length bs
      \/ mergeBill bs billData = bs ++ [billData])
  /\ (forall b, In b bs -> same_statement billData b = false ->
                In b (mergeBill bs billData))
  /\ (statementDate billData = None
      \/ statementDate billData = Some Date.Invalid ->
      mergeBill bs billData = bs ++ [billData]).
Proof.
  unfold mergeBill. cbn zeta.
  destruct (findIndex_range (same_statement billData) bs)
    as [[Hi Hall] | (i & b & Hi & Hn & Hs)]; rewrite Hi.
  - cbn. split; [apply in_or_app; right; left; reflexivity |].
    split; [right; reflexivity |].
    split; [intros b Hb _; apply in_or_app; left; exact Hb |].
    reflexivity.
  - replace (0 <=? Z.of_nat i)%Z with true by (symmetry; apply Z.leb_le; lia).
    rewrite Nat2Z.id.
    split; [apply (assign_at_In bs i b billData Hn) |].
    split; [left; apply assign_at_length |].
    split.
    + intros y Hy Hsy. apply assign_at_others; [exact Hy |].
      intros Hny. rewrite Hn in Hny. inversion Hny; subst.
      rewrite Hs in Hsy. discriminate.
    + unfold same_statement in Hs.
      intros [Hd | Hd]; rewrite Hd in Hs;
        destruct (statementDate b) as [[| t1] |]; discriminate.
Qed.

(** X13.  A file that was read never adds to the errors: extraction
    throws on no text.  Its record is in the list afterwards, either in
    the place of a bill with the same statement date, the length
    unchanged, or at the end; every bill with another statement date
    stays; and a record without a statement date, or with the invalid
    date, is always added at the end. *)
Theorem readable_result_outcome (h : Host) (message : js_error -> str)
  (state : AppState) (result : PdfResult) :
  readable result = true ->
  let state' := processResult h message state result in
  errors state' = errors state
  /\ exists billData,
       extractBillData h (pdf_text result) (pdf_name result)
       = Normal billData
       /\ In billData (bills state')
       /\ (List.length (bills state') = List.length (bills state)
           \/ bills state' = bills state ++ [billData])
       /\ (forall b, In b (bills state) ->
                     same_statement billData b = false ->
                     In b (bills state'))
       /\ (statementDate billData = None
           \/ statementDate billData = Some Date.Invalid ->
           bills state' = bills state ++ [billData]).
Proof.
  intros Hr. cbn zeta.
  rewrite (processResult_readable h message state result Hr).
  cbn [errors bills]. split; [reflexivity |].
  exists (bill_value h (pdf_text result) (pdf_name result)).
  split; [apply extractBillData_normal |].
  apply mergeBill_outcome.
Qed.

Lemma readable_result_outcome_witness :
  let state' :=
    processResult utc_host (fun _ => []) initial_state scenario_pdf in
  errors state' = []
  /\ exists billData,
       extractBillData utc_host scenario (js "bill.pdf") = Normal billData
       /\ In billData (bills state')
       /\ (List.length (bills state') = 0%nat
           \/ bills state' = [] ++ [billData])
       /\ (forall b, In b [] ->
                     same_statement billData b = false ->
                     In b (bills state'))
       /\ (statementDate billData = None
           \/ statementDate billData = Some Date.Invalid ->
           bills state' = [] ++ [billData]).
Proof.
  apply (readable_result_outcome utc_host (fun _ => []) initial_state
           scenario_pdf).
  reflexivity.
Defined.

(** X14.  A file that could not be read changes neither the bills nor
    the account: it adds one error, with the name of the file and the
    message of the reader. *)
Theorem failed_result_outcome (h : Host) (message : js_error -> str)
  (state : AppState) (result : PdfResult) (text : str) :
  pdf_error result = Some text -> text <> [] ->
  let state' := processResult h message state result in
  bills state' = bills state
  /\ accountInfo state' = accountInfo state
  /\ errors state'
     = errors state
       ++ [{| error_fileName := pdf_name result; error_text := text |}].
Proof.
  intros He Ht. cbn zeta.
  rewrite (processResult_unreadable h message state result).
  - rewrite He. repeat split.
  - unfold readable. rewrite He. destruct text; [contradiction |].
    reflexivity.
Qed.

Lemma failed_result_outcome_witness :
  let state' :=
    processResult utc_host (fun _ => []) initial_state damaged_pdf in
  bills state' = []
  /\ accountInfo state' = accountInfo initial_state
  /\ errors state'
     = [] ++ [{| error_fileName := js "scan.pdf";
                 error_text := js "Invalid PDF structure" |}].
Proof.
  apply (failed_result_outcome utc_host (fun _ => []) initial_state
           damaged_pdf (js "Invalid PDF structure")).
  - reflexivity.
  - discriminate.
Defined.

Lemma account_kept h message results : forall state,
  nonempty (accountNumber (accountInfo state)) = true ->
  accountInfo (processResults h message results state) = accountInfo state.
Proof.
  unfold processResults.
  induction results as [| r results IH]; intros state Hs; [reflexivity |].
  cbn [fold_left].
  assert (Hstep : accountInfo (processResult h message state r)
                  = accountInfo state).
  { destruct (readable r) eqn:Hr.
    - rewrite (processResult_readable h message state r Hr).
      cbn [accountInfo]. rewrite Hs. reflexivity.
    - rewrite (processResult_unreadable h message state r Hr).
      reflexivity. }
  rewrite IH; rewrite Hstep; [reflexivity | exact Hs].
Qed.

(** X15.  The account of the state is decided once: a state with an
    account number keeps its account over any results, and a state
    without one takes the account of the first file that was read and
    whose text has an account number, name and address included, and
    nothing from the files after it. *)
Theorem account_first_wins (h : Host) (message : js_error -> str)
  (results : list PdfResult) (state : AppState) :
  accountInfo (processResults h message results state)
  = if nonempty (accountNumber (accountInfo state))
    then accountInfo state
    else match find has_account results with
         | Some result => account_of (pdf_text result)
         | None => accountInfo state
         end.
Proof.
  revert state. induction results as [| r results IH]; intros state.
  - cbn. destruct (nonempty (accountNumber (accountInfo state)));
      reflexivity.
  - destruct (nonempty (accountNumber (accountInfo state))) eqn:Hs.
    + apply account_kept. exact Hs.
    + unfold processResults in *. cbn [fold_left find]. rewrite IH.
      unfold has_account at 2. destruct (readable r) eqn:Hr.
      * rewrite (processResult_readable h message state r Hr).
        cbn [accountInfo andb]. rewrite Hs.
        destruct (nonempty (accountNumber_of (pdf_text r))) eqn:Ha.
        -- cbn [account_of accountNumber]. rewrite Ha. reflexivity.
        -- rewrite Hs. reflexivity.
      * rewrite (processResult_unreadable h message state r Hr).
        cbn [accountInfo andb]. rewrite Hs. reflexivity.
Qed.

Lemma mergeBill_first billData :
  mergeBill [] billData = [billData].
Proof. reflexivity. Qed.

(** X16.  The same file read twice, from the empty state: one bill when
    its statement date is a valid date, the second record taking the
    place of the first, and two bills when the statement date was not
    found or is the invalid date. *)
Theorem same_file_twice (h : Host) (message : js_error -> str)
  (result : PdfResult) :
  readable result = true ->
  exists billData,
    extractBillData h (pdf_text result) (pdf_name result) = Normal billData
    /\ bills (processResults h message [result; result] initial_state)
       = match statementDate billData with
         | Some (Date.Valid _) => [billData]
         | _ => [billData; billData]
         end.
Proof.
  intros Hr. exists (bill_value h (pdf_text result) (pdf_name result)).
  split; [apply extractBillData_normal |].
  unfold processResults. cbn [fold_left].
  rewrite !(processResult_readable h message _ result Hr).
  cbn [bills]. rewrite mergeBill_first.
  unfold mergeBill. cbn [findIndex]. unfold same_statement.
  destruct (statementDate _) as [[| tv] |]; try reflexivity.
  rewrite Z.eqb_refl. reflexivity.
Qed.

Lemma same_file_twice_witness :
  exists billData,
    extractBillData utc_host scenario (js "bill.pdf") = Normal billData
    /\ statementDate billData = Some (Date.Valid 1739232000000)
    /\ bills (processResults utc_host (fun _ => [])
                [scenario_pdf; scenario_pdf] initial_state)
       = [billData].
Proof.
  destruct (same_file_twice utc_host (fun _ => []) scenario_pdf eq_refl)
    as (billData & Hb & Hbills).
  exists billData.
  assert (Hd : statementDate billData = Some (Date.Valid 1739232000000)).
  { pose proof (extractBillData_normal utc_host (pdf_text scenario_pdf)
                  (pdf_name scenario_pdf)) as Hv.
    rewrite Hb in Hv.
    apply (f_equal (fun c => match c with
                             | Normal r => statementDate r
                             | Throw _ => None
                             end)) in Hv.
    cbv beta iota in Hv. rewrite Hv. vm_compute. reflexivity. }
  split; [exact Hb |]. split; [exact Hd |].
  rewrite Hbills, Hd. reflexivity.
Defined.

(** A page without a statement date, read twice, is there twice. *)
Example undated_file_twice :
  List.length
    (bills (processResults utc_host (fun _ => [])
              [undated_pdf; undated_pdf] initial_state))
  = 2%nat
  /\ statement_times
       (bills (processResults utc_host (fun _ => [])
                 [undated_pdf; undated_pdf] initial_state))
     = [].
Proof. split; vm_compute; reflexivity. Qed.

(** ** The text of a page *)

Section PageText.
Import Pdf.

(** The distance of a number to itself is not above 5, whatever the
    number: it is 0, or NaN for an infinity and for NaN. *)
Lemma far_same y : far y y = false.
Proof.
  unfold far, sub, SFsub.
  destruct y as [s | s | | s m e]; try reflexivity.
  - destruct s; reflexivity.
  - destruct s; reflexivity.
  - rewrite Z.sub_diag. reflexivity.
Qed.

Lemma fold_add_item items : forall lastY text,
  snd (fold_left add_item items (lastY, text)) = text ++ pieces lastY items.
Proof.
  induction items as [| item rest IH]; intros lastY text.
  - cbn. rewrite app_nil_r. reflexivity.
  - cbn [fold_left add_item pieces]. rewrite IH.
    unfold break_before.
    destruct lastY as [y0 |]; [destruct (far (item_y item) y0) |];
      rewrite <- ?app_assoc; reflexivity.
Qed.

Lemma pageText_pieces items : pageText items = pieces None items.
Proof. unfold pageText. rewrite fold_add_item. reflexivity. Qed.

Lemma without_breaks_app a b :
  without_breaks (a ++ b) = without_breaks a ++ without_breaks b.
Proof. apply filter_app. Qed.

Lemma without_breaks_clean s :
  ~ In 10%N s -> without_breaks s = s.
Proof.
  induction s as [| c s IH]; intros H; [reflexivity |].
  cbn. destruct (N.eqb_spec c 10) as [E | _].
  - exfalso. apply H. left. exact E.
  - cbn. f_equal. apply IH. intros Hin. apply H. right. exact Hin.
Qed.

Lemma pieces_without_breaks items : forall lastY,
  Forall (fun item => ~ In 10%N (item_str item)) items ->
  without_breaks (pieces lastY items)
  = flat_map (fun item => item_str item ++ [32%N]) items.
Proof.
  induction items as [| item rest IH]; intros lastY H; [reflexivity |].
  inversion H as [| ? ? Hitem Hrest]; subst.
  cbn [pieces flat_map]. rewrite !without_breaks_app, IH by assumption.
  rewrite (without_breaks_clean _ Hitem).
  replace (without_breaks (break_before lastY item)) with (@nil N).
  - rewrite <- app_assoc. reflexivity.
  - unfold break_before.
    destruct lastY as [y0 |]; [destruct (far (item_y item) y0) |];
      reflexivity.
Qed.

Lemma pieces_same_line y items : forall lastY,
  (lastY = None \/ lastY = Some y) ->
  Forall (fun item => item_y item = y) items ->
  pieces lastY items = flat_map (fun item => item_str item ++ [32%N]) items.
Proof.
  induction items as [| item rest IH]; intros lastY Hl H; [reflexivity |].
  inversion H as [| ? ? Hitem Hrest]; subst.
  cbn [pieces flat_map].
  rewrite (IH (Some (item_y item))) by (auto; right; reflexivity).
  replace (break_before lastY item) with (@nil N).
  - rewrite <- app_assoc. reflexivity.
  - unfold break_before. destruct Hl as [-> | ->]; [reflexivity |].
    rewrite far_same. reflexivity.
Qed.

Lemma fullText_pages pages : forall text,
  fold_left (fun fullText items => fullText ++ pageText items ++ page_break)
    pages text
  = text ++ flat_map (fun items => pageText items ++ page_break) pages.
Proof.
  induction pages as [| p pages IH]; intros text.
  - cbn. rewrite app_nil_r. reflexivity.
  - cbn [fold_left flat_map]. rewrite IH, <- app_assoc. reflexivity.
Qed.

End PageText.

(** X17.  The text of a document holds every item of every page, in
    the order of the items, each followed by one space, and the page
    marker after each page: apart from line feeds nothing is added and
    nothing is lost. *)
Theorem text_keeps_items (pages : list (list Pdf.TextItem)) :
  Forall (Forall (fun item => ~ In 10%N (Pdf.item_str item))) pages ->
  (forall items, In items pages ->
     Pdf.without_breaks (Pdf.pageText items)
     = flat_map (fun item => Pdf.item_str item ++ [32%N]) items)
  /\ Pdf.without_breaks (Pdf.fullText pages)
     = flat_map
         (fun items =>
            flat_map (fun item => Pdf.item_str item ++ [32%N]) items
            ++ js "--- PAGE BREAK ---")
         pages.
Proof.
  intros H.
  assert (Hpage : forall items, In items pages ->
            Pdf.without_breaks (Pdf.pageText items)
            = flat_map (fun item => Pdf.item_str item ++ [32%N]) items).
  { intros items Hin. rewrite pageText_pieces.
    apply pieces_without_breaks.
    rewrite Forall_forall in H. apply H. exact Hin. }
  split; [exact Hpage |].
  unfold Pdf.fullText. rewrite fullText_pages. cbn [app].
  clear H. induction pages as [| p pages IH]; [reflexivity |].
  cbn [flat_map]. rewrite !without_breaks_app.
  rewrite (Hpage p) by (left; reflexivity).
  rewrite IH by (intros items Hin; apply Hpage; right; exact Hin).
  change (Pdf.without_breaks Pdf.page_break) with (js "--- PAGE BREAK ---").
  rewrite <- app_assoc. reflexivity.
Qed.

Lemma text_keeps_items_witness :
  (forall items, In items [Pdf.two_lines; Pdf.one_line] ->
     Pdf.without_breaks (Pdf.pageText items)
     = flat_map (fun item => Pdf.item_str item ++ [32%N]) items)
  /\ Pdf.without_breaks (Pdf.fullText [Pdf.two_lines; Pdf.one_line])
     = flat_map
         (fun items =>
            flat_map (fun item => Pdf.item_str item ++ [32%N]) items
            ++ js "--- PAGE BREAK ---")
         [Pdf.two_lines; Pdf.one_line].
Proof.
  apply (text_keeps_items [Pdf.two_lines; Pdf.one_line]).
  repeat constructor; vm_compute; intuition discriminate.
Defined.

(** X18.  Items on one baseline are never separated by a line feed,
    whatever the number of the baseline. *)
Theorem same_line_never_broken (y : Number.t) (items : list Pdf.TextItem) :
  Forall (fun item => Pdf.item_y item = y) items ->
  Pdf.pageText items
  = flat_map (fun item => Pdf.item_str item ++ [32%N]) items.
Proof.
  intros H. rewrite pageText_pieces.
  apply (pieces_same_line y); [left; reflexivity | exact H].
Qed.

Lemma same_line_never_broken_witness :
  Pdf.pageText Pdf.one_line
  = flat_map (fun item => Pdf.item_str item ++ [32%N]) Pdf.one_line.
Proof.
  apply (same_line_never_broken (Number.of_Z 700) Pdf.one_line).
  repeat constructor.
Defined.

(** Twelve units apart, the amount goes to a line of its own. *)
Example two_lines_text :
  Pdf.pageText Pdf.two_lines
  = js "Basic service charge " ++ [10%N] ++ js "19.00 ".
Proof. vm_compute. reflexivity. Qed.
